(** * Travel-Assistant: a shallow embedding of [travel_agent.py]

    The script is a Streamlit page that reads trip parameters, queries a
    flight-search provider, asks a language model for three texts and
    renders the results.  This development embeds the script's functions
    ([fetch_flights], [extract_cheapest_flights], [format_datetime],
    [build_google_flights_link]), the start-up credential check and the
    button-triggered orchestration, and proves the properties its
    specification states about them.

    Modelling conventions.
    - Python objects obtained from the provider's JSON are terms of [value];
      a [dict] is an association list in insertion order with distinct keys.
    - A raised exception is the [Raise] outcome of the [result] monad.
    - A Python [str] is a [string]: a sequence of 8-bit characters.  The
      character classes of the regular-expression engine ([\d], [\s]) are
      given on these characters, i.e. restricted to their ASCII members.
    - Numbers in provider data are integers ([Z]); the only float of the
      program, [float("inf")], is the constructor [VInf]. *)

From Stdlib Require Import ZArith List String Ascii Bool Arith Lia.
From Stdlib Require Import Permutation Sorted.
Import ListNotations.

Set Warnings "-register-all,-abstract-large-number".

Open Scope list_scope.
Open Scope string_scope.

(* ================================================================== *)
(** * Exceptions and the result monad *)
(* ================================================================== *)

(** The exception classes the embedded code can raise.  [ServiceError] is
    any failure of an external call (network, provider, model);
    [StopException] is what [st.stop()] raises to end the script run. *)
Inductive exn : Type :=
| TypeError
| AttributeError
| KeyError
| IndexError
| ValueError
| ServiceError (msg : string)
| StopException.

Inductive result (A : Type) : Type :=
| Ok (a : A)
| Raise (e : exn).
Arguments Ok {A} a.
Arguments Raise {A} e.

Definition rbind {A B} (r : result A) (k : A -> result B) : result B :=
  match r with
  | Ok a => k a
  | Raise e => Raise e
  end.

Declare Scope result_scope.
Delimit Scope result_scope with result.
Notation "x <- c ;; k" := (rbind c (fun x => k))
  (at level 61, c at next level, right associativity) : result_scope.

(** [try: ... except: ...] with a bare [except], which catches everything. *)
Definition try_except {A} (body : result A) (handler : A) : A :=
  match body with
  | Ok a => a
  | Raise _ => handler
  end.

(** Code with an effect on a state [S]: a step takes the state and gives
    the new state with what it returns or raises. *)
Definition stateful (S A : Type) : Type := S -> S * result A.

Definition ret {S A} (a : A) : stateful S A := fun h => (h, Ok a).

Definition bind {S A B} (c : stateful S A) (k : A -> stateful S B)
  : stateful S B :=
  fun h =>
    match c h with
    | (h', Ok a) => k a h'
    | (h', Raise e) => (h', Raise e)
    end.

Definition lift {S A} (r : result A) : stateful S A := fun h => (h, r).

Declare Scope run_scope.
Delimit Scope run_scope with run.
Notation "x <- c ;; k" := (bind c (fun x => k))
  (at level 61, c at next level, right associativity) : run_scope.
Notation "c ;; k" := (bind c (fun _ => k))
  (at level 61, right associativity) : run_scope.

(** Mapping a fallible function over a list, left to right; the first
    exception wins. *)
Fixpoint rmap {A B} (f : A -> result B) (l : list A) : result (list B) :=
  match l with
  | [] => Ok []
  | x :: l' =>
      (y <- f x ;; ys <- rmap f l' ;; Ok (y :: ys))%result
  end.

(* ================================================================== *)
(** * Python values *)
(* ================================================================== *)

Inductive value : Type :=
| VNone
| VBool (b : bool)
| VInt (n : Z)
| VInf                                   (* float("inf") *)
| VStr (s : string)
| VList (items : list value)
| VDict (entries : list (string * value)).

Fixpoint dict_lookup (k : string) (d : list (string * value)) : option value :=
  match d with
  | [] => None
  | (k', v) :: d' => if String.eqb k k' then Some v else dict_lookup k d'
  end.

(** [x.get(k, default)]: only a dict has the method. *)
Definition py_get (x : value) (k : string) (default : value) : result value :=
  match x with
  | VDict d =>
      match dict_lookup k d with
      | Some v => Ok v
      | None => Ok default
      end
  | _ => Raise AttributeError
  end.

(** Truth value of an object, as tested by [if x:] and [not x]. *)
Definition truthy (x : value) : bool :=
  match x with
  | VNone => false
  | VBool b => b
  | VInt n => negb (n =? 0)%Z
  | VInf => true
  | VStr s => negb (String.eqb s "")
  | VList l => match l with [] => false | _ => true end
  | VDict d => match d with [] => false | _ => true end
  end.

(** [x[0]] and [x[-1]], the two subscripts the script uses. *)
Inductive subscript : Type := First | Last.

Fixpoint string_last (c : ascii) (s : string) : ascii :=
  match s with
  | EmptyString => c
  | String c' s' => string_last c' s'
  end.

Definition py_subscript (x : value) (i : subscript) : result value :=
  match x with
  | VList l =>
      match i, l with
      | _, [] => Raise IndexError
      | First, v :: _ => Ok v
      | Last, v :: l' => Ok (last l' v)
      end
  | VStr s =>
      match i, s with
      | _, EmptyString => Raise IndexError
      | First, String c _ => Ok (VStr (String c ""))
      | Last, String c s' => Ok (VStr (String (string_last c s') ""))
      end
  | VDict _ => Raise KeyError
  | _ => Raise TypeError
  end.

(** Iteration, as performed by [sorted(x, ...)] on its first argument. *)
Definition py_iter (x : value) : result (list value) :=
  match x with
  | VList l => Ok l
  | VDict d => Ok (map (fun kv => VStr (fst kv)) d)
  | VStr s => Ok (map (fun c => VStr (String c "")) (list_ascii_of_string s))
  | _ => Raise TypeError
  end.

(** ** Comparison *)

(** Numbers: [bool] is a subclass of [int]; [float("inf")] is above every
    integer. *)
Inductive number : Type := Fin (n : Z) | Infinity.

Definition as_number (x : value) : option number :=
  match x with
  | VBool b => Some (Fin (if b then 1 else 0)%Z)
  | VInt n => Some (Fin n)
  | VInf => Some Infinity
  | _ => None
  end.

Definition number_eqb (a b : number) : bool :=
  match a, b with
  | Fin m, Fin n => (m =? n)%Z
  | Infinity, Infinity => true
  | _, _ => false
  end.

Definition number_ltb (a b : number) : bool :=
  match a, b with
  | Fin m, Fin n => (m <? n)%Z
  | Fin _, Infinity => true
  | Infinity, _ => false
  end.

(** [a == b]; never raises. *)
Fixpoint py_eq (a b : value) : bool :=
  match a, b with
  | VNone, VNone => true
  | VStr s, VStr t => String.eqb s t
  | VList l, VList m =>
      (fix all2 (l m : list value) : bool :=
         match l, m with
         | [], [] => true
         | x :: l', y :: m' => py_eq x y && all2 l' m'
         | _, _ => false
         end) l m
  | VDict d, VDict e =>
      (List.length d =? List.length e)%nat &&
      (fix sub (d : list (string * value)) : bool :=
         match d with
         | [] => true
         | (k, v) :: d' =>
             match dict_lookup k e with
             | Some w => py_eq v w
             | None => false
             end && sub d'
         end) d
  | _, _ =>
      match as_number a, as_number b with
      | Some x, Some y => number_eqb x y
      | _, _ => false
      end
  end.

Fixpoint string_ltb (s t : string) : bool :=
  match s, t with
  | EmptyString, EmptyString => false
  | EmptyString, String _ _ => true
  | String _ _, EmptyString => false
  | String c s', String d t' =>
      if (nat_of_ascii c <? nat_of_ascii d)%nat then true
      else if (nat_of_ascii d <? nat_of_ascii c)%nat then false
      else string_ltb s' t'
  end.

(** [a < b]: defined between numbers, between strings and between lists;
    anything else is a [TypeError]. *)
Fixpoint py_lt (a b : value) : result bool :=
  match a, b with
  | VStr s, VStr t => Ok (string_ltb s t)
  | VList l, VList m =>
      (fix lex (l m : list value) : result bool :=
         match l, m with
         | [], [] => Ok false
         | [], _ :: _ => Ok true
         | _ :: _, [] => Ok false
         | x :: l', y :: m' => if py_eq x y then lex l' m' else py_lt x y
         end) l m
  | _, _ =>
      match as_number a, as_number b with
      | Some x, Some y => Ok (number_ltb x y)
      | _, _ => Raise TypeError
      end
  end.

(** ** [sorted(iterable, key=f)]

    The keys are computed first, once per element and in order.  The
    elements are then arranged by comparing keys with [<] only, each
    element going after those already placed that are not greater (the
    insertion step of CPython's sort), which makes the sort stable.  When
    some pair of keys is not comparable the exact comparison sequence of
    CPython is not reproduced: which exception-free runs exist for such
    inputs is outside this model. *)
Fixpoint insert_keyed {A} (x : value * A) (l : list (value * A))
  : result (list (value * A)) :=
  match l with
  | [] => Ok [x]
  | y :: l' =>
      (b <- py_lt (fst x) (fst y) ;;
       if b then Ok (x :: y :: l')
       else (r <- insert_keyed x l' ;; Ok (y :: r)))%result
  end.

Fixpoint sort_keyed {A} (placed todo : list (value * A))
  : result (list (value * A)) :=
  match todo with
  | [] => Ok placed
  | x :: todo' =>
      (placed' <- insert_keyed x placed ;; sort_keyed placed' todo')%result
  end.

(** The list part of [sorted]: keys first, then the arrangement.  The
    items themselves are only moved, whatever they are. *)
Definition sorted_by {A} (key : A -> result value) (items : list A)
  : result (list A) :=
  (keyed <- rmap (fun v => k <- key v ;; Ok (k, v)) items ;;
   ranked <- sort_keyed [] keyed ;;
   Ok (map snd ranked))%result.

Definition py_sorted (x : value) (key : value -> result value)
  : result (list value) :=
  (items <- py_iter x ;; sorted_by key items)%result.

(* ================================================================== *)
(** * The flight offer selector *)
(* ================================================================== *)

(** [lambda x: x.get("price", float("inf"))] *)
Definition price_key (x : value) : result value := py_get x "price" VInf.

(** [[
def extract_cheapest_flights(data):
    flights = data.get("best_flights", [])
    return sorted(flights, key=lambda x: x.get("price", float("inf")))[:3]
]] *)
Definition extract_cheapest_flights (data : value) : result (list value) :=
  (flights <- py_get data "best_flights" (VList []) ;;
   ranked <- py_sorted flights price_key ;;
   Ok (firstn 3 ranked))%result.

(* ================================================================== *)
(** * The flight offer selector on references *)
(* ================================================================== *)

(** Python passes objects by reference: the response, its list of offers
    and the offers are objects of a store, and a list or a dict holds the
    locations of its elements.  The same three lines are read here on
    locations, to tell which objects the result shares with the input and
    what happens to the store. *)

Definition loc : Type := nat.

Inductive atom : Type :=
| ANone
| ABool (b : bool)
| AInt (n : Z)
| AInf
| AStr (s : string).

Inductive object : Type :=
| Atom (a : atom)
| ListObj (items : list loc)
| DictObj (entries : list (string * loc)).

Definition store : Type := list object.

Definition atom_value (a : atom) : value :=
  match a with
  | ANone => VNone
  | ABool b => VBool b
  | AInt n => VInt n
  | AInf => VInf
  | AStr s => VStr s
  end.

(** A new object goes to the end of the store; nothing else moves. *)
Definition alloc (o : object) : stateful store loc :=
  fun s => ((s ++ [o])%list, Ok (List.length s)).

Fixpoint alloc_all (os : list object) : stateful store (list loc) :=
  match os with
  | [] => ret []
  | o :: os' => (l <- alloc o ;; ls <- alloc_all os' ;; ret (l :: ls))%run
  end.

(** Reading the store changes nothing. *)
Definition reading {A} (f : store -> result A) : stateful store A :=
  fun s => (s, f s).

Fixpoint ref_lookup (k : string) (d : list (string * loc)) : option loc :=
  match d with
  | [] => None
  | (k', l) :: d' => if String.eqb k k' then Some l else ref_lookup k d'
  end.

Fixpoint all_some {A} (l : list (option A)) : option (list A) :=
  match l with
  | [] => Some []
  | Some a :: l' => option_map (cons a) (all_some l')
  | None :: _ => None
  end.

(** The value an object stands for, followed to the given depth. *)
Fixpoint denote (fuel : nat) (s : store) (l : loc) : option value :=
  match fuel with
  | O => None
  | S fuel' =>
      match nth_error s l with
      | None => None
      | Some (Atom a) => Some (atom_value a)
      | Some (ListObj items) =>
          option_map VList (all_some (map (denote fuel' s) items))
      | Some (DictObj entries) =>
          option_map VDict
            (all_some (map (fun kl => option_map (pair (fst kl))
                                                 (denote fuel' s (snd kl)))
                           entries))
      end
  end.

(** No chain of references in a store of [n] objects without a cycle is
    longer than [n]. *)
Definition store_value (s : store) (l : loc) : option value :=
  denote (S (List.length s)) s l.

(** [x.get(k, default)] *)
Definition ref_get (x : loc) (k : string) (default : loc) : stateful store loc :=
  reading (fun s =>
    match nth_error s x with
    | Some (DictObj d) =>
        match ref_lookup k d with
        | Some l => Ok l
        | None => Ok default
        end
    | _ => Raise AttributeError
    end).

(** [lambda x: x.get("price", float("inf"))], with the key taken at its
    value: the sort only compares it. *)
Definition ref_price_key (s : store) (x : loc) : result value :=
  match nth_error s x with
  | Some (DictObj d) =>
      match ref_lookup "price" d with
      | Some l =>
          match store_value s l with
          | Some v => Ok v
          | None => Raise ValueError
          end
      | None => Ok VInf
      end
  | _ => Raise AttributeError
  end.

(** Iteration: a list gives its elements; a dict and a string give new
    string objects. *)
Definition ref_iter (x : loc) : stateful store (list loc) :=
  fun s =>
    match nth_error s x with
    | Some (ListObj items) => (s, Ok items)
    | Some (DictObj d) => alloc_all (map (fun kl => Atom (AStr (fst kl))) d) s
    | Some (Atom (AStr t)) =>
        alloc_all (map (fun c => Atom (AStr (String c "")))
                       (list_ascii_of_string t)) s
    | _ => (s, Raise TypeError)
    end.

(** [sorted(x, key=...)]: a new list of the same objects. *)
Definition ref_sorted (x : loc) (key : store -> loc -> result value)
  : stateful store loc :=
  (items <- ref_iter x ;;
   ranked <- reading (fun s => sorted_by (key s) items) ;;
   alloc (ListObj ranked))%run.

(** [x[:3]] *)
Definition ref_first3 (x : loc) : stateful store loc :=
  (items <- reading (fun s =>
              match nth_error s x with
              | Some (ListObj items) => Ok items
              | _ => Raise TypeError
              end) ;;
   alloc (ListObj (firstn 3 items)))%run.

(** [[
def extract_cheapest_flights(data):
    flights = data.get("best_flights", [])
    return sorted(flights, key=lambda x: x.get("price", float("inf")))[:3]
]] *)
Definition ref_extract_cheapest_flights (data : loc) : stateful store loc :=
  (empty <- alloc (ListObj []) ;;
   flights <- ref_get data "best_flights" empty ;;
   ranked <- ref_sorted flights ref_price_key ;;
   ref_first3 ranked)%run.

(* ================================================================== *)
(** * Characters and decimal text *)
(* ================================================================== *)

Definition is_digit (c : ascii) : bool :=
  ((48 <=? nat_of_ascii c) && (nat_of_ascii c <=? 57))%nat.

Definition digit_value (c : ascii) : Z := Z.of_nat (nat_of_ascii c) - 48.

(** A character of a string is a code point below 256.  Of these,
    [str.isspace] and the engine's [\s] accept: tab, line feed, vertical
    tab, form feed, carriage return, the four separators 0x1c-0x1f, the
    space, the next-line character 0x85 and the no-break space 0xa0. *)
Definition is_space (c : ascii) : bool :=
  let n := nat_of_ascii c in
  (((9 <=? n) && (n <=? 13)) || ((28 <=? n) && (n <=? 32))
   || (n =? 133) || (n =? 160))%nat.

Definition digit_char (d : Z) : ascii := ascii_of_nat (48 + Z.to_nat d).

(** The decimal digits of [n], least significant first, put in front of
    [acc]; [fuel] bounds their number. *)
Fixpoint dec_digits (fuel : nat) (n : Z) (acc : string) : string :=
  match fuel with
  | O => acc
  | S fuel' =>
      let acc' := String (digit_char (n mod 10)) acc in
      if (n / 10 =? 0)%Z then acc' else dec_digits fuel' (n / 10) acc'
  end.

(** [str(n)] for an [int]: a number has no more digits than its value
    plus one. *)
Definition dec (n : Z) : string :=
  if (n <? 0)%Z then String "-" (dec_digits (S (Z.to_nat (- n))) (- n) "")
  else dec_digits (S (Z.to_nat n)) n "".

Fixpoint zeros (k : nat) : string :=
  match k with
  | O => ""
  | S k' => String "0" (zeros k')
  end.

(** ["%0<width>d" % n], for [n >= 0]. *)
Definition zfill (width : nat) (n : Z) : string :=
  let s := dec n in zeros (width - String.length s) ++ s.

(* ================================================================== *)
(** * Regular expressions, as far as [_strptime] needs them *)
(* ================================================================== *)

Inductive regex : Type :=
| Eps
| Chr (c : ascii)                        (* a literal character *)
| Rng (lo hi : ascii)                    (* [lo-hi] *)
| Dgt                                    (* \d *)
| SpacePlus                              (* \s+ *)
| Cat (r1 r2 : regex)
| Alt (r1 r2 : regex)                    (* r1|r2 *)
| Grp (name : string) (r : regex).       (* (?P<name>r) *)

(** One way of matching at the start of the subject: the text consumed,
    the named groups set on the way, and what is left. *)
Definition hit : Type := string * list (string * string) * string.

Definition one_char (p : ascii -> bool) (s : string) : list hit :=
  match s with
  | String c s' => if p c then [(String c "", [], s')] else []
  | EmptyString => []
  end.

(** The non-empty runs of whitespace at the start of [s], longest first:
    [\s+] is greedy and gives characters back one at a time. *)
Fixpoint space_runs (s : string) : list hit :=
  match s with
  | String c s' =>
      if is_space c
      then (map (fun h : hit => let '(m, g, r) := h in (String c m, g, r))
                (space_runs s')
            ++ [(String c "", [], s')])%list
      else []
  | EmptyString => []
  end.

(** All the ways [r] matches at the start of [s], in the order a
    backtracking engine tries them. *)
Fixpoint rmatch (r : regex) (s : string) : list hit :=
  match r with
  | Eps => [("", [], s)]
  | Chr c => one_char (Ascii.eqb c) s
  | Rng lo hi =>
      one_char (fun c => (nat_of_ascii lo <=? nat_of_ascii c)%nat
                         && (nat_of_ascii c <=? nat_of_ascii hi)%nat) s
  | Dgt => one_char is_digit s
  | SpacePlus => space_runs s
  | Cat r1 r2 =>
      flat_map (fun h1 : hit =>
                  let '(m1, g1, s1) := h1 in
                  map (fun h2 : hit =>
                         let '(m2, g2, s2) := h2 in (m1 ++ m2, (g1 ++ g2)%list, s2))
                      (rmatch r2 s1))
               (rmatch r1 s)
  | Alt r1 r2 => (rmatch r1 s ++ rmatch r2 s)%list
  | Grp name r1 =>
      map (fun h : hit => let '(m, g, s') := h in (m, (name, m) :: g, s'))
          (rmatch r1 s)
  end.

(** [re.match]: the first way found, if any. *)
Definition re_match (r : regex) (s : string) : option hit :=
  match rmatch r s with
  | [] => None
  | h :: _ => Some h
  end.

Fixpoint group (name : string) (g : list (string * string)) : option string :=
  match g with
  | [] => None
  | (n, m) :: g' => if String.eqb name n then Some m else group name g'
  end.

(* ================================================================== *)
(** * [datetime]: parsing and formatting *)
(* ================================================================== *)

Record date : Type := mk_date { d_year : Z; d_month : Z; d_day : Z }.

Record datetime : Type := mk_datetime
  { year : Z; month : Z; day : Z; hour : Z; minute : Z }.

(** ** [datetime.strptime] *)

Definition alts (rs : list regex) (last : regex) : regex :=
  fold_right Alt last rs.

(** The entries of [_strptime.TimeRE] for the directives the script uses. *)
Definition directive_regex (d : ascii) : option regex :=
  if Ascii.eqb d "Y" then
    (* (?P<Y>\d\d\d\d) *)
    Some (Grp "Y" (Cat Dgt (Cat Dgt (Cat Dgt Dgt))))
  else if Ascii.eqb d "m" then
    (* (?P<m>1[0-2]|0[1-9]|[1-9]) *)
    Some (Grp "m" (alts [Cat (Chr "1") (Rng "0" "2");
                         Cat (Chr "0") (Rng "1" "9")]
                        (Rng "1" "9")))
  else if Ascii.eqb d "d" then
    (* (?P<d>3[0-1]|[1-2]\d|0[1-9]|[1-9]| [1-9]) *)
    Some (Grp "d" (alts [Cat (Chr "3") (Rng "0" "1");
                         Cat (Rng "1" "2") Dgt;
                         Cat (Chr "0") (Rng "1" "9");
                         Rng "1" "9"]
                        (Cat (Chr " ") (Rng "1" "9"))))
  else if Ascii.eqb d "H" then
    (* (?P<H>2[0-3]|[0-1]\d|\d) *)
    Some (Grp "H" (alts [Cat (Chr "2") (Rng "0" "3");
                         Cat (Rng "0" "1") Dgt]
                        Dgt))
  else if Ascii.eqb d "M" then
    (* (?P<M>[0-5]\d|\d) *)
    Some (Grp "M" (alts [Cat (Rng "0" "5") Dgt] Dgt))
  else None.

(** [TimeRE.pattern]: a run of whitespace in the format becomes [\s+], a
    directive becomes its regular expression, any other character stands
    for itself; a directive that is not in the table, or a [%] at the very
    end, is refused.  [in_space] tells that the previous character was
    whitespace, i.e. that its [\s+] is already there. *)
Fixpoint pattern_from (in_space : bool) (format : string) : option regex :=
  match format with
  | EmptyString => Some Eps
  | String "%" EmptyString => None
  | String "%" (String d format') =>
      match directive_regex d, pattern_from false format' with
      | Some r, Some rs => Some (Cat r rs)
      | _, _ => None
      end
  | String c format' =>
      if is_space c then
        match pattern_from true format' with
        | Some rs => Some (if in_space then rs else Cat SpacePlus rs)
        | None => None
        end
      else
        match pattern_from false format' with
        | Some rs => Some (Cat (Chr c) rs)
        | None => None
        end
  end.

Definition pattern (format : string) : option regex := pattern_from false format.

Fixpoint strip_left (s : string) : string :=
  match s with
  | String c s' => if is_space c then strip_left s' else s
  | EmptyString => s
  end.

Fixpoint digits_value (acc : Z) (s : string) : option Z :=
  match s with
  | EmptyString => Some acc
  | String c s' =>
      if is_digit c then digits_value (10 * acc + digit_value c)%Z s' else None
  end.

(** [int(s)] on the texts a group can capture: optional leading
    whitespace, then decimal digits. *)
Definition py_int (s : string) : result Z :=
  match strip_left s with
  | EmptyString => Raise ValueError
  | t => match digits_value 0 t with
         | Some n => Ok n
         | None => Raise ValueError
         end
  end.

Definition field (name : string) (found : list (string * string))
                 (default : Z) : result Z :=
  match group name found with
  | Some m => py_int m
  | None => Ok default
  end.

Definition is_leap (y : Z) : bool :=
  ((y mod 4 =? 0) && (negb (y mod 100 =? 0) || (y mod 400 =? 0)))%Z.

Definition days_in_month (y m : Z) : Z :=
  (if m =? 2 then (if is_leap y then 29 else 28)
   else if (m =? 4) || (m =? 6) || (m =? 9) || (m =? 11) then 30
   else 31)%Z.

(** The range checks of the [date] and [datetime] constructors. *)
Definition valid_date (y m d : Z) : bool :=
  ((1 <=? y) && (y <=? 9999) && (1 <=? m) && (m <=? 12)
   && (1 <=? d) && (d <=? days_in_month y m))%Z.

Definition valid_time (h mi : Z) : bool :=
  ((0 <=? h) && (h <=? 23) && (0 <=? mi) && (mi <=? 59))%Z.

(** [datetime.strptime(data_string, format)]: both arguments must be
    [str]; the format's regular expression must match at the start of the
    string and consume all of it; the captured fields must make a
    date. *)
Definition strptime (data_string : value) (format : string) : result datetime :=
  match data_string with
  | VStr s =>
      match pattern format with
      | None => Raise ValueError                (* bad directive *)
      | Some format_regex =>
          match re_match format_regex s with
          | None => Raise ValueError            (* does not match format *)
          | Some (_, found, rest) =>
              if negb (String.eqb rest "") then
                Raise ValueError                (* unconverted data remains *)
              else
                (y <- field "Y" found 1900 ;;
                 m <- field "m" found 1 ;;
                 d <- field "d" found 1 ;;
                 h <- field "H" found 0 ;;
                 mi <- field "M" found 0 ;;
                 if valid_date y m d && valid_time h mi
                 then Ok (mk_datetime y m d h mi)
                 else Raise ValueError)%result
          end
      end
  | _ => Raise TypeError
  end.

(** ** [datetime.strftime] *)

Definition month_abbr (m : Z) : string :=
  nth (Z.to_nat (m - 1))
      ["Jan"; "Feb"; "Mar"; "Apr"; "May"; "Jun";
       "Jul"; "Aug"; "Sep"; "Oct"; "Nov"; "Dec"] "".

Definition hour12 (h : Z) : Z :=
  (if h mod 12 =? 0 then 12 else h mod 12)%Z.

(** The conversions, in the C locale, as the C library makes them: two
    digits for the day, the month, the hours and the minute; for [%Y] the
    year in decimal as it is, so without leading zeros below 1000. *)
Definition directive_text (dt : datetime) (d : ascii) : string :=
  if Ascii.eqb d "d" then zfill 2 (day dt)
  else if Ascii.eqb d "b" then month_abbr (month dt)
  else if Ascii.eqb d "Y" then dec (year dt)
  else if Ascii.eqb d "m" then zfill 2 (month dt)
  else if Ascii.eqb d "H" then zfill 2 (hour dt)
  else if Ascii.eqb d "I" then zfill 2 (hour12 (hour dt))
  else if Ascii.eqb d "M" then zfill 2 (minute dt)
  else if Ascii.eqb d "p" then (if (hour dt <? 12)%Z then "AM" else "PM")
  else if Ascii.eqb d "%" then "%"
  else String "%" (String d "").

Fixpoint strftime (dt : datetime) (format : string) : string :=
  match format with
  | EmptyString => ""
  | String "%" (String d format') => directive_text dt d ++ strftime dt format'
  | String c format' => String c (strftime dt format')
  end.

(** [str(d)] for a [datetime.date]: ISO 8601. *)
Definition date_isoformat (d : date) : string :=
  zfill 4 (d_year d) ++ "-" ++ zfill 2 (d_month d) ++ "-" ++ zfill 2 (d_day d).

(* ================================================================== *)
(** * The timestamp formatter *)
(* ================================================================== *)

(** [[
def format_datetime(t):
    try:
        return datetime.strptime(t, "%Y-%m-%d %H:%M").strftime("%d %b %Y | %I:%M %p")
    except:
        return "N/A"
]] *)
Definition format_datetime (t : value) : string :=
  try_except
    (dt <- strptime t "%Y-%m-%d %H:%M" ;;
     Ok (strftime dt "%d %b %Y | %I:%M %p"))%result
    "N/A".

(* ================================================================== *)
(** * The booking-link builder *)
(* ================================================================== *)

(** What a replacement field [{x}] of an f-string puts in the text:
    [format(x, "")], which is [x] itself for a [str], ISO 8601 for a
    [datetime.date] and the decimal numeral for an [int]. *)
Class Formattable (A : Type) : Type := py_format : A -> string.

#[export] Instance format_str : Formattable string := fun s => s.
#[export] Instance format_date : Formattable date := date_isoformat.
#[export] Instance format_int : Formattable Z := dec.

(** [[
def build_google_flights_link(source, destination, departure_date, return_date):
    return (
        "https://www.google.com/travel/flights?"
        f"q=Flights%20from%20{source}%20to%20{destination}"
        f"%20on%20{departure_date}%20returning%20{return_date}"
    )
]] *)
Definition build_google_flights_link
    {A B C D : Type}
    `{Formattable A} `{Formattable B} `{Formattable C} `{Formattable D}
    (source : A) (destination : B) (departure_date : C) (return_date : D)
  : string :=
  "https://www.google.com/travel/flights?"
  ++ ("q=Flights%20from%20" ++ py_format source
      ++ "%20to%20" ++ py_format destination)
  ++ ("%20on%20" ++ py_format departure_date
      ++ "%20returning%20" ++ py_format return_date).

(* ================================================================== *)
(** * The page: inputs, environment, what is shown and what is called *)
(* ================================================================== *)

(** The values of the input widgets for one run of the script. *)
Record inputs : Type := mk_inputs
  { source : string;
    destination : string;
    num_days : Z;
    travel_theme : string;
    activity_preferences : string;
    departure_date : date;
    return_date : date;
    budget : string;
    flight_class : string;
    hotel_rating : string;
    visa_required : bool;
    travel_insurance : bool;
    generate_clicked : bool }.

(** What [os.getenv] returns for the two keys. *)
Record environment : Type := mk_environment
  { SERPAPI_KEY : option string;
    OPENROUTER_API_KEY : option string }.

(** [not key]: the variable is unset or empty. *)
Definition quoted (s : string) : string :=
  String (ascii_of_nat 34) (s ++ String (ascii_of_nat 34) "").

Definition absent (key : option string) : bool :=
  match key with
  | None => true
  | Some k => String.eqb k ""
  end.

(** The Python object [os.getenv] returned. *)
Definition env_value (key : option string) : value :=
  match key with
  | None => VNone
  | Some k => VStr k
  end.

(** The request of [client.chat.completions.create]. *)
Record chat_request : Type := mk_chat_request
  { model : string;
    messages : list (string * string);      (* role, content *)
    temperature : string }.                 (* the literal of the source *)

(** The interpolated fields of a flight card; the fixed markup around
    them is not represented. *)
Record card : Type := mk_card
  { card_airline : value;
    card_departure : string;
    card_arrival : string;
    card_duration : value;
    card_price : value;
    card_link : string }.

Inductive element : Type :=
| PageConfig (title : string)
| Markdown (html : string)
| Input (label : string)
| Title (text : string)
| Spinner (text : string)
| Subheader (text : string)
| Columns (n : nat)
| Card (c : card)
| Write (text : string)
| Warning (text : string)
| Error (text : string)
| Success (text : string).

Inductive place : Type := Main | Sidebar | Column (idx : nat).

(** The observable steps of a run, in order: an element put on the page,
    or a request sent over the network. *)
Inductive event : Type :=
| Show (p : place) (e : element)
| FlightSearch (params : list (string * value))
| ChatCompletion (req : chat_request).

(** The outside world: each service answers a request, possibly depending
    on everything that happened before, or fails.  [json.dumps] is a
    library function of which only the result text matters here. *)
Record world : Type := mk_world
  { serp_api : list event -> list (string * value) -> result value;
    chat_api : list event -> chat_request -> result string;
    json_dumps : list value -> string }.

(** A step of the script: it extends the history and returns or raises. *)
Definition run (A : Type) : Type := stateful (list event) A.

Definition emit (e : event) : run unit := fun h => ((h ++ [e])%list, Ok tt).

Definition show (p : place) (e : element) : run unit := emit (Show p e).

(** The arguments [run_ai] passes to [client.chat.completions.create]. *)
Definition chat_request_for (prompt : string) : chat_request :=
  mk_chat_request
    "meta-llama/llama-3.1-8b-instruct"
    [("system", "You are a professional AI travel planner.");
     ("user", prompt)]
    "0.7".

Section Script.

Variable env : environment.
Variable ui : inputs.
Variable w : world.

(** [[
def run_ai(prompt):
    response = client.chat.completions.create(
        model="meta-llama/llama-3.1-8b-instruct",
        messages=[
            {"role": "system", "content": "You are a professional AI travel planner."},
            {"role": "user", "content": prompt}
        ],
        temperature=0.7
    )
    return response.choices[0].message.content
]] *)
Definition run_ai (prompt : string) : run string :=
  let req := chat_request_for prompt in
  fun h =>
    ((h ++ [ChatCompletion req])%list, chat_api w h req).

(** The request payload of [fetch_flights]. *)
Definition flight_params : list (string * value) :=
  [("engine", VStr "google_flights");
   ("departure_id", VStr (source ui));
   ("arrival_id", VStr (destination ui));
   ("outbound_date", VStr (date_isoformat (departure_date ui)));
   ("return_date", VStr (date_isoformat (return_date ui)));
   ("currency", VStr "INR");
   ("hl", VStr "en");
   ("api_key", env_value (SERPAPI_KEY env))].

(** [[
def fetch_flights():
    params = { ... }
    search = GoogleSearch(params)
    return search.get_dict()
]] *)
Definition fetch_flights : run value :=
  let params := flight_params in
  fun h => ((h ++ [FlightSearch params])%list, serp_api w h params).

Definition research_prompt : string :=
  "Research top attractions, safety tips, and best experiences in "
  ++ destination ui ++ " "
  ++ "for a " ++ py_format (num_days ui) ++ "-day " ++ travel_theme ui
  ++ ". Activities: " ++ activity_preferences ui ++ ".".

Definition hotels_prompt : string :=
  "Suggest best hotels (" ++ hotel_rating ui ++ ") and restaurants in "
  ++ destination ui ++ " "
  ++ "for a " ++ budget ui ++ " budget.".

Definition itinerary_prompt (cheapest_flights : list value) : string :=
  "Create a detailed " ++ py_format (num_days ui) ++ "-day itinerary for "
  ++ destination ui ++ ". "
  ++ "Theme: " ++ travel_theme ui ++ ". Budget: " ++ budget ui ++ ". "
  ++ "Activities: " ++ activity_preferences ui ++ ". "
  ++ "Flights: " ++ json_dumps w cheapest_flights ++ ".".

(** One turn of the loop over the selected offers, under
    [with cols[idx]:]. *)
Definition render_offer (idx : nat) (flight : value) : run unit :=
  (flights_info <- lift (py_get flight "flights" (VList [])) ;;
   if negb (truthy flights_info) then
     show (Column idx) (Warning "Flight details unavailable")
   else
     first <- lift (py_subscript flights_info First) ;;
     departure <- lift (py_get first "departure_airport" (VDict [])) ;;
     final <- lift (py_subscript flights_info Last) ;;
     arrival <- lift (py_get final "arrival_airport" (VDict [])) ;;
     first' <- lift (py_subscript flights_info First) ;;
     airline <- lift (py_get first' "airline" (VStr "Unknown Airline")) ;;
     price <- lift (py_get flight "price" (VStr "N/A")) ;;
     duration <- lift (py_get flight "total_duration" (VStr "N/A")) ;;
     dep <- lift (py_get departure "time" (VStr "")) ;;
     let dep_time := format_datetime dep in
     arr <- lift (py_get arrival "time" (VStr "")) ;;
     let arr_time := format_datetime arr in
     let booking_link :=
       build_google_flights_link
         (source ui) (destination ui) (departure_date ui) (return_date ui) in
     show (Column idx)
          (Card (mk_card airline dep_time arr_time duration price
                         booking_link)))%run.

(** [for idx, flight in enumerate(cheapest_flights):] from [idx] on. *)
Fixpoint render_offers (idx : nat) (cheapest_flights : list value) : run unit :=
  match cheapest_flights with
  | [] => ret tt
  | flight :: others =>
      (render_offer idx flight ;; render_offers (S idx) others)%run
  end.

(** The display block of the plan. *)
Definition display (cheapest_flights : list value)
                   (research hotels itinerary : string) : run unit :=
  (show Main (Subheader "✈️ Cheapest Flights") ;;
   match cheapest_flights with
   | _ :: _ =>
       show Main (Columns (List.length cheapest_flights)) ;;
       render_offers 0 cheapest_flights
   | [] => show Main (Warning "⚠️ No flights found")
   end ;;
   show Main (Subheader "🏨 Hotels & Restaurants") ;;
   show Main (Write hotels) ;;
   show Main (Subheader "🗺️ Personalized Itinerary") ;;
   show Main (Write itinerary) ;;
   show Main (Success "✅ Travel plan generated successfully!"))%run.

(** The body of [if st.button("🚀 Generate Travel Plan"):]. *)
Definition generate_plan : run unit :=
  (show Main (Spinner "✈️ Fetching flights...") ;;
   flight_data <- fetch_flights ;;
   cheapest_flights <- lift (extract_cheapest_flights flight_data) ;;
   show Main (Spinner "🔍 Researching destination...") ;;
   research <- run_ai research_prompt ;;
   show Main (Spinner "🏨 Finding hotels & food...") ;;
   hotels <- run_ai hotels_prompt ;;
   show Main (Spinner "🗺️ Creating itinerary...") ;;
   itinerary <- run_ai (itinerary_prompt cheapest_flights) ;;
   display cheapest_flights research hotels itinerary)%run.

(** The page above the button: configuration, heading, input widgets. *)
Definition page_header : run unit :=
  (show Main (PageConfig "🌍 AI Travel Planner") ;;
   show Main (Markdown "
<style>
.title { text-align:center; font-size:36px; font-weight:bold; color:#ff5733; }
.subtitle { text-align:center; font-size:20px; color:#555; }
</style>
") ;;
   show Main (Markdown ("<h1 class=" ++ quoted "title"
                        ++ ">✈️ AI-Powered Travel Planner</h1>")) ;;
   show Main (Markdown ("<p class=" ++ quoted "subtitle"
                        ++ ">Plan your dream trip using AI</p>")) ;;
   show Main (Input "🛫 Departure City (IATA Code)") ;;
   show Main (Input "🛬 Destination City (IATA Code)") ;;
   show Main (Input "🕒 Trip Duration (Days)") ;;
   show Main (Input "🎭 Travel Theme") ;;
   show Main (Input "🌍 Preferred Activities") ;;
   show Main (Input "Departure Date") ;;
   show Main (Input "Return Date") ;;
   show Sidebar (Title "🧳 Preferences") ;;
   show Sidebar (Input "💰 Budget") ;;
   show Sidebar (Input "✈️ Flight Class") ;;
   show Sidebar (Input "🏨 Hotel Rating") ;;
   show Sidebar (Input "🛂 Visa Required") ;;
   show Sidebar (Input "🛡️ Travel Insurance"))%run.

(** One run of the script, top to bottom. *)
Definition script : run unit :=
  (if absent (SERPAPI_KEY env) || absent (OPENROUTER_API_KEY env) then
     show Main (Error "❌ API keys missing in .env file") ;;
     lift (Raise StopException)
   else
     page_header ;;
     show Main (Input "🚀 Generate Travel Plan") ;;
     if generate_clicked ui then generate_plan else ret tt)%run.

End Script.

(* ================================================================== *)
(** * Vocabulary of the specification *)
(* ================================================================== *)

(** ** Provider responses

    The shape the provider documents: a mapping that may hold a
    ["best_flights"] list of offer objects, each of which may hold an
    integer ["price"]. *)
Definition is_offer (o : value) : bool :=
  match o with
  | VDict d =>
      match dict_lookup "price" d with
      | None | Some (VInt _) => true
      | Some _ => false
      end
  | _ => false
  end.

Definition is_provider_response (data : value) : bool :=
  match data with
  | VDict d =>
      match dict_lookup "best_flights" d with
      | None => true
      | Some (VList offers) => forallb is_offer offers
      | Some _ => false
      end
  | _ => false
  end.

(** The candidate offer list of a response; absent means empty. *)
Definition candidate_offers (data : value) : list value :=
  match data with
  | VDict d =>
      match dict_lookup "best_flights" d with
      | Some (VList offers) => offers
      | _ => []
      end
  | _ => []
  end.

(** The price an offer is ranked by: its ["price"], or infinity when it
    has none. *)
Definition offer_price (o : value) : number :=
  match o with
  | VDict d =>
      match dict_lookup "price" d with
      | Some (VInt p) => Fin p
      | _ => Infinity
      end
  | _ => Infinity
  end.

Definition number_leb (a b : number) : bool := negb (number_ltb b a).

Definition cheaper_or_equal (a b : value) : Prop :=
  number_leb (offer_price a) (offer_price b) = true.

Definition priced_at (p : number) (o : value) : bool :=
  number_eqb (offer_price o) p.

(** ** Keyed lists

    A list of (key, item) pairs as [sorted] holds it, read through a
    function [rk] that gives the number each pair is ranked by: every key
    is that number, the list is in ascending order, a pair has a given
    rank. *)
Definition keyed_ok {A} (rk : value * A -> number) (l : list (value * A)) : Prop :=
  Forall (fun kx => as_number (fst kx) = Some (rk kx)) l.

Definition rank_le {A} (rk : value * A -> number) (a b : value * A) : Prop :=
  number_leb (rk a) (rk b) = true.

Definition ranked_at {A} (rk : value * A -> number) (p : number) (kx : value * A)
  : bool :=
  number_eqb (rk kx) p.

(** The key [sorted] sees for a rank. *)
Definition key_of_number (n : number) : value :=
  match n with
  | Fin p => VInt p
  | Infinity => VInf
  end.

(** The keyed list [sorted] builds from a list of offers. *)
Definition keyed_offers (offers : list value) : list (value * value) :=
  map (fun o => (key_of_number (offer_price o), o)) offers.

(** ** Timestamps

    The text of a timestamp in the layout ["YYYY-MM-DD HH:MM"], from its
    fields, and the test that a string has that layout: sixteen
    characters, digits everywhere but for the two hyphens, the space and
    the colon. *)
Definition timestamp_text (y mo d h mi : Z) : string :=
  zfill 4 y ++ "-" ++ zfill 2 mo ++ "-" ++ zfill 2 d
  ++ " " ++ zfill 2 h ++ ":" ++ zfill 2 mi.

Definition strict_layout (s : string) : bool :=
  match list_ascii_of_string s with
  | [y1; y2; y3; y4; s1; m1; m2; s2; d1; d2; s3; h1; h2; s4; n1; n2] =>
      forallb is_digit [y1; y2; y3; y4; m1; m2; d1; d2; h1; h2; n1; n2]
      && Ascii.eqb s1 "-" && Ascii.eqb s2 "-"
      && Ascii.eqb s3 " " && Ascii.eqb s4 ":"
  | _ => false
  end.

(** The calendar and the clock the specification speaks of: the
    Gregorian rule for leap years, the lengths of the months, the dates
    from year 1 to year 9999, the times from 00:00 to 23:59. *)
Definition leap_year (y : Z) : bool :=
  ((y mod 400 =? 0) || ((y mod 4 =? 0) && negb (y mod 100 =? 0)))%Z.

Definition month_length (y mo : Z) : Z :=
  match mo with
  | 1 | 3 | 5 | 7 | 8 | 10 | 12 => 31
  | 4 | 6 | 9 | 11 => 30
  | 2 => if leap_year y then 29 else 28
  | _ => 0
  end%Z.

Definition calendar_date (y mo d : Z) : bool :=
  ((1 <=? y) && (y <=? 9999) && (1 <=? mo) && (mo <=? 12)
   && (1 <=? d) && (d <=? month_length y mo))%Z.

Definition time_of_day (h mi : Z) : bool :=
  ((0 <=? h) && (h <=? 23) && (0 <=? mi) && (mi <=? 59))%Z.

(** The English short names of the months, the hour on the twelve-hour
    clock, and the half of the day. *)
Definition month_name (mo : Z) : string :=
  match mo with
  | 1 => "Jan" | 2 => "Feb" | 3 => "Mar" | 4 => "Apr"
  | 5 => "May" | 6 => "Jun" | 7 => "Jul" | 8 => "Aug"
  | 9 => "Sep" | 10 => "Oct" | 11 => "Nov" | 12 => "Dec"
  | _ => ""
  end%Z.

Definition clock_hour (h : Z) : Z :=
  (if h =? 0 then 12 else if h <=? 12 then h else h - 12)%Z.

Definition meridiem (h : Z) : string :=
  if (h <? 12)%Z then "AM" else "PM".

(** The rendering of the fields of a timestamp: the day on two digits,
    the name of the month, the year as a number, a bar, the time on the
    twelve-hour clock with its half of the day.  From the year 1000 on it
    reads ["DD Mon YYYY | HH:MM AM/PM"]. *)
Definition rendering (y mo d h mi : Z) : string :=
  zfill 2 d ++ " " ++ month_name mo ++ " " ++ dec y ++ " | "
  ++ zfill 2 (clock_hour h) ++ ":" ++ zfill 2 mi ++ " " ++ meridiem h.

(** The test that a string has the layout ["DD Mon YYYY | HH:MM AM/PM"]:
    two digits, a three-letter month name, four digits, a bar, the time
    on two and two digits, and [AM] or [PM]. *)
Definition is_upper (c : ascii) : bool :=
  ((65 <=? nat_of_ascii c) && (nat_of_ascii c <=? 90))%nat.

Definition is_lower (c : ascii) : bool :=
  ((97 <=? nat_of_ascii c) && (nat_of_ascii c <=? 122))%nat.

Definition rendering_layout (s : string) : bool :=
  match list_ascii_of_string s with
  | [d1; d2; s1; b1; b2; b3; s2; y1; y2; y3; y4; s3; bar; s4;
     h1; h2; colon; n1; n2; s5; ap; m] =>
      forallb is_digit [d1; d2; y1; y2; y3; y4; h1; h2; n1; n2]
      && is_upper b1 && is_lower b2 && is_lower b3
      && forallb (Ascii.eqb " ") [s1; s2; s3; s4; s5]
      && Ascii.eqb bar "|" && Ascii.eqb colon ":"
      && (Ascii.eqb ap "A" || Ascii.eqb ap "P") && Ascii.eqb m "M"
  | _ => false
  end.

(** The regular expression [_strptime] compiles ["%Y-%m-%d %H:%M"] to. *)
Definition timestamp_regex : regex :=
  Cat (Grp "Y" (Cat Dgt (Cat Dgt (Cat Dgt Dgt))))
 (Cat (Chr "-")
 (Cat (Grp "m" (Alt (Cat (Chr "1") (Rng "0" "2"))
               (Alt (Cat (Chr "0") (Rng "1" "9")) (Rng "1" "9"))))
 (Cat (Chr "-")
 (Cat (Grp "d" (Alt (Cat (Chr "3") (Rng "0" "1"))
               (Alt (Cat (Rng "1" "2") Dgt)
               (Alt (Cat (Chr "0") (Rng "1" "9"))
               (Alt (Rng "1" "9") (Cat (Chr " ") (Rng "1" "9")))))))
 (Cat SpacePlus
 (Cat (Grp "H" (Alt (Cat (Chr "2") (Rng "0" "3"))
               (Alt (Cat (Rng "0" "1") Dgt) Dgt)))
 (Cat (Chr ":")
 (Cat (Grp "M" (Alt (Cat (Rng "0" "5") Dgt) Dgt))
      Eps)))))))).

(** ** Requests *)

(** The rest of [generate_plan] after [fetch_flights] has returned
    [flight_data]. *)
Definition plan_after_search (ui : inputs) (w : world) (flight_data : value)
  : run unit :=
  (cheapest_flights <- lift (extract_cheapest_flights flight_data) ;;
   show Main (Spinner "🔍 Researching destination...") ;;
   research <- run_ai w (research_prompt ui) ;;
   show Main (Spinner "🏨 Finding hotels & food...") ;;
   hotels <- run_ai w (hotels_prompt ui) ;;
   show Main (Spinner "🗺️ Creating itinerary...") ;;
   itinerary <- run_ai w (itinerary_prompt ui w cheapest_flights) ;;
   display ui cheapest_flights research hotels itinerary)%run.


Definition is_request (e : event) : bool :=
  match e with
  | Show _ _ => false
  | FlightSearch _ | ChatCompletion _ => true
  end.

Definition requests (log : list event) : list event := filter is_request log.

(** ** What the page shows *)

(** The texts an element puts on the page. *)
Definition value_texts (v : value) : list string :=
  match v with
  | VStr t => [t]
  | _ => []
  end.

Definition element_texts (e : element) : list string :=
  match e with
  | PageConfig t | Markdown t | Input t | Title t | Spinner t
  | Subheader t | Write t | Warning t | Error t | Success t => [t]
  | Columns _ => []
  | Card c =>
      (value_texts (card_airline c)
       ++ [card_departure c; card_arrival c]
       ++ value_texts (card_duration c) ++ value_texts (card_price c)
       ++ [card_link c])%list
  end.

Definition event_texts (e : event) : list string :=
  match e with
  | Show _ el => element_texts el
  | FlightSearch _ | ChatCompletion _ => []
  end.

Definition displayed_texts (log : list event) : list string :=
  flat_map event_texts log.

(** ** Stores and histories *)

(** [s'] is [s] with new entries at its end: new objects for a store, new
    events for a history. *)
Definition extends {T} (s s' : list T) : Prop :=
  exists fresh, s' = (s ++ fresh)%list.

(** A step that only adds entries. *)
Definition growing {T A} (c : stateful (list T) A) : Prop :=
  forall s, extends s (fst (c s)).

(** Two keyed lists with the same keys and related items. *)
Definition keyed_related {A B} (R : A -> B -> Prop)
           (kx : value * A) (ky : value * B) : Prop :=
  fst kx = fst ky /\ R (snd kx) (snd ky).

(** ** Checks on the decimal text of small numbers *)

(** [int] reads the zero-padded text of [k] back as [k]; the text of [k]
    padded to two is made of two digits. *)
Definition int_round_trip (width : nat) (k : nat) : bool :=
  match py_int (zfill width (Z.of_nat k)) with
  | Ok v => (v =? Z.of_nat k)%Z
  | Raise _ => false
  end.

Definition two_digits (k : nat) : bool :=
  match zfill 2 (Z.of_nat k) with
  | String a (String b EmptyString) => is_digit a && is_digit b
  | _ => false
  end.

(** ** Shapes of values *)

Definition is_dict (v : value) : bool :=
  match v with
  | VDict _ => true
  | _ => false
  end.

(** What [sorted] can iterate and [x[0]] can subscript: a list, a dict, a
    string. *)
Definition is_iterable (v : value) : bool :=
  match v with
  | VList _ | VDict _ | VStr _ => true
  | _ => false
  end.

(** The offer's ["price"] is there and is [null]. *)
Definition null_price (o : value) : bool :=
  match o with
  | VDict d =>
      match dict_lookup "price" d with
      | Some VNone => true
      | _ => false
      end
  | _ => false
  end.

(** ** Lenient timestamps *)

(** A field on two digits, or as the number is written. *)
Definition field_text (padded : bool) (n : Z) : string :=
  if padded then zfill 2 n else dec n.

(** A non-empty run of whitespace. *)
Definition blank (ws : string) : bool :=
  match ws with
  | EmptyString => false
  | String _ _ => forallb is_space (list_ascii_of_string ws)
  end.

(** The three ways of writing a day: on two digits, as the number is
    written, or, below ten, as a space and the digit. *)
Inductive day_style : Type := TwoDigits | Plain | AfterSpace.

Definition day_text (style : day_style) (d : Z) : string :=
  match style with
  | TwoDigits => zfill 2 d
  | Plain => dec d
  | AfterSpace => String " " (dec d)
  end.

Definition day_style_ok (style : day_style) (d : Z) : bool :=
  match style with
  | AfterSpace => (d <=? 9)%Z
  | _ => true
  end.

(** A timestamp written leniently: the year on four digits; the month,
    the hour and the minute each padded or not; the day in one of its
    styles; the run [ws] between date and time. *)
Definition lenient_text (pm : bool) (sd : day_style) (ph pn : bool)
           (ws : string) (y mo d h mi : Z) : string :=
  zfill 4 y ++ "-" ++ field_text pm mo ++ "-" ++ day_text sd d
  ++ ws ++ field_text ph h ++ ":" ++ field_text pn mi.




(** [int] reads the text of [k], padded or not, back as [k]. *)
Definition field_round_trip (padded : bool) (k : nat) : bool :=
  match py_int (field_text padded (Z.of_nat k)) with
  | Ok v => (v =? Z.of_nat k)%Z
  | Raise _ => false
  end.

(** What a card shows as a time: the placeholder, or the rendering of a
    date of the calendar and a time of the day. *)
Definition formatted_time (s : string) : Prop :=
  s = "N/A"
  \/ exists y mo d h mi : Z,
       calendar_date y mo d = true /\ time_of_day h mi = true
       /\ s = rendering y mo d h mi.

(** ** Runs *)

(** A card as a run with the inputs [ui] builds it: the booking link of
    the inputs, and two times that went through the formatter. *)
Definition card_of_inputs (ui : inputs) (c : card) : Prop :=
  card_link c
  = build_google_flights_link (source ui) (destination ui)
                              (departure_date ui) (return_date ui)
  /\ (exists t, card_departure c = format_datetime t)
  /\ (exists t, card_arrival c = format_datetime t).

(** What a run of the script with the given keys and inputs may put in
    its history: any element on the page, but a card only as built from
    the inputs; the flight request with the payload of the inputs; a chat
    request only as [run_ai] builds it. *)
Definition run_event (env : environment) (ui : inputs) (e : event) : Prop :=
  match e with
  | Show _ (Card c) => card_of_inputs ui c
  | Show _ _ => True
  | FlightSearch params => params = flight_params env ui
  | ChatCompletion req => exists prompt, req = chat_request_for prompt
  end.

(** A step whose new events all satisfy [P]. *)
Definition emits {A} (P : event -> Prop) (c : run A) : Prop :=
  forall h, exists new, fst (c h) = (h ++ new)%list /\ Forall P new.

(** The four requests of a run, in the order they are sent. *)
Definition plan_requests (env : environment) (ui : inputs) (w : world)
           (cheapest_flights : list value) : list event :=
  [FlightSearch (flight_params env ui);
   ChatCompletion (chat_request_for (research_prompt ui));
   ChatCompletion (chat_request_for (hotels_prompt ui));
   ChatCompletion (chat_request_for (itinerary_prompt ui w cheapest_flights))].

(** The history of a run with both keys and the button clicked, at the
    moment each request is sent, and when the display starts. *)
Definition history_at_search : list event :=
  (fst (page_header [])
   ++ [Show Main (Input "🚀 Generate Travel Plan");
       Show Main (Spinner "✈️ Fetching flights...")])%list.

Definition history_at_research (env : environment) (ui : inputs)
  : list event :=
  (history_at_search
   ++ [FlightSearch (flight_params env ui);
       Show Main (Spinner "🔍 Researching destination...")])%list.

Definition history_at_hotels (env : environment) (ui : inputs) : list event :=
  (history_at_research env ui
   ++ [ChatCompletion (chat_request_for (research_prompt ui));
       Show Main (Spinner "🏨 Finding hotels & food...")])%list.

Definition history_at_itinerary (env : environment) (ui : inputs)
  : list event :=
  (history_at_hotels env ui
   ++ [ChatCompletion (chat_request_for (hotels_prompt ui));
       Show Main (Spinner "🗺️ Creating itinerary...")])%list.

Definition history_before_display (env : environment) (ui : inputs) (w : world)
           (cheapest_flights : list value) : list event :=
  (history_at_itinerary env ui
   ++ [ChatCompletion
         (chat_request_for (itinerary_prompt ui w cheapest_flights))])%list.

(** The services have answered every request of the run: the provider
    with a response from which the selector takes [cheapest_flights], the
    model with the three texts. *)
Definition plan_of_run (env : environment) (ui : inputs) (w : world)
           (cheapest_flights : list value)
           (research hotels itinerary : string) : Prop :=
  exists flight_data : value,
    serp_api w history_at_search (flight_params env ui) = Ok flight_data
    /\ extract_cheapest_flights flight_data = Ok cheapest_flights
    /\ chat_api w (history_at_research env ui)
                (chat_request_for (research_prompt ui)) = Ok research
    /\ chat_api w (history_at_hotels env ui)
                (chat_request_for (hotels_prompt ui)) = Ok hotels
    /\ chat_api w (history_at_itinerary env ui)
                (chat_request_for (itinerary_prompt ui w cheapest_flights))
       = Ok itinerary.


(** The end of the display: the two texts under their headings and the
    closing notice. *)
Definition plan_texts (hotels itinerary : string) : list event :=
  [Show Main (Subheader "🏨 Hotels & Restaurants");
   Show Main (Write hotels);
   Show Main (Subheader "🗺️ Personalized Itinerary");
   Show Main (Write itinerary);
   Show Main (Success "✅ Travel plan generated successfully!")].

(** ** Cards *)

(** [d.get(k, default)] on the entries of a dict. *)
Definition get_or (d : list (string * value)) (k : string) (default : value)
  : value :=
  match dict_lookup k d with
  | Some v => v
  | None => default
  end.


(** ** Sample data *)

(** An offer with a booking token and a price, and one without a price. *)
Definition priced_offer (token : string) (price : Z) : value :=
  VDict [("booking_token", VStr token); ("price", VInt price)].

Definition unpriced_offer (token : string) : value :=
  VDict [("booking_token", VStr token)].

Definition response_with (offers : list value) : value :=
  VDict [("search_metadata", VDict [("status", VStr "Success")]);
         ("best_flights", VList offers)].

(** An offer as the provider sends it: one segment, a duration, a price. *)
Definition segment (airline departure arrival : string) : value :=
  VDict [("departure_airport",
          VDict [("name", VStr "Chhatrapati Shivaji"); ("time", VStr departure)]);
         ("arrival_airport",
          VDict [("name", VStr "Indira Gandhi"); ("time", VStr arrival)]);
         ("airline", VStr airline)].

Definition direct_offer (airline : string) (price : Z) : value :=
  VDict [("flights",
          VList [segment airline "2025-03-10 14:30" "2025-03-10 16:45"]);
         ("total_duration", VInt 135);
         ("price", VInt price)].

Definition sample_inputs : inputs :=
  mk_inputs "BOM" "DEL" 5 "Couple Getaway" "Relaxing, sightseeing, local food"
            (mk_date 2025 3 10) (mk_date 2025 3 15)
            "Economy" "Economy" "Any" false false true.

Definition sample_environment : environment :=
  mk_environment (Some "serp-key") (Some "router-key").

Definition is_chat (e : event) : bool :=
  match e with
  | ChatCompletion _ => true
  | _ => false
  end.

(** A world in which the provider answers [data] and the model answers
    its first, second and third request with three different texts. *)
Definition sample_world (data : value) : world :=
  mk_world
    (fun _ _ => Ok data)
    (fun h _ =>
       Ok (nth (List.length (filter is_chat h))
               ["Top attractions: Red Fort, Qutub Minar.";
                "Stay at The Imperial; eat at Karim's.";
                "Day 1: arrive and rest."]
               "More."))
    (fun _ => "[]").

Definition sample_run : list event * result unit :=
  script sample_environment sample_inputs
         (sample_world (response_with [direct_offer "IndiGo" 9000;
                                       direct_offer "Air India" 12000]))
         [].

Definition shows_text (t : string) (log : list event) : bool :=
  existsb (String.eqb t) (displayed_texts log).

(** A store holding a response with four offers, the third without a
    price: the offers are at 1, 3, 4 and 6, their list at 7, the response
    at 8. *)
Definition sample_store : store :=
  [Atom (AInt 12000); DictObj [("price", 0)];
   Atom (AInt 9000); DictObj [("price", 2)];
   DictObj [];
   Atom (AInt 500); DictObj [("price", 5)];
   ListObj [1; 3; 4; 6];
   DictObj [("best_flights", 7)]].

(** ** A journey with a stop *)

Definition airport (id time : string) : list (string * value) :=
  [("id", VStr id); ("time", VStr time)].

Definition leg (origin departure destination arrival airline : string)
  : list (string * value) :=
  [("departure_airport", VDict (airport origin departure));
   ("arrival_airport", VDict (airport destination arrival));
   ("airline", VStr airline)].

Definition first_leg : list (string * value) :=
  leg "BOM" "2025-03-10 06:15" "HYD" "2025-03-10 07:45" "IndiGo".

Definition second_leg : list (string * value) :=
  leg "HYD" "2025-03-10 09:00" "DEL" "2025-03-10 11:20" "Air India".

Definition connecting_offer : list (string * value) :=
  [("flights", VList [VDict first_leg; VDict second_leg]);
   ("price", VInt 9000)].

(* ================================================================== *)
(** * Properties of the comparison and of the sort *)
(* ================================================================== *)

Lemma number_ltb_leb (a b : number) :
  number_ltb a b = true -> number_leb a b = true.
Proof.
  unfold number_leb. destruct a as [m|], b as [n|]; simpl; try congruence.
  intros H. apply Z.ltb_lt in H. apply negb_true_iff, Z.ltb_ge. lia.
Qed.

Lemma number_leb_trans (a b c : number) :
  number_leb a b = true -> number_leb b c = true -> number_leb a c = true.
Proof.
  unfold number_leb.
  destruct a as [m|], b as [n|], c as [k|]; simpl; try congruence.
  rewrite !negb_true_iff, !Z.ltb_ge. lia.
Qed.

Lemma number_ltb_not_eqb (a b : number) :
  number_ltb a b = true -> number_eqb b a = false.
Proof.
  destruct a as [m|], b as [n|]; simpl; try congruence.
  intros H. apply Z.ltb_lt in H. apply Z.eqb_neq. lia.
Qed.

Lemma number_leb_ltb_not_eqb (a b c : number) :
  number_ltb a b = true -> number_leb b c = true -> number_eqb c a = false.
Proof.
  unfold number_leb.
  destruct a as [m|], b as [n|], c as [k|]; simpl; try congruence.
  rewrite negb_true_iff, Z.ltb_ge, Z.ltb_lt. intros. apply Z.eqb_neq. lia.
Qed.

(** Between numbers, [<] never raises. *)
Lemma py_lt_numbers (a b : value) (x y : number) :
  as_number a = Some x -> as_number b = Some y ->
  py_lt a b = Ok (number_ltb x y).
Proof.
  destruct a, b; simpl; intros Ha Hb; try discriminate;
    injection Ha as <-; injection Hb as <-; reflexivity.
Qed.

Lemma filter_move_last {A} (f : A -> bool) (x : A) (l : list A) :
  (f x = true -> filter f l = []) ->
  filter f (x :: l) = filter f (l ++ [x])%list.
Proof.
  intros H. rewrite filter_app. simpl.
  destruct (f x).
  - rewrite (H eq_refl). reflexivity.
  - rewrite app_nil_r. reflexivity.
Qed.

Section SortSpec.

Context {A : Type}.

Variable rk : value * A -> number.


Lemma insert_keyed_spec (x : value * A) (l : list (value * A)) :
  keyed_ok rk (x :: l) -> StronglySorted (rank_le rk) l ->
  exists r,
    insert_keyed x l = Ok r
    /\ Permutation r (l ++ [x])%list
    /\ StronglySorted (rank_le rk) r
    /\ forall p, filter (ranked_at rk p) r = filter (ranked_at rk p) (l ++ [x])%list.
Proof.
  induction l as [|y l IH]; intros Hk Hs.
  - exists [x]. simpl. repeat split; auto.
    constructor; constructor.
  - pose proof Hk as Hk'.
    apply Forall_cons_iff in Hk' as [Hx Hyl].
    apply Forall_cons_iff in Hyl as [Hy Hl].
    apply StronglySorted_inv in Hs as [Hsl Hyle].
    simpl. rewrite (py_lt_numbers _ _ _ _ Hx Hy). simpl.
    destruct (number_ltb (rk x) (rk y)) eqn:Hlt.
    + exists (x :: y :: l). split; [reflexivity|]. split; [|split].
      * change (x :: y :: l) with ([x] ++ (y :: l))%list.
        change (y :: l ++ [x])%list with ((y :: l) ++ [x])%list.
        apply Permutation_app_comm.
      * constructor; [constructor; assumption|].
        constructor; [apply number_ltb_leb; assumption|].
        eapply Forall_impl; [|exact Hyle].
        intros z Hz. unfold rank_le in *.
        eapply number_leb_trans; [apply number_ltb_leb; exact Hlt|exact Hz].
      * intros p.
        change (filter (ranked_at rk p) (x :: y :: l)
                = filter (ranked_at rk p) ((y :: l) ++ [x])%list).
        apply filter_move_last. intros Hxp.
        assert (Hp : p = rk x).
        { unfold ranked_at in Hxp.
          destruct (rk x), p; simpl in Hxp; try discriminate; auto.
          apply Z.eqb_eq in Hxp. congruence. }
        subst p.
        assert (Hn : Forall (fun z => ranked_at rk (rk x) z = false) (y :: l)).
        { constructor.
          - unfold ranked_at. apply number_ltb_not_eqb. exact Hlt.
          - eapply Forall_impl; [|exact Hyle].
            intros z Hz. unfold ranked_at.
            eapply number_leb_ltb_not_eqb; [exact Hlt|exact Hz]. }
        clear -Hn. induction Hn as [|z l' Hz _ IH']; [reflexivity|].
        simpl. rewrite Hz. exact IH'.
    + destruct IH as (r & Hr & Hperm & Hsort & Hstab).
      { constructor; assumption. }
      { assumption. }
      rewrite Hr. simpl. exists (y :: r). split; [reflexivity|]. split; [|split].
      * simpl. constructor. exact Hperm.
      * constructor; [exact Hsort|].
        eapply Permutation_Forall; [apply Permutation_sym; exact Hperm|].
        apply Forall_app. split; [exact Hyle|].
        constructor; [|constructor].
        unfold rank_le, number_leb. rewrite Hlt. reflexivity.
      * intros p. simpl. rewrite Hstab. reflexivity.
Qed.

Lemma insert_keyed_keyed_ok (x : value * A) (l r : list (value * A)) :
  keyed_ok rk (x :: l) -> Permutation r (l ++ [x])%list -> keyed_ok rk r.
Proof.
  intros Hk Hp. unfold keyed_ok in *.
  eapply Permutation_Forall; [apply Permutation_sym; exact Hp|].
  apply Forall_cons_iff in Hk as [Hx Hl].
  apply Forall_app. split; [exact Hl|]. constructor; [exact Hx|constructor].
Qed.

Lemma sort_keyed_spec (todo placed : list (value * A)) :
  keyed_ok rk (placed ++ todo)%list -> StronglySorted (rank_le rk) placed ->
  exists r,
    sort_keyed placed todo = Ok r
    /\ Permutation r (placed ++ todo)%list
    /\ StronglySorted (rank_le rk) r
    /\ forall p, filter (ranked_at rk p) r = filter (ranked_at rk p) (placed ++ todo)%list.
Proof.
  revert placed. induction todo as [|x todo IH]; intros placed Hk Hs.
  - exists placed. rewrite app_nil_r. simpl. repeat split; auto.
  - assert (Hkx : keyed_ok rk (x :: placed)).
    { unfold keyed_ok in *. apply Forall_app in Hk as [Hp Ht].
      apply Forall_cons_iff in Ht as [Hx _]. constructor; assumption. }
    destruct (insert_keyed_spec x placed Hkx Hs) as (r1 & Hr1 & Hp1 & Hs1 & Hst1).
    destruct (IH r1) as (r & Hr & Hp & Hsr & Hst).
    { unfold keyed_ok in *. apply Forall_app in Hk as [Hpl Ht].
      apply Forall_cons_iff in Ht as [Hx Ht].
      apply Forall_app. split; [|exact Ht].
      eapply insert_keyed_keyed_ok; eassumption. }
    { exact Hs1. }
    exists r. simpl. rewrite Hr1. simpl. split; [exact Hr|]. split; [|split].
    + eapply Permutation_trans; [exact Hp|].
      change (x :: todo) with ([x] ++ todo)%list. rewrite app_assoc.
      apply Permutation_app_tail. exact Hp1.
    + exact Hsr.
    + intros p. rewrite Hst.
      change (x :: todo) with ([x] ++ todo)%list.
      rewrite !filter_app, Hst1, filter_app, <- app_assoc. reflexivity.
Qed.

End SortSpec.

(* ================================================================== *)
(** * The flight offer selector: ranking *)
(* ================================================================== *)

Lemma price_key_offer (o : value) :
  is_offer o = true ->
  price_key o = Ok (key_of_number (offer_price o)).
Proof.
  destruct o as [| | | | |l|d]; simpl; try discriminate.
  unfold price_key, py_get.
  destruct (dict_lookup "price" d) as [[| | | | | |]|]; simpl;
    try discriminate; reflexivity.
Qed.

Lemma as_number_key_of_number (n : number) :
  as_number (key_of_number n) = Some n.
Proof. destruct n; reflexivity. Qed.

Lemma rmap_price_key (offers : list value) :
  forallb is_offer offers = true ->
  rmap (fun v => (k <- price_key v ;; Ok (k, v))%result) offers
  = Ok (keyed_offers offers).
Proof.
  induction offers as [|o offers IH]; simpl; [reflexivity|].
  intros H. apply andb_true_iff in H as [Ho Hos].
  rewrite (price_key_offer o Ho). simpl. rewrite (IH Hos). reflexivity.
Qed.

Lemma keyed_offers_ok (offers : list value) :
  keyed_ok (fun kx => offer_price (snd kx)) (keyed_offers offers).
Proof.
  unfold keyed_ok, keyed_offers. apply Forall_forall. intros kx Hin.
  apply in_map_iff in Hin as (o & <- & _). simpl.
  apply as_number_key_of_number.
Qed.

Lemma map_snd_keyed_offers (offers : list value) :
  map snd (keyed_offers offers) = offers.
Proof.
  unfold keyed_offers. rewrite map_map. simpl. apply map_id.
Qed.

Lemma StronglySorted_map_snd {A B} (R : B -> B -> Prop) (l : list (A * B)) :
  StronglySorted (fun a b => R (snd a) (snd b)) l ->
  StronglySorted R (map snd l).
Proof.
  induction 1 as [|a l Hs IH Hall]; simpl; constructor; [exact IH|].
  apply Forall_map. exact Hall.
Qed.

Lemma filter_map_snd {A B} (f : B -> bool) (l : list (A * B)) :
  filter f (map snd l) = map snd (filter (fun kx => f (snd kx)) l).
Proof.
  induction l as [|a l IH]; simpl; [reflexivity|].
  destruct (f (snd a)); simpl; rewrite IH; reflexivity.
Qed.

(** On a list of offers the sort returns, and what it returns is the
    stable arrangement of the list by price. *)
Lemma sorted_by_price (offers : list value) :
  forallb is_offer offers = true ->
  exists ranked,
    sorted_by price_key offers = Ok ranked
    /\ Permutation ranked offers
    /\ StronglySorted cheaper_or_equal ranked
    /\ forall p, filter (priced_at p) ranked = filter (priced_at p) offers.
Proof.
  intros Hoffers.
  destruct (sort_keyed_spec (fun kx => offer_price (snd kx))
              (keyed_offers offers) [])
    as (r & Hr & Hperm & Hsort & Hstab).
  { simpl. apply keyed_offers_ok. }
  { constructor. }
  simpl in Hperm, Hstab.
  exists (map snd r). unfold sorted_by.
  rewrite (rmap_price_key offers Hoffers). simpl. rewrite Hr. simpl.
  split; [reflexivity|]. split; [|split].
  - pose proof (Permutation_map snd Hperm) as Hm.
    rewrite map_snd_keyed_offers in Hm. exact Hm.
  - apply StronglySorted_map_snd. exact Hsort.
  - intros p. rewrite filter_map_snd.
    change (fun kx : value * value => priced_at p (snd kx))
      with (ranked_at (fun kx : value * value => offer_price (snd kx)) p).
    rewrite Hstab.
    change (ranked_at (fun kx : value * value => offer_price (snd kx)) p)
      with (fun kx : value * value => priced_at p (snd kx)).
    rewrite <- filter_map_snd, map_snd_keyed_offers. reflexivity.
Qed.

(** C1. For every provider response (a mapping whose ["best_flights"], if
    any, is a list of offer objects whose ["price"], if any, is an
    integer), the selector returns the first three
    offers of the candidate list arranged by ascending price, where an
    offer without a price counts as infinitely expensive and offers of
    equal price keep the provider's order: the arrangement [ranked] is a
    permutation of the candidates, sorted by price, and for each price
    the offers at that price appear in it exactly as in the input.  In
    particular offers priced 12000, 9000, 15000 come back as 9000, 12000,
    15000, of four offers the three cheapest come back, and an offer with
    no price comes after every priced one. *)
Theorem extract_cheapest_flights_ranked :
  (forall data : value,
     is_provider_response data = true ->
     exists ranked : list value,
       extract_cheapest_flights data = Ok (firstn 3 ranked)
       /\ Permutation ranked (candidate_offers data)
       /\ StronglySorted cheaper_or_equal ranked
       /\ (forall p, filter (priced_at p) ranked
                     = filter (priced_at p) (candidate_offers data))
       /\ List.length (firstn 3 ranked)
          = Nat.min 3 (List.length (candidate_offers data)))
  /\ extract_cheapest_flights
       (response_with [priced_offer "a" 12000; priced_offer "b" 9000;
                       priced_offer "c" 15000])
     = Ok [priced_offer "b" 9000; priced_offer "a" 12000;
           priced_offer "c" 15000]
  /\ extract_cheapest_flights
       (response_with [priced_offer "a" 12000; priced_offer "b" 9000;
                       priced_offer "c" 15000; priced_offer "d" 10000])
     = Ok [priced_offer "b" 9000; priced_offer "d" 10000;
           priced_offer "a" 12000]
  /\ extract_cheapest_flights
       (response_with [unpriced_offer "a"; priced_offer "b" 9000;
                       priced_offer "c" 9000; priced_offer "d" 500])
     = Ok [priced_offer "d" 500; priced_offer "b" 9000; priced_offer "c" 9000].
Proof.
  split; [|repeat split; reflexivity].
  intros data Hdata.
  destruct data as [| | | | |l|d]; simpl in Hdata; try discriminate.
  unfold extract_cheapest_flights, candidate_offers, py_get.
  destruct (dict_lookup "best_flights" d) as [[| | | | |offers|]|];
    try discriminate.
  - destruct (sorted_by_price offers Hdata) as (ranked & Hr & Hp & Hs & Hst).
    exists ranked.
    split; [|split; [exact Hp|split; [exact Hs|split; [exact Hst|]]]].
    + unfold py_sorted, py_iter. cbn [rbind]. rewrite Hr. reflexivity.
    + rewrite length_firstn, (Permutation_length Hp). reflexivity.
  - exists [].
    split; [reflexivity|]. split; [constructor|]. split; [constructor|].
    split; reflexivity.
Qed.

Lemma extract_cheapest_flights_ranked_witness :
  is_provider_response
    (response_with [priced_offer "a" 12000; unpriced_offer "b";
                    priced_offer "c" 9000]) = true
  /\ exists ranked : list value,
       extract_cheapest_flights
         (response_with [priced_offer "a" 12000; unpriced_offer "b";
                         priced_offer "c" 9000]) = Ok (firstn 3 ranked)
       /\ Permutation ranked
            (candidate_offers
               (response_with [priced_offer "a" 12000; unpriced_offer "b";
                               priced_offer "c" 9000]))
       /\ StronglySorted cheaper_or_equal ranked
       /\ (forall p, filter (priced_at p) ranked
                     = filter (priced_at p)
                         (candidate_offers
                            (response_with [priced_offer "a" 12000;
                                            unpriced_offer "b";
                                            priced_offer "c" 9000])))
       /\ List.length (firstn 3 ranked)
          = Nat.min 3
              (List.length
                 (candidate_offers
                    (response_with [priced_offer "a" 12000;
                                    unpriced_offer "b";
                                    priced_offer "c" 9000]))).
Proof.
  split; [reflexivity|].
  apply (proj1 extract_cheapest_flights_ranked). reflexivity.
Defined.

(* ================================================================== *)
(** * The flight offer selector: what it returns is what it was given *)
(* ================================================================== *)

(** ** The sort only moves items *)

Lemma insert_keyed_perm {A} (x : value * A) (l r : list (value * A)) :
  insert_keyed x l = Ok r -> Permutation r (x :: l).
Proof.
  revert r. induction l as [|y l IH]; intros r; simpl.
  - intros H. injection H as <-. apply Permutation_refl.
  - destruct (py_lt (fst x) (fst y)) as [[|]|e]; simpl; try discriminate.
    + intros H. injection H as <-. apply Permutation_refl.
    + destruct (insert_keyed x l) as [r'|e]; simpl; [|discriminate].
      intros H. injection H as <-.
      eapply Permutation_trans; [|apply perm_swap].
      constructor. apply IH. reflexivity.
Qed.

Lemma sort_keyed_perm {A} (todo placed r : list (value * A)) :
  sort_keyed placed todo = Ok r -> Permutation r (placed ++ todo)%list.
Proof.
  revert placed r. induction todo as [|x todo IH]; intros placed r; simpl.
  - intros H. injection H as <-. rewrite app_nil_r. apply Permutation_refl.
  - destruct (insert_keyed x placed) as [placed'|e] eqn:E; simpl; [|discriminate].
    intros H. apply IH in H.
    eapply Permutation_trans; [exact H|].
    eapply Permutation_trans;
      [apply Permutation_app_tail; apply insert_keyed_perm; exact E|].
    simpl. apply Permutation_middle.
Qed.

Lemma rmap_keyed_snd {A} (key : A -> result value) (items : list A)
                     (keyed : list (value * A)) :
  rmap (fun v => (k <- key v ;; Ok (k, v))%result) items = Ok keyed ->
  map snd keyed = items.
Proof.
  revert keyed. induction items as [|x items IH]; intros keyed; simpl.
  - intros H. injection H as <-. reflexivity.
  - destruct (key x) as [k|e]; simpl; [|discriminate].
    destruct (rmap _ items) as [ys|e]; simpl; [|discriminate].
    intros H. injection H as <-. simpl. rewrite (IH ys eq_refl). reflexivity.
Qed.

(** Whatever the keys and whatever the items are, a sort that returns
    returns the items it was given, each as often as it was given. *)
Lemma sorted_by_perm {A} (key : A -> result value) (items r : list A) :
  sorted_by key items = Ok r -> Permutation r items.
Proof.
  unfold sorted_by.
  destruct (rmap _ items) as [keyed|e] eqn:Ek; simpl; [|discriminate].
  destruct (sort_keyed [] keyed) as [ranked|e] eqn:Es; simpl; [|discriminate].
  intros H. injection H as <-.
  rewrite <- (rmap_keyed_snd key items keyed Ek).
  apply Permutation_map. apply sort_keyed_perm in Es. exact Es.
Qed.

Lemma firstn_skipn_perm {A} (n : nat) (r items : list A) :
  Permutation r items ->
  exists rest, Permutation (firstn n r ++ rest)%list items.
Proof.
  intros H. exists (skipn n r). rewrite firstn_skipn. exact H.
Qed.

(** On values: the offers returned are offers of the candidate list. *)
Lemma extract_cheapest_flights_sublist (data : value) (picked : list value) :
  extract_cheapest_flights data = Ok picked ->
  exists rest, Permutation (picked ++ rest)%list (candidate_offers data).
Proof.
  unfold extract_cheapest_flights, py_get, candidate_offers.
  destruct data as [| | | | | |d]; simpl; try discriminate.
  destruct (dict_lookup "best_flights" d) as [flights|]; simpl.
  - unfold py_sorted.
    destruct (py_iter flights) as [items|e] eqn:Ei; simpl; [|discriminate].
    destruct (sorted_by price_key items) as [ranked|e] eqn:Es; simpl;
      [|discriminate].
    intros H. injection H as <-.
    pose proof (sorted_by_perm _ _ _ Es) as Hp.
    destruct flights as [| | | |t|l|kvs]; simpl in Ei; try discriminate;
      injection Ei as <-.
    + (* a string: its characters have no [get] *)
      destruct t as [|c t].
      * simpl in Hp. apply Permutation_sym, Permutation_nil in Hp. subst ranked. exists []. constructor.
      * unfold sorted_by in Es. simpl in Es. discriminate Es.
    + exact (firstn_skipn_perm 3 _ _ Hp).
    + (* a dict: its keys have no [get] *)
      destruct kvs as [|kv kvs].
      * simpl in Hp. apply Permutation_sym, Permutation_nil in Hp. subst ranked. exists []. constructor.
      * unfold sorted_by in Es. simpl in Es. discriminate Es.
  - intros H. injection H as <-. exists []. constructor.
Qed.

(** ** The store only grows *)

Lemma extends_refl {T} (s : list T) : extends s s.
Proof. exists []. rewrite app_nil_r. reflexivity. Qed.

Lemma extends_trans {T} (s1 s2 s3 : list T) :
  extends s1 s2 -> extends s2 s3 -> extends s1 s3.
Proof.
  intros [f1 ->] [f2 ->]. exists (f1 ++ f2)%list. rewrite app_assoc. reflexivity.
Qed.

Lemma growing_bind {T A B} (c : stateful (list T) A)
      (k : A -> stateful (list T) B) :
  growing c -> (forall a, growing (k a)) -> growing (bind c k).
Proof.
  intros Hc Hk s. unfold bind. specialize (Hc s).
  destruct (c s) as [s1 [a|e]]; simpl in *; [|exact Hc].
  eapply extends_trans; [exact Hc|apply Hk].
Qed.

Lemma growing_ret {T A} (a : A) : growing (@ret (list T) A a).
Proof. intros s. apply extends_refl. Qed.

Lemma growing_reading {A} (f : store -> result A) : growing (reading f).
Proof. intros s. apply extends_refl. Qed.

Lemma growing_alloc (o : object) : growing (alloc o).
Proof. intros s. exists [o]. reflexivity. Qed.

Lemma growing_alloc_all (os : list object) : growing (alloc_all os).
Proof.
  induction os as [|o os IH]; simpl.
  - apply growing_ret.
  - apply growing_bind; [apply growing_alloc|]. intros l.
    apply growing_bind; [exact IH|]. intros ls. apply growing_ret.
Qed.

Lemma growing_ref_iter (x : loc) : growing (ref_iter x).
Proof.
  intros s. unfold ref_iter.
  destruct (nth_error s x) as [[[| | | |t]|items|d]|];
    try apply extends_refl; apply growing_alloc_all.
Qed.

Lemma growing_ref_extract (data : loc) :
  growing (ref_extract_cheapest_flights data).
Proof.
  unfold ref_extract_cheapest_flights, ref_sorted, ref_first3, ref_get.
  repeat first [ apply growing_bind; [|intros ?]
               | apply growing_alloc | apply growing_reading
               | apply growing_ref_iter ].
Qed.

(** ** What is in the store stays as it is *)

Lemma nth_error_extends (s s' : store) (l : loc) (o : object) :
  extends s s' -> nth_error s l = Some o -> nth_error s' l = Some o.
Proof.
  intros [fresh ->] H. rewrite nth_error_app1; [exact H|].
  apply nth_error_Some. congruence.
Qed.

Lemma all_some_map_impl {A B} (f g : A -> option B) (l : list A) (r : list B) :
  (forall x v, In x l -> f x = Some v -> g x = Some v) ->
  all_some (map f l) = Some r -> all_some (map g l) = Some r.
Proof.
  revert r. induction l as [|x l IH]; intros r Hfg; simpl; [auto|].
  destruct (f x) as [v|] eqn:Ef; [|discriminate].
  rewrite (Hfg x v (or_introl eq_refl) Ef).
  destruct (all_some (map f l)) as [r'|] eqn:Er; simpl; [|discriminate].
  intros H. injection H as <-.
  rewrite (IH r'); [reflexivity| |reflexivity].
  intros y w Hy. apply Hfg. right. exact Hy.
Qed.

(** ** The result shares the offers *)

Lemma bind_Ok_inv {S A B} (c : stateful S A) (k : A -> stateful S B)
                  (s s' : S) (b : B) :
  bind c k s = (s', Ok b) ->
  exists a s1, c s = (s1, Ok a) /\ k a s1 = (s', Ok b).
Proof.
  unfold bind. destruct (c s) as [s1 [a|e]]; [|discriminate].
  intros H. exists a, s1. split; [reflexivity|exact H].
Qed.

Lemma nth_error_alloc (s : store) (o : object) :
  nth_error (s ++ [o])%list (List.length s) = Some o.
Proof.
  rewrite nth_error_app2 by lia. rewrite Nat.sub_diag. reflexivity.
Qed.

Lemma ref_extract_result (data : loc) (s s' : store) (out : loc) :
  ref_extract_cheapest_flights data s = (s', Ok out) ->
  exists (flights : loc) (items ranked : list loc) (s1 : store),
    ref_get data "best_flights" (List.length s) (s ++ [ListObj []])%list
    = ((s ++ [ListObj []])%list, Ok flights)
    /\ ref_iter flights (s ++ [ListObj []])%list = (s1, Ok items)
    /\ sorted_by (ref_price_key s1) items = Ok ranked
    /\ s' = (s1 ++ [ListObj ranked; ListObj (firstn 3 ranked)])%list
    /\ out = S (List.length s1).
Proof.
  unfold ref_extract_cheapest_flights. intros H.
  apply bind_Ok_inv in H as (empty & s0 & Halloc & H).
  unfold alloc in Halloc. injection Halloc as <- <-.
  apply bind_Ok_inv in H as (flights & s0' & Hget & H).
  assert (s0' = (s ++ [ListObj []])%list) as ->.
  { unfold ref_get, reading in Hget. injection Hget as <- _. reflexivity. }
  unfold ref_sorted in H.
  apply bind_Ok_inv in H as (lranked & s2 & Hsorted & H).
  apply bind_Ok_inv in Hsorted as (items & s1 & Hiter & Hsorted).
  apply bind_Ok_inv in Hsorted as (ranked & s1' & Hsort & Hnew).
  unfold reading in Hsort. injection Hsort as <- Hsort.
  unfold alloc in Hnew. injection Hnew as <- <-.
  unfold ref_first3 in H.
  apply bind_Ok_inv in H as (items3 & s3 & Hread & H).
  unfold reading in Hread. rewrite nth_error_alloc in Hread.
  injection Hread as <- <-.
  unfold alloc in H. injection H as <- <-.
  exists flights, items, ranked, s1.
  split; [exact Hget|]. split; [exact Hiter|]. split; [exact Hsort|].
  split.
  - rewrite <- app_assoc. reflexivity.
  - rewrite length_app. simpl. lia.
Qed.

(** ** The two readings agree *)

Lemma denote_weaken (fuel fuel' : nat) (s s' : store) (l : loc) (v : value) :
  extends s s' -> (fuel <= fuel')%nat ->
  denote fuel s l = Some v -> denote fuel' s' l = Some v.
Proof.
  intros Hext. revert fuel' l v.
  induction fuel as [|fuel IH]; intros fuel' l v Hle; simpl; [discriminate|].
  destruct fuel' as [|fuel']; [lia|]. simpl.
  destruct (nth_error s l) as [o|] eqn:El; [|discriminate].
  rewrite (nth_error_extends s s' l o Hext El).
  destruct o as [a|items|entries]; [auto| |].
  - destruct (all_some (map (denote fuel s) items)) as [vs|] eqn:Ev;
      simpl; [|discriminate].
    intros H. injection H as <-.
    rewrite (all_some_map_impl (denote fuel s) (denote fuel' s') items vs);
      [reflexivity| |exact Ev].
    intros x w _. apply IH. lia.
  - destruct (all_some (map _ entries)) as [vs|] eqn:Ev; simpl; [|discriminate].
    intros H. injection H as <-.
    erewrite all_some_map_impl; [reflexivity| |exact Ev].
    intros [k x] w _. simpl.
    destruct (denote fuel s x) as [u|] eqn:Eu; simpl; [|discriminate].
    intros H. injection H as <-. rewrite (IH fuel' x u ltac:(lia) Eu). reflexivity.
Qed.

Lemma all_some_Forall2 {A B} (g : A -> option B) (l : list A) (vs : list B) :
  all_some (map g l) = Some vs <-> Forall2 (fun x v => g x = Some v) l vs.
Proof.
  revert vs. induction l as [|x l IH]; intros vs; simpl.
  - split.
    + intros H. injection H as <-. constructor.
    + intros H. inversion H. reflexivity.
  - split.
    + destruct (g x) as [v|] eqn:Eg; [|discriminate].
      destruct (all_some (map g l)) as [r|] eqn:Er; simpl; [|discriminate].
      intros H. injection H as <-. constructor; [exact Eg|].
      apply IH. reflexivity.
    + intros H. inversion H as [|x' v l' vs' Hx Hl]; subst.
      rewrite Hx. apply IH in Hl. rewrite Hl. reflexivity.
Qed.

Lemma all_some_entries_lookup (g : loc -> option value)
      (d : list (string * loc)) (dv : list (string * value)) (k : string) :
  all_some (map (fun kl => option_map (pair (fst kl)) (g (snd kl))) d)
  = Some dv ->
  match ref_lookup k d with
  | Some l => exists v, g l = Some v /\ dict_lookup k dv = Some v
  | None => dict_lookup k dv = None
  end.
Proof.
  revert dv. induction d as [|[k' l] d IH]; intros dv; simpl.
  - intros H. injection H as <-. reflexivity.
  - destruct (g l) as [v|] eqn:Eg; simpl; [|discriminate].
    destruct (all_some _) as [r|] eqn:Er; simpl; [|discriminate].
    intros H. injection H as <-. simpl.
    destruct (String.eqb k k').
    + exists v. split; [exact Eg|reflexivity].
    + apply IH. reflexivity.
Qed.

Lemma alloc_all_spec (os : list object) (s : store) :
  alloc_all os s = ((s ++ os)%list, Ok (seq (List.length s) (List.length os))).
Proof.
  revert s. induction os as [|o os IH]; intros s; simpl.
  - unfold ret. rewrite app_nil_r. reflexivity.
  - unfold bind, alloc. rewrite IH. unfold ret.
    rewrite <- app_assoc, length_app. simpl.
    rewrite Nat.add_1_r. reflexivity.
Qed.

Section SortedByRelated.

Context {A B : Type}.
Variable R : A -> B -> Prop.
Variable keyA : A -> result value.
Variable keyB : B -> result value.
Hypothesis key_agrees :
  forall x y k, R x y -> keyA x = Ok k -> keyB y = Ok k.

#[local] Abbreviation KR := (keyed_related R).

Lemma insert_keyed_related (x : value * A) (y : value * B)
      (l r : list (value * A)) (m : list (value * B)) :
  KR x y -> Forall2 KR l m -> insert_keyed x l = Ok r ->
  exists r', insert_keyed y m = Ok r' /\ Forall2 KR r r'.
Proof.
  intros Hxy Hlm. revert r. induction Hlm as [|a b l m Hab Hlm IH]; intros r; simpl.
  - intros H. injection H as <-. exists [y]. split; [reflexivity|].
    constructor; [exact Hxy|constructor].
  - destruct Hxy as [Hk Hr]. destruct Hab as [Hk' Hr'].
    rewrite <- Hk, <- Hk'.
    destruct (py_lt (fst x) (fst a)) as [[|]|e]; simpl; try discriminate.
    + intros H. injection H as <-. eexists. split; [reflexivity|].
      repeat constructor; assumption.
    + destruct (insert_keyed x l) as [r0|e]; simpl; [|discriminate].
      intros H. injection H as <-.
      destruct (IH r0 eq_refl) as (r' & -> & Hr0). simpl.
      eexists. split; [reflexivity|]. constructor; [split; assumption|exact Hr0].
Qed.

Lemma sort_keyed_related (todo : list (value * A)) (todo' : list (value * B))
      (placed r : list (value * A)) (placed' : list (value * B)) :
  Forall2 KR todo todo' -> Forall2 KR placed placed' ->
  sort_keyed placed todo = Ok r ->
  exists r', sort_keyed placed' todo' = Ok r' /\ Forall2 KR r r'.
Proof.
  intros Ht. revert placed placed' r.
  induction Ht as [|x y todo todo' Hxy Ht IH]; intros placed placed' r Hp; simpl.
  - intros H. injection H as <-. exists placed'. split; [reflexivity|exact Hp].
  - destruct (insert_keyed x placed) as [p1|e] eqn:E; simpl; [|discriminate].
    destruct (insert_keyed_related x y placed p1 placed' Hxy Hp E)
      as (p1' & -> & Hp1). simpl.
    apply IH. exact Hp1.
Qed.

Lemma sorted_by_related (items r : list A) (items' : list B) :
  Forall2 R items items' -> sorted_by keyA items = Ok r ->
  exists r', sorted_by keyB items' = Ok r' /\ Forall2 R r r'.
Proof.
  intros Hitems. unfold sorted_by.
  destruct (rmap _ items) as [keyed|e] eqn:Ek; simpl; [|discriminate].
  assert (Hk : exists keyed',
             rmap (fun v => (k <- keyB v ;; Ok (k, v))%result) items' = Ok keyed'
             /\ Forall2 KR keyed keyed').
  { clear -Hitems Ek key_agrees. revert keyed Ek.
    induction Hitems as [|x y items items' Hxy Hi IH]; intros keyed; simpl.
    - intros H. injection H as <-. exists []. split; [reflexivity|constructor].
    - destruct (keyA x) as [k|e] eqn:Ekx; simpl; [|discriminate].
      destruct (rmap _ items) as [ks|e]; simpl; [|discriminate].
      intros H. injection H as <-.
      rewrite (key_agrees x y k Hxy Ekx). simpl.
      destruct (IH ks eq_refl) as (ks' & -> & Hks). simpl.
      eexists. split; [reflexivity|].
      constructor; [split; [reflexivity|exact Hxy]|exact Hks]. }
  destruct Hk as (keyed' & -> & Hkeyed). simpl.
  destruct (sort_keyed [] keyed) as [ranked|e] eqn:Es; simpl; [|discriminate].
  intros H. injection H as <-.
  destruct (sort_keyed_related keyed keyed' [] ranked [] Hkeyed
              (Forall2_nil _) Es) as (ranked' & -> & Hr). simpl.
  eexists. split; [reflexivity|].
  clear -Hr. induction Hr as [|a b l m [_ Hab] _ IH]; simpl; constructor; auto.
Qed.

End SortedByRelated.

Lemma Forall2_firstn {A B} (R : A -> B -> Prop) (n : nat)
      (l : list A) (m : list B) :
  Forall2 R l m -> Forall2 R (firstn n l) (firstn n m).
Proof.
  intros H. revert n. induction H as [|a b l m Hab _ IH]; intros [|n]; simpl;
    constructor; auto.
Qed.

(** The key read through the store is the key of the value. *)
Lemma ref_price_key_agrees (s s1 : store) (fuel : nat) (x : loc)
      (xv k : value) :
  extends s s1 -> (fuel <= List.length s)%nat ->
  denote fuel s x = Some xv ->
  ref_price_key s1 x = Ok k -> price_key xv = Ok k.
Proof.
  intros Hext Hfuel Hx. destruct fuel as [|fuel]; [discriminate|].
  simpl in Hx. unfold ref_price_key.
  destruct (nth_error s x) as [o|] eqn:Eo; [|discriminate].
  rewrite (nth_error_extends s s1 x o Hext Eo).
  destruct o as [a|items|d]; try discriminate.
  destruct (all_some _) as [dv|] eqn:Ed; simpl in Hx; [|discriminate].
  injection Hx as <-. unfold price_key, py_get.
  pose proof (all_some_entries_lookup _ d dv "price" Ed) as Hl.
  destruct (ref_lookup "price" d) as [l|].
  - destruct Hl as (pv & Hpv & ->).
    assert (Hs : store_value s1 l = Some pv).
    { unfold store_value. eapply denote_weaken; [exact Hext| |exact Hpv].
      destruct Hext as [fresh ->]. rewrite length_app. lia. }
    rewrite Hs. auto.
  - rewrite Hl. auto.
Qed.

(** When the response object stands for the value [v], a call that
    returns on references returns a list that stands for what the call
    returns on [v]. *)
Lemma ref_extract_cheapest_flights_refines
      (s s' : store) (data out : loc) (v : value) :
  store_value s data = Some v ->
  ref_extract_cheapest_flights data s = (s', Ok out) ->
  exists picked,
    extract_cheapest_flights v = Ok picked
    /\ store_value s' out = Some (VList picked).
Proof.
  intros Hv Hrun.
  destruct (ref_extract_result data s s' out Hrun)
    as (flights & items & ranked & s1 & Hget & Hiter & Hsort & -> & ->).
  set (s0 := (s ++ [ListObj []])%list) in *.
  assert (Hext0 : extends s s0) by (exists [ListObj []]; reflexivity).
  assert (Hext1 : extends s0 s1).
  { pose proof (growing_ref_iter flights s0) as H. rewrite Hiter in H. exact H. }
  assert (Hext : extends s s1) by (eapply extends_trans; eassumption).
  (* the offers and the values they stand for *)
  assert (Hitems : exists ivs fuel,
             (fuel <= List.length s)%nat
             /\ Forall2 (fun x xv => denote fuel s x = Some xv) items ivs
             /\ forall r, sorted_by price_key ivs = Ok r ->
                          extract_cheapest_flights v = Ok (firstn 3 r)).
  { unfold store_value in Hv. simpl in Hv.
    unfold ref_get, reading in Hget.
    destruct (nth_error s data) as [o|] eqn:Eo; [|discriminate].
    rewrite (nth_error_extends s s0 data o Hext0 Eo) in Hget.
    destruct o as [a|its|d]; try discriminate.
    destruct (all_some _) as [dv|] eqn:Ed; simpl in Hv; [|discriminate].
    injection Hv as <-.
    pose proof (all_some_entries_lookup _ d dv "best_flights" Ed) as Hl.
    unfold extract_cheapest_flights, py_get.
    destruct (ref_lookup "best_flights" d) as [fl|].
    - injection Hget as <-. destruct Hl as (fv & Hfv & ->).
      destruct (List.length s) as [|n] eqn:En; [discriminate|].
      simpl in Hfv. unfold ref_iter in Hiter.
      destruct (nth_error s fl) as [o|] eqn:Efl; [|discriminate].
      rewrite (nth_error_extends s s0 fl o Hext0 Efl) in Hiter.
      destruct o as [a|its|d'].
      + (* an atom: only a string can be iterated, and only the empty
           one gives items with a key *)
        injection Hfv as <-.
        destruct a as [| | | |t]; try discriminate.
        rewrite alloc_all_spec in Hiter. injection Hiter as <- <-.
        destruct t as [|c t].
        * exists [], 0%nat. split; [lia|]. split; [constructor|].
          intros r Hr. unfold py_sorted.
          cbn [py_iter rbind map list_ascii_of_string atom_value]. rewrite Hr. reflexivity.
        * exfalso. unfold sorted_by in Hsort. simpl in Hsort.
          unfold ref_price_key in Hsort.
          rewrite nth_error_app2 in Hsort by lia.
          rewrite Nat.sub_diag in Hsort. simpl in Hsort. discriminate.
      + destruct (all_some (map (denote n s) its)) as [ivs|] eqn:Eits;
          simpl in Hfv; [|discriminate].
        injection Hfv as <-. injection Hiter as _ <-.
        exists ivs, n. split; [lia|].
        split; [apply all_some_Forall2; exact Eits|].
        intros r Hr. unfold py_sorted.
          cbn [py_iter rbind map list_ascii_of_string atom_value]. rewrite Hr. reflexivity.
      + (* a dict: its keys are strings, which have no key *)
        destruct (all_some (map _ d')) as [dv'|] eqn:Ed'; simpl in Hfv;
          [|discriminate].
        injection Hfv as <-.
        rewrite alloc_all_spec in Hiter. injection Hiter as <- <-.
        destruct d' as [|[k' l'] d'].
        * simpl in Ed'. injection Ed' as <-.
          exists [], 0%nat. split; [lia|]. split; [constructor|].
          intros r Hr. unfold py_sorted.
          cbn [py_iter rbind map list_ascii_of_string atom_value]. rewrite Hr. reflexivity.
        * exfalso. unfold sorted_by in Hsort. simpl in Hsort.
          unfold ref_price_key in Hsort.
          rewrite nth_error_app2 in Hsort by lia.
          rewrite Nat.sub_diag in Hsort. simpl in Hsort. discriminate.
    - injection Hget as <-. rewrite Hl.
      unfold ref_iter in Hiter. unfold s0 in Hiter.
      rewrite nth_error_alloc in Hiter. injection Hiter as _ <-.
      exists [], 0%nat. split; [lia|]. split; [constructor|].
      intros r Hr. unfold py_sorted.
          cbn [py_iter rbind map list_ascii_of_string atom_value]. rewrite Hr. reflexivity. }
  destruct Hitems as (ivs & fuel & Hfuel & Hrel & Hextract).
  destruct (sorted_by_related
              (fun x xv => denote fuel s x = Some xv)
              (ref_price_key s1) price_key
              (fun x y k Hxy => ref_price_key_agrees s s1 fuel x y k Hext Hfuel Hxy)
              items ranked ivs Hrel Hsort) as (rv & Hrv & Hranked).
  exists (firstn 3 rv). split; [apply Hextract; exact Hrv|].
  unfold store_value. cbn [denote].
  rewrite nth_error_app2 by lia.
  replace (S (List.length s1) - List.length s1)%nat with 1%nat by lia.
  cbn [nth_error].
  assert (Hall : all_some
                   (map (denote (List.length
                                   (s1 ++ [ListObj ranked;
                                           ListObj (firstn 3 ranked)])%list)
                                (s1 ++ [ListObj ranked;
                                        ListObj (firstn 3 ranked)])%list)
                        (firstn 3 ranked))
                 = Some (firstn 3 rv)).
  { apply all_some_Forall2.
    eapply Forall2_impl; [|apply Forall2_firstn; exact Hranked].
    intros x xv Hx. simpl in Hx.
    eapply denote_weaken; [| |exact Hx].
    - eapply extends_trans; [exact Hext|]. eexists. reflexivity.
    - destruct Hext as [fresh ->]. rewrite !length_app. lia. }
  rewrite Hall. reflexivity.
Qed.

(** C9.  The selector returns offers of the candidate list and nothing
    else: on values, the offers returned together with some others are a
    rearrangement of the candidates; on references, the list returned
    holds locations of the input's offer list, so the very same objects.
    It writes to no object it was given: after the call the store is the
    store before the call with new objects at its end, so the response
    map, its list and every offer are in place and stand for the values
    they stood for.  The two readings agree: the list returned on
    references stands for the list returned on values. *)
Theorem extract_cheapest_flights_shares_offers :
  (forall (data : value) (picked : list value),
     extract_cheapest_flights data = Ok picked ->
     exists rest, Permutation (picked ++ rest)%list (candidate_offers data))
  /\ (forall (s : store) (data : loc),
        exists fresh,
          fst (ref_extract_cheapest_flights data s) = (s ++ fresh)%list)
  /\ (forall (s : store) (data l : loc) (fuel : nat) (v : value),
        denote fuel s l = Some v ->
        denote fuel (fst (ref_extract_cheapest_flights data s)) l = Some v)
  /\ (forall (s : store) (data out : loc) (d : list (string * loc)),
        snd (ref_extract_cheapest_flights data s) = Ok out ->
        nth_error s data = Some (DictObj d) ->
        exists picked,
          nth_error (fst (ref_extract_cheapest_flights data s)) out
          = Some (ListObj picked)
          /\ match ref_lookup "best_flights" d with
             | None => picked = []
             | Some flights =>
                 forall offers,
                   nth_error s flights = Some (ListObj offers) ->
                   exists rest, Permutation (picked ++ rest)%list offers
             end)
  /\ (forall (s : store) (data out : loc) (v : value),
        store_value s data = Some v ->
        snd (ref_extract_cheapest_flights data s) = Ok out ->
        exists picked,
          extract_cheapest_flights v = Ok picked
          /\ store_value (fst (ref_extract_cheapest_flights data s)) out
             = Some (VList picked)).
Proof.
  split; [exact extract_cheapest_flights_sublist|].
  split; [intros s data; apply growing_ref_extract|].
  split.
  { intros s data l fuel v. apply denote_weaken; [|lia].
    apply growing_ref_extract. }
  split.
  2:{ intros s data out v Hv Hout.
      destruct (ref_extract_cheapest_flights data s) as [s' r] eqn:E.
      simpl in Hout. subst r. simpl.
      exact (ref_extract_cheapest_flights_refines s s' data out v Hv E). }
  intros s data out d Hout Hdata.
  destruct (ref_extract_cheapest_flights data s) as [s' r] eqn:E.
  simpl in Hout. subst r. simpl.
  destruct (ref_extract_result data s s' out E)
    as (flights & items & ranked & s1 & Hget & Hiter & Hsort & -> & ->).
  pose proof (sorted_by_perm _ _ _ Hsort) as Hperm.
  exists (firstn 3 ranked). split.
  { rewrite nth_error_app2 by lia.
    replace (S (List.length s1) - List.length s1)%nat with 1%nat by lia.
    reflexivity. }
  assert (Hext : extends s (s ++ [ListObj []])%list) by (exists [ListObj []]; reflexivity).
  unfold ref_get, reading in Hget.
  rewrite (nth_error_extends _ _ _ _ Hext Hdata) in Hget.
  destruct (ref_lookup "best_flights" d) as [fl|].
  - injection Hget as <-. intros offers Hoffers.
    unfold ref_iter in Hiter.
    rewrite (nth_error_extends _ _ _ _ Hext Hoffers) in Hiter.
    injection Hiter as _ <-.
    exact (firstn_skipn_perm 3 _ _ Hperm).
  - injection Hget as <-.
    unfold ref_iter in Hiter. rewrite nth_error_alloc in Hiter.
    injection Hiter as _ <-.
    apply Permutation_sym, Permutation_nil in Hperm. subst ranked. reflexivity.
Qed.

(** On the sample store the call returns the list at 11, which holds the
    offers at 6, 3 and 1 of the input list [1; 3; 4; 6]. *)
Lemma extract_cheapest_flights_shares_offers_witness :
  snd (ref_extract_cheapest_flights 8 sample_store) = Ok 11
  /\ nth_error sample_store 8 = Some (DictObj [("best_flights", 7)])
  /\ nth_error (fst (ref_extract_cheapest_flights 8 sample_store)) 11
     = Some (ListObj [6; 3; 1])
  /\ exists picked,
       nth_error (fst (ref_extract_cheapest_flights 8 sample_store)) 11
       = Some (ListObj picked)
       /\ match ref_lookup "best_flights" [("best_flights", 7)] with
          | None => picked = []
          | Some flights =>
              forall offers,
                nth_error sample_store flights = Some (ListObj offers) ->
                exists rest, Permutation (picked ++ rest)%list offers
          end.
Proof.
  split; [reflexivity|]. split; [reflexivity|]. split; [reflexivity|].
  apply (proj1 (proj2 (proj2 (proj2 extract_cheapest_flights_shares_offers)))
           sample_store 8 11 [("best_flights", 7)]); reflexivity.
Defined.

(* ================================================================== *)
(** * Strings *)
(* ================================================================== *)

Lemma append_assoc (a b c : string) : (a ++ b) ++ c = a ++ (b ++ c).
Proof. induction a as [|x a IH]; simpl; [reflexivity|]. rewrite IH. reflexivity. Qed.

Lemma append_nil_r (a : string) : a ++ "" = a.
Proof. induction a as [|x a IH]; simpl; [reflexivity|]. rewrite IH. reflexivity. Qed.


(* ================================================================== *)
(** * The booking-link builder *)
(* ================================================================== *)

(** C6. The link is the fixed template with the four arguments put in as
    they are formatted, nothing escaped; the arguments of the
    specification's example give the specification's URL, and characters
    such as [&] and [%] go through unchanged. *)
Theorem build_google_flights_link_template :
  (forall (A B C D : Type)
          (fa : Formattable A) (fb : Formattable B)
          (fc : Formattable C) (fd : Formattable D)
          (source : A) (destination : B) (departure_date : C) (return_date : D),
     build_google_flights_link source destination departure_date return_date
     = "https://www.google.com/travel/flights?q=Flights%20from%20"
       ++ py_format source ++ "%20to%20" ++ py_format destination
       ++ "%20on%20" ++ py_format departure_date
       ++ "%20returning%20" ++ py_format return_date)
  /\ (forall source destination departure_date return_date : string,
        build_google_flights_link source destination departure_date return_date
        = "https://www.google.com/travel/flights?q=Flights%20from%20"
          ++ source ++ "%20to%20" ++ destination
          ++ "%20on%20" ++ departure_date
          ++ "%20returning%20" ++ return_date)
  /\ build_google_flights_link "BOM" "DEL" "2025-03-10" "2025-03-15"
     = "https://www.google.com/travel/flights?q=Flights%20from%20BOM%20to%20DEL%20on%202025-03-10%20returning%202025-03-15"
  /\ build_google_flights_link "B&M" "D%L" "2025 03 10" "?#/"
     = "https://www.google.com/travel/flights?q=Flights%20from%20B&M%20to%20D%L%20on%202025 03 10%20returning%20?#/".
Proof.
  assert (G : forall (A B C D : Type)
          (fa : Formattable A) (fb : Formattable B)
          (fc : Formattable C) (fd : Formattable D)
          (source : A) (destination : B) (departure_date : C) (return_date : D),
     build_google_flights_link source destination departure_date return_date
     = "https://www.google.com/travel/flights?q=Flights%20from%20"
       ++ py_format source ++ "%20to%20" ++ py_format destination
       ++ "%20on%20" ++ py_format departure_date
       ++ "%20returning%20" ++ py_format return_date).
  { intros. unfold build_google_flights_link.
    rewrite !append_assoc. reflexivity. }
  split; [exact G|]. split; [|split; reflexivity].
  intros. apply G.
Qed.

(* ================================================================== *)
(** * The history only grows *)
(* ================================================================== *)

Lemma bind_show {B} (p : place) (e : element) (k : unit -> run B)
                (h : list event) :
  bind (show p e) k h = k tt (h ++ [Show p e])%list.
Proof. reflexivity. Qed.

Lemma growing_lift {T A} (r : result A) : growing (@lift (list T) A r).
Proof. intros s. apply extends_refl. Qed.

Lemma growing_show (p : place) (e : element) : growing (show p e).
Proof. intros h. exists [Show p e]. reflexivity. Qed.

Lemma growing_run_ai (w : world) (prompt : string) : growing (run_ai w prompt).
Proof. intros h. eexists. reflexivity. Qed.

Lemma growing_render_offer (ui : inputs) (idx : nat) (flight : value) :
  growing (render_offer ui idx flight).
Proof.
  unfold render_offer.
  apply growing_bind; [apply growing_lift|]. intros flights_info.
  destruct (negb (truthy flights_info)); [apply growing_show|].
  repeat first [ apply growing_bind; [apply growing_lift|intros ?]
               | apply growing_show ].
Qed.

Lemma growing_render_offers (ui : inputs) (offers : list value) (idx : nat) :
  growing (render_offers ui idx offers).
Proof.
  revert idx. induction offers as [|o offers IH]; intros idx; simpl.
  - apply growing_ret.
  - apply growing_bind; [apply growing_render_offer|]. intros _. apply IH.
Qed.

Lemma growing_display (ui : inputs) (cheapest_flights : list value)
      (research hotels itinerary : string) :
  growing (display ui cheapest_flights research hotels itinerary).
Proof.
  unfold display.
  apply growing_bind; [apply growing_show|]. intros _.
  apply growing_bind.
  - destruct cheapest_flights as [|o offers]; [apply growing_show|].
    apply growing_bind; [apply growing_show|]. intros _.
    apply growing_render_offers.
  - intros _.
    repeat first [ apply growing_bind; [apply growing_show|intros ?]
                 | apply growing_show ].
Qed.

(** What [generate_plan] does once the provider has answered. *)
Lemma growing_plan_after_search (env : environment) (ui : inputs) (w : world)
      (flight_data : value) :
  growing (plan_after_search ui w flight_data).
Proof.
  unfold plan_after_search.
  apply growing_bind; [apply growing_lift|]. intros cheapest_flights.
  apply growing_bind; [apply growing_show|]. intros _.
  apply growing_bind; [apply growing_run_ai|]. intros research.
  apply growing_bind; [apply growing_show|]. intros _.
  apply growing_bind; [apply growing_run_ai|]. intros hotels.
  apply growing_bind; [apply growing_show|]. intros _.
  apply growing_bind; [apply growing_run_ai|]. intros itinerary.
  apply growing_display.
Qed.

(* ================================================================== *)
(** * The flight query builder *)
(* ================================================================== *)

(** C8. Whatever the origin and destination texts and the two dates, the
    payload holds exactly the eight fields, in this order: the engine,
    the origin, the destination, the two dates as text, the currency, the
    language and the key; [fetch_flights] sends it as one request and
    returns what the provider answers, and in a run with both keys and
    the button clicked that request is the first one sent.  Nothing is
    checked on the way: a return date before the departure date and codes
    that are no airport codes give a payload like any other. *)
Theorem fetch_flights_payload :
  forall (env : environment) (ui : inputs) (w : world) (h : list event),
    flight_params env ui
    = [("engine", VStr "google_flights");
       ("departure_id", VStr (source ui));
       ("arrival_id", VStr (destination ui));
       ("outbound_date", VStr (py_format (departure_date ui)));
       ("return_date", VStr (py_format (return_date ui)));
       ("currency", VStr "INR");
       ("hl", VStr "en");
       ("api_key", env_value (SERPAPI_KEY env))]
    /\ map fst (flight_params env ui)
       = ["engine"; "departure_id"; "arrival_id"; "outbound_date";
          "return_date"; "currency"; "hl"; "api_key"]
    /\ fetch_flights env ui w h
       = ((h ++ [FlightSearch (flight_params env ui)])%list,
          serp_api w h (flight_params env ui))
    /\ (absent (SERPAPI_KEY env) = false ->
        absent (OPENROUTER_API_KEY env) = false ->
        generate_clicked ui = true ->
        hd_error (requests (fst (script env ui w [])))
        = Some (FlightSearch (flight_params env ui)))
    /\ flight_params
         (mk_environment (Some "key") (Some "other"))
         (mk_inputs "not a code" "" 5 "" "" (mk_date 2025 3 15)
                    (mk_date 2025 3 10) "" "" "" false false true)
       = [("engine", VStr "google_flights");
          ("departure_id", VStr "not a code");
          ("arrival_id", VStr "");
          ("outbound_date", VStr "2025-03-15");
          ("return_date", VStr "2025-03-10");
          ("currency", VStr "INR");
          ("hl", VStr "en");
          ("api_key", VStr "key")].
Proof.
  intros env ui w h.
  split; [reflexivity|]. split; [reflexivity|]. split; [reflexivity|].
  split; [|reflexivity].
  intros Hserp Hrouter Hclick.
  unfold script. rewrite Hserp, Hrouter, Hclick. cbn [orb].
  unfold bind at 1.
  remember (page_header []) as header eqn:Eh. vm_compute in Eh. subst header.
  rewrite bind_show.
  unfold generate_plan. rewrite bind_show.
  unfold bind at 1. unfold fetch_flights at 1.
  match goal with
  | |- context [serp_api w ?h0 ?p] => destruct (serp_api w h0 p) as [data|e]
  end.
  - match goal with
    | |- context [fst (?c ?h0)] =>
        destruct (growing_plan_after_search env ui w data h0) as [new Hnew];
        change (c h0) with (plan_after_search ui w data h0)
    end.
    rewrite Hnew.
    unfold requests. rewrite filter_app. reflexivity.
  - reflexivity.
Qed.

(* ================================================================== *)
(** * Start-up *)
(* ================================================================== *)

Lemma run_log_assoc (h : list event) (a : event) (l : list event) :
  ((h ++ [a]) ++ l)%list = (h ++ a :: l)%list.
Proof. rewrite <- app_assoc. reflexivity. Qed.

(** C7. When either key is absent (unset or empty) the run shows the
    error and stops: the error is the only thing added to the history, the
    run ends with the exception of [st.stop()], and no request to the
    flight search or to the language model is among its events. *)
Theorem missing_key_stops_before_requests :
  forall (env : environment) (ui : inputs) (w : world) (h : list event),
    absent (SERPAPI_KEY env) = true \/ absent (OPENROUTER_API_KEY env) = true ->
    script env ui w h
    = ((h ++ [Show Main (Error "❌ API keys missing in .env file")])%list,
       Raise StopException)
    /\ requests (fst (script env ui w [])) = [].
Proof.
  intros env ui w h Habs.
  assert (Hor : absent (SERPAPI_KEY env) || absent (OPENROUTER_API_KEY env) = true).
  { apply orb_true_iff. exact Habs. }
  unfold script. rewrite Hor. split; reflexivity.
Qed.

Lemma missing_key_stops_before_requests_witness :
  (absent (SERPAPI_KEY (mk_environment (Some "serp-key") None)) = true
   \/ absent (OPENROUTER_API_KEY (mk_environment (Some "serp-key") None)) = true)
  /\ requests
       (fst (script (mk_environment (Some "serp-key") None)
                    (mk_inputs "BOM" "DEL" 5 "Couple Getaway" "Relaxing"
                               (mk_date 2025 3 10) (mk_date 2025 3 15)
                               "Economy" "Economy" "Any" false false true)
                    (mk_world (fun _ _ => Ok (response_with []))
                              (fun _ _ => Ok "text") (fun _ => "[]"))
                    [])) = [].
Proof.
  split; [right; reflexivity|].
  apply (missing_key_stops_before_requests
           (mk_environment (Some "serp-key") None)
           (mk_inputs "BOM" "DEL" 5 "Couple Getaway" "Relaxing"
                      (mk_date 2025 3 10) (mk_date 2025 3 15)
                      "Economy" "Economy" "Any" false false true)
           (mk_world (fun _ _ => Ok (response_with []))
                     (fun _ _ => Ok "text") (fun _ => "[]"))
           []).
  right; reflexivity.
Defined.

(* ================================================================== *)
(** * The display *)
(* ================================================================== *)

(** The turn of the loop for an offer with no flight segments. *)
Lemma render_offer_without_segments
    (ui : inputs) (idx : nat) (d : list (string * value)) (h : list event) :
  dict_lookup "flights" d = None \/ dict_lookup "flights" d = Some (VList []) ->
  render_offer ui idx (VDict d) h
  = ((h ++ [Show (Column idx) (Warning "Flight details unavailable")])%list,
     Ok tt).
Proof.
  intros [Hd|Hd]; unfold render_offer, py_get; rewrite Hd; reflexivity.
Qed.

Lemma render_offers_app (ui : inputs) (before after : list value)
                        (idx : nat) (h : list event) :
  render_offers ui idx (before ++ after)%list h
  = bind (render_offers ui idx before)
         (fun _ => render_offers ui (idx + List.length before) after) h.
Proof.
  revert idx h. induction before as [|o before IH]; intros idx h.
  - simpl. rewrite Nat.add_0_r. reflexivity.
  - cbn [render_offers app List.length]. unfold bind.
    destruct (render_offer ui idx o h) as [h' [[]|e]]; [|reflexivity].
    rewrite IH. unfold bind. rewrite Nat.add_succ_r. reflexivity.
Qed.

(** C3. When the response holds no ["best_flights"] or an empty one, the
    selector returns the empty list, and for the empty list the display
    shows, right under the flights heading, the warning that no flights
    were found: no column and no card, then the rest of the plan. *)
Theorem no_flights_found_notice :
  forall (d : list (string * value)) (ui : inputs)
         (research hotels itinerary : string) (h : list event),
    dict_lookup "best_flights" d = None
    \/ dict_lookup "best_flights" d = Some (VList []) ->
    extract_cheapest_flights (VDict d) = Ok []
    /\ display ui [] research hotels itinerary h
       = ((h ++ [Show Main (Subheader "✈️ Cheapest Flights");
                 Show Main (Warning "⚠️ No flights found");
                 Show Main (Subheader "🏨 Hotels & Restaurants");
                 Show Main (Write hotels);
                 Show Main (Subheader "🗺️ Personalized Itinerary");
                 Show Main (Write itinerary);
                 Show Main (Success "✅ Travel plan generated successfully!")])%list,
          Ok tt).
Proof.
  intros d ui research hotels itinerary h Hd. split.
  - unfold extract_cheapest_flights, py_get.
    destruct Hd as [Hd|Hd]; rewrite Hd; reflexivity.
  - unfold display. rewrite !bind_show.
    unfold show, emit. rewrite !run_log_assoc. reflexivity.
Qed.

Lemma no_flights_found_notice_witness :
  (dict_lookup "best_flights" [("error", VStr "No results")] = None
   \/ dict_lookup "best_flights" [("error", VStr "No results")]
      = Some (VList []))
  /\ extract_cheapest_flights (VDict [("error", VStr "No results")]) = Ok []
  /\ display
       (mk_inputs "BOM" "DEL" 5 "Couple Getaway" "Relaxing"
                  (mk_date 2025 3 10) (mk_date 2025 3 15)
                  "Economy" "Economy" "Any" false false true)
       [] "research" "hotels" "itinerary" []
     = (([] ++ [Show Main (Subheader "✈️ Cheapest Flights");
                Show Main (Warning "⚠️ No flights found");
                Show Main (Subheader "🏨 Hotels & Restaurants");
                Show Main (Write "hotels");
                Show Main (Subheader "🗺️ Personalized Itinerary");
                Show Main (Write "itinerary");
                Show Main (Success "✅ Travel plan generated successfully!")])%list,
        Ok tt).
Proof.
  split; [left; reflexivity|].
  apply (no_flights_found_notice [("error", VStr "No results")]).
  left; reflexivity.
Defined.

(** C10. In the loop over the selected offers, an offer whose ["flights"]
    list is missing or empty gets the warning "Flight details unavailable"
    in its own column and nothing else; the turn ends without an
    exception, in particular without an [IndexError] from the first or
    last segment, and the loop goes on with the offers after it. *)
Theorem offer_without_segments_warns_and_continues :
  forall (ui : inputs) (d : list (string * value))
         (before after : list value) (idx : nat) (h h' : list event),
    dict_lookup "flights" d = None
    \/ dict_lookup "flights" d = Some (VList []) ->
    render_offers ui idx before h = (h', Ok tt) ->
    render_offers ui idx (before ++ VDict d :: after)%list h
    = render_offers ui (S (idx + List.length before)) after
        (h' ++ [Show (Column (idx + List.length before))
                     (Warning "Flight details unavailable")])%list.
Proof.
  intros ui d before after idx h h' Hd Hbefore.
  rewrite render_offers_app. unfold bind at 1. rewrite Hbefore.
  simpl. unfold bind at 1.
  rewrite (render_offer_without_segments ui _ d h' Hd). reflexivity.
Qed.

Lemma offer_without_segments_warns_and_continues_witness :
  (dict_lookup "flights" [("price", VInt 9000)] = None
   \/ dict_lookup "flights" [("price", VInt 9000)] = Some (VList []))
  /\ render_offers sample_inputs 0 [direct_offer "IndiGo" 8000] []
     = (fst (render_offers sample_inputs 0 [direct_offer "IndiGo" 8000] []),
        Ok tt)
  /\ render_offers sample_inputs 0
       ([direct_offer "IndiGo" 8000] ++ VDict [("price", VInt 9000)]
        :: [direct_offer "Vistara" 9500])%list []
     = render_offers sample_inputs
         (S (0 + List.length [direct_offer "IndiGo" 8000]))
         [direct_offer "Vistara" 9500]
         (fst (render_offers sample_inputs 0 [direct_offer "IndiGo" 8000] [])
          ++ [Show (Column (0 + List.length [direct_offer "IndiGo" 8000]))
                   (Warning "Flight details unavailable")])%list.
Proof.
  split; [left; reflexivity|]. split; [reflexivity|].
  apply (offer_without_segments_warns_and_continues
           sample_inputs [("price", VInt 9000)]
           [direct_offer "IndiGo" 8000] [direct_offer "Vistara" 9500]
           0 []).
  - left; reflexivity.
  - reflexivity.
Defined.

(* ================================================================== *)
(** * The plan generation run *)
(* ================================================================== *)

(** C2.  The run of the script on the sample inputs succeeds: it asks the
    model for the research text and gets it, and it shows the hotels text
    and the itinerary text; but the research text is nowhere on the page.
    The display block never uses it: whatever the research text is, what
    is displayed is the same. *)
Theorem research_text_is_not_displayed :
  snd sample_run = Ok tt
  /\ In (ChatCompletion (chat_request_for (research_prompt sample_inputs)))
        (fst sample_run)
  /\ shows_text "Stay at The Imperial; eat at Karim's." (fst sample_run) = true
  /\ shows_text "Day 1: arrive and rest." (fst sample_run) = true
  /\ shows_text "Top attractions: Red Fort, Qutub Minar." (fst sample_run) = false
  /\ (forall (ui : inputs) (cheapest_flights : list value)
             (research research' hotels itinerary : string) (h : list event),
        display ui cheapest_flights research hotels itinerary h
        = display ui cheapest_flights research' hotels itinerary h).
Proof.
  split; [reflexivity|]. split.
  { vm_compute. repeat (first [left; reflexivity | right]). }
  split; [reflexivity|]. split; [reflexivity|]. split; [reflexivity|].
  intros. reflexivity.
Qed.

(* ================================================================== *)
(** * The timestamp formatter *)
(* ================================================================== *)

Lemma pattern_timestamp : pattern "%Y-%m-%d %H:%M" = Some timestamp_regex.
Proof. reflexivity. Qed.

(** Matching a concatenation: the first way of the left part, followed by
    the first way of the right part on what is left, when there is one. *)
Lemma re_match_Cat (r1 r2 : regex) (s s1 s2 m1 m2 : string)
                   (g1 g2 : list (string * string)) :
  re_match r1 s = Some (m1, g1, s1) ->
  re_match r2 s1 = Some (m2, g2, s2) ->
  re_match (Cat r1 r2) s = Some (m1 ++ m2, (g1 ++ g2)%list, s2).
Proof.
  unfold re_match. cbn [rmatch].
  destruct (rmatch r1 s) as [|h1 o1]; [discriminate|].
  intros H1. injection H1 as ->. cbn [flat_map].
  destruct (rmatch r2 s1) as [|h2 o2]; [discriminate|].
  intros H2. injection H2 as ->.
  reflexivity.
Qed.

Lemma re_match_Chr (c : ascii) (s : string) :
  re_match (Chr c) (String c s) = Some (String c "", [], s).
Proof. unfold re_match. cbn. rewrite Ascii.eqb_refl. reflexivity. Qed.

Lemma forallb_below (P : nat -> bool) (n : nat) :
  forallb P (seq 0 n) = true -> forall k, (k < n)%nat -> P k = true.
Proof.
  intros H k Hk. rewrite forallb_forall in H. apply H. apply in_seq. lia.
Qed.

Lemma Z_range_cases (P : Z -> Prop) (n : nat) :
  (forall k, (k <= n)%nat -> P (Z.of_nat k)) ->
  forall x, (0 <= x <= Z.of_nat n)%Z -> P x.
Proof.
  intros H x Hx. rewrite <- (Z2Nat.id x) by lia. apply H. lia.
Qed.

(** ** Two-digit and four-digit fields *)

Lemma py_int_zfill (width : nat) (bound x : Z) :
  forallb (int_round_trip width) (seq 0 (Z.to_nat bound)) = true ->
  (0 <= x < bound)%Z ->
  py_int (zfill width x) = Ok x.
Proof.
  intros Hall Hx.
  pose proof (forallb_below _ _ Hall (Z.to_nat x)) as H.
  unfold int_round_trip in H. rewrite Z2Nat.id in H by lia.
  destruct (py_int (zfill width x)) as [v|e].
  - f_equal. apply Z.eqb_eq. apply H. lia.
  - discriminate H. lia.
Qed.

(** A digit character is a digit, is no whitespace, and has its value. *)
Lemma digit_char_facts (k : Z) :
  (0 <= k <= 9)%Z ->
  is_digit (digit_char k) = true
  /\ is_space (digit_char k) = false
  /\ digit_value (digit_char k) = k.
Proof.
  intros Hk. generalize Hk. pattern k.
  apply (Z_range_cases _ 9); [|lia].
  intros n Hn _.
  do 10 (destruct n as [|n]; [repeat split; reflexivity|]). lia.
Qed.

Lemma dec_digits_last (fuel : nat) (n : Z) (acc : string) :
  (0 <= n < 10)%Z ->
  dec_digits (S fuel) n acc = String (digit_char (n mod 10)) acc.
Proof.
  intros Hn. simpl.
  replace (n / 10 =? 0)%Z with true; [reflexivity|].
  symmetry. apply Z.eqb_eq. apply Z.div_small. lia.
Qed.

Lemma dec_digits_more (fuel : nat) (n : Z) (acc : string) :
  (10 <= n)%Z ->
  dec_digits (S fuel) n acc
  = dec_digits fuel (n / 10) (String (digit_char (n mod 10)) acc).
Proof.
  intros Hn. simpl.
  replace (n / 10 =? 0)%Z with false; [reflexivity|].
  symmetry. apply Z.eqb_neq. intros H.
  pose proof (Z.div_mod n 10 ltac:(lia)).
  pose proof (Z.mod_pos_bound n 10 ltac:(lia)). lia.
Qed.

(** The four digits of a year. *)
Lemma zfill4_shape (y : Z) :
  (0 <= y <= 9999)%Z ->
  zfill 4 y
  = String (digit_char (y / 10 / 10 / 10 mod 10))
      (String (digit_char (y / 10 / 10 mod 10))
         (String (digit_char (y / 10 mod 10))
            (String (digit_char (y mod 10)) ""))).
Proof.
  intros Hy. unfold zfill, dec.
  replace (y <? 0)%Z with false by (symmetry; apply Z.ltb_ge; lia).
  destruct (Z_lt_le_dec y 10) as [H1|H1].
  { rewrite dec_digits_last by lia.
    replace (y / 10)%Z with 0%Z by (symmetry; apply Z.div_small; lia).
    reflexivity. }
  assert (Hd1 : (0 <= y / 10 < 1000)%Z).
  { split; [apply Z.div_pos; lia|apply Z.div_lt_upper_bound; lia]. }
  destruct (Z.to_nat y) as [|f] eqn:Ef; [lia|].
  rewrite dec_digits_more by lia.
  destruct (Z_lt_le_dec (y / 10) 10) as [H2|H2].
  { rewrite dec_digits_last by lia.
    replace (y / 10 / 10)%Z with 0%Z by (symmetry; apply Z.div_small; lia).
    reflexivity. }
  assert (Hd2 : (0 <= y / 10 / 10 < 100)%Z).
  { split; [apply Z.div_pos; lia|apply Z.div_lt_upper_bound; lia]. }
  destruct f as [|f]; [lia|].
  rewrite dec_digits_more by lia.
  destruct (Z_lt_le_dec (y / 10 / 10) 10) as [H3|H3].
  { rewrite dec_digits_last by lia.
    replace (y / 10 / 10 / 10)%Z with 0%Z by (symmetry; apply Z.div_small; lia).
    reflexivity. }
  assert (Hd3 : (0 <= y / 10 / 10 / 10 < 10)%Z).
  { split; [apply Z.div_pos; lia|apply Z.div_lt_upper_bound; lia]. }
  destruct f as [|f]; [lia|].
  rewrite dec_digits_more by lia.
  rewrite dec_digits_last by lia.
  reflexivity.
Qed.

Lemma zfill4_digits (x : Z) :
  (0 <= x <= 9999)%Z ->
  exists a b c d,
    zfill 4 x = String a (String b (String c (String d "")))
    /\ is_digit a = true /\ is_digit b = true
    /\ is_digit c = true /\ is_digit d = true.
Proof.
  intros Hx. rewrite (zfill4_shape x Hx).
  do 4 eexists. split; [reflexivity|].
  repeat split; apply digit_char_facts;
    match goal with
    | |- (0 <= ?a mod 10 <= 9)%Z =>
        pose proof (Z.mod_pos_bound a 10 ltac:(lia)); lia
    end.
Qed.

Lemma py_int_zfill4 (x : Z) : (0 <= x <= 9999)%Z -> py_int (zfill 4 x) = Ok x.
Proof.
  intros Hx. rewrite (zfill4_shape x Hx).
  pose proof (Z.mod_pos_bound (x / 10 / 10 / 10) 10 ltac:(lia)) as B3.
  pose proof (Z.mod_pos_bound (x / 10 / 10) 10 ltac:(lia)) as B2.
  pose proof (Z.mod_pos_bound (x / 10) 10 ltac:(lia)) as B1.
  pose proof (Z.mod_pos_bound x 10 ltac:(lia)) as B0.
  destruct (digit_char_facts (x / 10 / 10 / 10 mod 10) ltac:(lia))
    as (D3 & S3 & V3).
  destruct (digit_char_facts (x / 10 / 10 mod 10) ltac:(lia)) as (D2 & _ & V2).
  destruct (digit_char_facts (x / 10 mod 10) ltac:(lia)) as (D1 & _ & V1).
  destruct (digit_char_facts (x mod 10) ltac:(lia)) as (D0 & _ & V0).
  unfold py_int. cbn [strip_left]. rewrite S3.
  cbn [digits_value]. rewrite D3, D2, D1, D0, V3, V2, V1, V0.
  f_equal.
  pose proof (Z.div_mod x 10 ltac:(lia)).
  pose proof (Z.div_mod (x / 10) 10 ltac:(lia)).
  pose proof (Z.div_mod (x / 10 / 10) 10 ltac:(lia)).
  assert (x / 10 / 10 / 10 < 10)%Z.
  { apply Z.div_lt_upper_bound; [lia|].
    apply Z.div_lt_upper_bound; [lia|].
    apply Z.div_lt_upper_bound; lia. }
  assert (0 <= x / 10 / 10 / 10)%Z by (repeat apply Z.div_pos; lia).
  rewrite (Z.mod_small (x / 10 / 10 / 10) 10) in * by lia.
  lia.
Qed.

(** ** The groups of the format on the text of a field *)

Lemma re_match_year (y : Z) (rest : string) :
  (0 <= y <= 9999)%Z ->
  re_match (Grp "Y" (Cat Dgt (Cat Dgt (Cat Dgt Dgt)))) (zfill 4 y ++ rest)
  = Some (zfill 4 y, [("Y", zfill 4 y)], rest).
Proof.
  intros Hy.
  destruct (zfill4_digits y Hy) as (a & b & c & d & -> & Ha & Hb & Hc & Hd).
  unfold re_match. cbn. rewrite Ha. cbn. rewrite Hb. cbn. rewrite Hc. cbn.
  rewrite Hd. reflexivity.
Qed.

Tactic Notation "each_case" ident(k) integer(n) :=
  do n (destruct k as [|k]; [try lia; try reflexivity|]); try lia.

Lemma re_match_day (d : Z) (rest : string) :
  (1 <= d <= 31)%Z ->
  re_match (Grp "d" (Alt (Cat (Chr "3") (Rng "0" "1"))
                    (Alt (Cat (Rng "1" "2") Dgt)
                    (Alt (Cat (Chr "0") (Rng "1" "9"))
                    (Alt (Rng "1" "9") (Cat (Chr " ") (Rng "1" "9")))))))
           (zfill 2 d ++ rest)
  = Some (zfill 2 d, [("d", zfill 2 d)], rest).
Proof.
  intros Hd. generalize Hd. generalize rest. pattern d.
  apply (Z_range_cases _ 31); [|lia].
  intros k Hk rest' Hd'. each_case k 32.
Qed.

Lemma days_in_month_le_31 (y m : Z) : (days_in_month y m <= 31)%Z.
Proof.
  unfold days_in_month.
  destruct (m =? 2)%Z; [destruct (is_leap y); lia|].
  destruct ((m =? 4) || (m =? 6) || (m =? 9) || (m =? 11))%Z; lia.
Qed.

Lemma valid_date_bounds (y m d : Z) :
  valid_date y m d = true ->
  (1 <= y <= 9999 /\ 1 <= m <= 12 /\ 1 <= d <= 31)%Z.
Proof.
  unfold valid_date. rewrite !andb_true_iff, !Z.leb_le.
  pose proof (days_in_month_le_31 y m). lia.
Qed.

Lemma valid_time_bounds (h mi : Z) :
  valid_time h mi = true -> (0 <= h <= 23 /\ 0 <= mi <= 59)%Z.
Proof.
  unfold valid_time. rewrite !andb_true_iff, !Z.leb_le. lia.
Qed.

Lemma zfill2_digits (x : Z) :
  (0 <= x <= 99)%Z ->
  exists a b,
    zfill 2 x = String a (String b "")
    /\ is_digit a = true /\ is_digit b = true.
Proof.
  intros Hx.
  assert (Hall : forallb two_digits (seq 0 100) = true) by (vm_compute; reflexivity).
  pose proof (forallb_below _ _ Hall (Z.to_nat x)) as H.
  unfold two_digits in H. rewrite Z2Nat.id in H by lia.
  destruct (zfill 2 x) as [|a [|b [|]]]; try (discriminate H; lia).
  exists a, b. split; [reflexivity|].
  assert (H' : is_digit a && is_digit b = true) by (apply H; lia).
  rewrite andb_true_iff in H'. tauto.
Qed.

(** The decimal text of a year, by the number of its digits. *)
Lemma dec_shape (y : Z) :
  (0 <= y <= 9999)%Z ->
  dec y
  = if (y <? 10)%Z then String (digit_char (y mod 10)) ""
    else if (y <? 100)%Z then
      String (digit_char (y / 10 mod 10)) (String (digit_char (y mod 10)) "")
    else if (y <? 1000)%Z then
      String (digit_char (y / 10 / 10 mod 10))
        (String (digit_char (y / 10 mod 10))
           (String (digit_char (y mod 10)) ""))
    else
      String (digit_char (y / 10 / 10 / 10 mod 10))
        (String (digit_char (y / 10 / 10 mod 10))
           (String (digit_char (y / 10 mod 10))
              (String (digit_char (y mod 10)) ""))).
Proof.
  intros Hy. unfold dec.
  replace (y <? 0)%Z with false by (symmetry; apply Z.ltb_ge; lia).
  destruct (Z.ltb_spec y 10) as [H1|H1].
  { rewrite dec_digits_last by lia. reflexivity. }
  assert (Hd1 : (0 <= y / 10 < 1000)%Z).
  { split; [apply Z.div_pos; lia|apply Z.div_lt_upper_bound; lia]. }
  destruct (Z.to_nat y) as [|f] eqn:Ef; [lia|].
  rewrite dec_digits_more by lia.
  destruct (Z.ltb_spec y 100) as [H2|H2].
  { rewrite dec_digits_last; [reflexivity|].
    split; [lia|apply Z.div_lt_upper_bound; lia]. }
  assert (Hd2 : (0 <= y / 10 / 10 < 100)%Z).
  { split; [apply Z.div_pos; lia|apply Z.div_lt_upper_bound; lia]. }
  assert (H10 : (10 <= y / 10)%Z) by (apply Z.div_le_lower_bound; lia).
  destruct f as [|f]; [lia|].
  rewrite dec_digits_more by lia.
  destruct (Z.ltb_spec y 1000) as [H3|H3].
  { rewrite dec_digits_last; [reflexivity|].
    split; [lia|].
    apply Z.div_lt_upper_bound; [lia|]. apply Z.div_lt_upper_bound; lia. }
  assert (Hd3 : (0 <= y / 10 / 10 / 10 < 10)%Z).
  { split; [apply Z.div_pos; lia|apply Z.div_lt_upper_bound; lia]. }
  assert (H100 : (10 <= y / 10 / 10)%Z).
  { apply Z.div_le_lower_bound; [lia|]. apply Z.div_le_lower_bound; lia. }
  destruct f as [|f]; [lia|].
  rewrite dec_digits_more by lia.
  rewrite dec_digits_last by lia.
  reflexivity.
Qed.

(** From the year 1000 on a year has its four digits. *)
Lemma dec_four_digits (y : Z) :
  (1000 <= y <= 9999)%Z -> dec y = zfill 4 y.
Proof.
  intros Hy. rewrite dec_shape, zfill4_shape by lia.
  replace (y <? 10)%Z with false by (symmetry; apply Z.ltb_ge; lia).
  replace (y <? 100)%Z with false by (symmetry; apply Z.ltb_ge; lia).
  replace (y <? 1000)%Z with false by (symmetry; apply Z.ltb_ge; lia).
  reflexivity.
Qed.

(** ** The calendar of the library is the calendar *)

Lemma leap_year_is_leap (y : Z) : leap_year y = is_leap y.
Proof.
  unfold leap_year, is_leap.
  destruct (y mod 400 =? 0)%Z eqn:E400.
  - apply Z.eqb_eq in E400.
    assert (E4 : (y mod 4 = 0)%Z).
    { pose proof (Z.div_mod y 400 ltac:(lia)) as Hq.
      assert (Hy : exists q, y = (q * 4)%Z)
        by (exists (100 * (y / 400))%Z; lia).
      destruct Hy as [q ->]. apply Z.mod_mul. lia. }
    rewrite E4. cbn. rewrite orb_true_r. reflexivity.
  - cbn. rewrite orb_false_r. reflexivity.
Qed.

Lemma month_length_days (y mo : Z) :
  (1 <= mo <= 12)%Z -> month_length y mo = days_in_month y mo.
Proof.
  intros Hmo. generalize Hmo. pattern mo.
  apply (Z_range_cases _ 12); [|lia].
  intros k Hk Hmo'.
  do 13 (destruct k as [|k];
         [try lia; unfold month_length; cbn [Z.of_nat Pos.of_succ_nat Pos.succ];
          rewrite ?leap_year_is_leap; reflexivity|]).
  lia.
Qed.

Lemma calendar_date_valid (y mo d : Z) :
  calendar_date y mo d = valid_date y mo d.
Proof.
  unfold calendar_date, valid_date.
  destruct ((1 <=? y) && (y <=? 9999) && (1 <=? mo) && (mo <=? 12)
            && (1 <=? d))%Z eqn:E; [|reflexivity].
  cbn [andb]. f_equal. apply month_length_days.
  rewrite !andb_true_iff, !Z.leb_le in E. lia.
Qed.

Lemma time_of_day_valid (h mi : Z) : time_of_day h mi = valid_time h mi.
Proof. reflexivity. Qed.

Lemma calendar_date_bounds (y mo d : Z) :
  calendar_date y mo d = true ->
  (1 <= y <= 9999 /\ 1 <= mo <= 12 /\ 1 <= d <= 31)%Z.
Proof. rewrite calendar_date_valid. apply valid_date_bounds. Qed.

Lemma time_of_day_bounds (h mi : Z) :
  time_of_day h mi = true -> (0 <= h <= 23 /\ 0 <= mi <= 59)%Z.
Proof. rewrite time_of_day_valid. apply valid_time_bounds. Qed.

Lemma month_abbr_name (mo : Z) :
  (1 <= mo <= 12)%Z -> month_abbr mo = month_name mo.
Proof.
  intros Hmo. generalize Hmo. pattern mo.
  apply (Z_range_cases _ 12); [|lia].
  intros k Hk Hmo'. each_case k 13.
Qed.

Lemma hour12_clock_hour (h : Z) :
  (0 <= h <= 23)%Z -> hour12 h = clock_hour h.
Proof.
  intros Hh. generalize Hh. pattern h.
  apply (Z_range_cases _ 23); [|lia].
  intros k Hk Hh'. each_case k 24.
Qed.

(** What [strptime] returns has passed the range checks. *)
Lemma strptime_valid (t : value) (format : string) (dt : datetime) :
  strptime t format = Ok dt ->
  calendar_date (year dt) (month dt) (day dt) = true
  /\ time_of_day (hour dt) (minute dt) = true.
Proof.
  rewrite calendar_date_valid, time_of_day_valid.
  unfold strptime. destruct t as [| | | |s| |]; try discriminate.
  destruct (pattern format) as [r|]; [|discriminate].
  destruct (re_match r s) as [[[m found] rest]|]; [|discriminate].
  destruct (negb (String.eqb rest "")); [discriminate|].
  destruct (field "Y" found 1900) as [y|]; cbn [rbind]; [|discriminate].
  destruct (field "m" found 1) as [mo|]; cbn [rbind]; [|discriminate].
  destruct (field "d" found 1) as [d|]; cbn [rbind]; [|discriminate].
  destruct (field "H" found 0) as [h|]; cbn [rbind]; [|discriminate].
  destruct (field "M" found 0) as [mi|]; cbn [rbind]; [|discriminate].
  destruct (valid_date y mo d && valid_time h mi) eqn:E; [|discriminate].
  intros H. injection H as <-. cbn [year month day hour minute].
  apply andb_true_iff in E. exact E.
Qed.

(** [strftime] with the format of the script, on a date and a time. *)
Lemma strftime_rendering (dt : datetime) :
  calendar_date (year dt) (month dt) (day dt) = true ->
  time_of_day (hour dt) (minute dt) = true ->
  strftime dt "%d %b %Y | %I:%M %p"
  = rendering (year dt) (month dt) (day dt) (hour dt) (minute dt).
Proof.
  intros Hdate Htime.
  destruct (calendar_date_bounds _ _ _ Hdate) as (_ & Hmo & _).
  destruct (time_of_day_bounds _ _ Htime) as (Hh & _).
  unfold rendering, meridiem. cbn [strftime]. unfold directive_text.
  cbn [Ascii.eqb Bool.eqb].
  rewrite (month_abbr_name _ Hmo), (hour12_clock_hour _ Hh), append_nil_r.
  reflexivity.
Qed.

Lemma format_datetime_parsed (t : value) (y mo d h mi : Z) :
  strptime t "%Y-%m-%d %H:%M" = Ok (mk_datetime y mo d h mi) ->
  format_datetime t = rendering y mo d h mi.
Proof.
  intros Ht. destruct (strptime_valid _ _ _ Ht) as [Hdate Htime].
  unfold format_datetime. rewrite Ht. cbn [rbind try_except].
  apply (strftime_rendering (mk_datetime y mo d h mi)); assumption.
Qed.

(** ** The groups of the format on a field with or without its zero *)

(** The whitespace characters. *)
Lemma is_space_cases (c : ascii) :
  is_space c = true ->
  In c (map ascii_of_nat
            [9; 10; 11; 12; 13; 28; 29; 30; 31; 32; 133; 160]%nat).
Proof.
  destruct c as [[] [] [] [] [] [] [] []]; intros H;
    try discriminate H; cbn; tauto.
Qed.

Ltac each_space c H :=
  apply is_space_cases in H; cbn [map In] in H;
  repeat (destruct H as [H|H]; [subst c|]); [..|destruct H].

Lemma py_int_field (padded : bool) (x : Z) :
  (0 <= x <= 99)%Z -> py_int (field_text padded x) = Ok x.
Proof.
  intros Hx.
  assert (Hall : forallb (field_round_trip padded) (seq 0 100) = true)
    by (destruct padded; vm_compute; reflexivity).
  pose proof (forallb_below _ _ Hall (Z.to_nat x)) as H.
  unfold field_round_trip in H. rewrite Z2Nat.id in H by lia.
  destruct (py_int (field_text padded x)) as [v|e].
  - f_equal. apply Z.eqb_eq. apply H. lia.
  - discriminate H. lia.
Qed.

Lemma py_int_day (sd : day_style) (d : Z) :
  (0 <= d <= 99)%Z -> py_int (day_text sd d) = Ok d.
Proof.
  intros Hd. destruct sd.
  - exact (py_int_field true d Hd).
  - exact (py_int_field false d Hd).
  - exact (py_int_field false d Hd).
Qed.

Lemma re_match_month_loose (padded : bool) (mo : Z) (rest : string) :
  (1 <= mo <= 12)%Z ->
  re_match (Grp "m" (Alt (Cat (Chr "1") (Rng "0" "2"))
                    (Alt (Cat (Chr "0") (Rng "1" "9")) (Rng "1" "9"))))
           (field_text padded mo ++ String "-" rest)
  = Some (field_text padded mo, [("m", field_text padded mo)],
          String "-" rest).
Proof.
  intros Hmo. generalize Hmo. generalize rest. pattern mo.
  apply (Z_range_cases _ 12); [|lia].
  intros k Hk rest' Hmo'. destruct padded; each_case k 13.
Qed.

Lemma re_match_day_loose (sd : day_style) (d : Z) (c : ascii) (rest : string) :
  (1 <= d <= 31)%Z ->
  day_style_ok sd d = true ->
  is_space c = true ->
  re_match (Grp "d" (Alt (Cat (Chr "3") (Rng "0" "1"))
                    (Alt (Cat (Rng "1" "2") Dgt)
                    (Alt (Cat (Chr "0") (Rng "1" "9"))
                    (Alt (Rng "1" "9") (Cat (Chr " ") (Rng "1" "9")))))))
           (day_text sd d ++ String c rest)
  = Some (day_text sd d, [("d", day_text sd d)], String c rest).
Proof.
  intros Hd Hok Hc. destruct sd.
  - apply re_match_day; exact Hd.
  - generalize Hd. generalize rest. pattern d.
    apply (Z_range_cases _ 31); [|lia].
    intros k Hk rest' Hd'.
    each_space c Hc; each_case k 32.
  - cbn [day_style_ok] in Hok. apply Z.leb_le in Hok.
    assert (Hd9 : (1 <= d <= 9)%Z) by lia.
    generalize Hd9. generalize rest. pattern d.
    apply (Z_range_cases _ 9); [|lia].
    intros k Hk rest' Hd'.
    each_space c Hc; each_case k 10.
Qed.

Lemma re_match_hour_loose (padded : bool) (h : Z) (rest : string) :
  (0 <= h <= 23)%Z ->
  space_runs (field_text padded h ++ String ":" rest) = []
  /\ re_match (Grp "H" (Alt (Cat (Chr "2") (Rng "0" "3"))
                       (Alt (Cat (Rng "0" "1") Dgt) Dgt)))
              (field_text padded h ++ String ":" rest)
     = Some (field_text padded h, [("H", field_text padded h)],
             String ":" rest).
Proof.
  intros Hh. generalize Hh. generalize rest. pattern h.
  apply (Z_range_cases _ 23); [|lia].
  intros k Hk rest' Hh'.
  destruct padded;
    do 24 (destruct k as [|k]; [split; reflexivity|]); lia.
Qed.

Lemma re_match_minute_loose (padded : bool) (mi : Z) :
  (0 <= mi <= 59)%Z ->
  re_match (Cat (Grp "M" (Alt (Cat (Rng "0" "5") Dgt) Dgt)) Eps)
           (field_text padded mi)
  = Some (field_text padded mi, [("M", field_text padded mi)], "").
Proof.
  intros Hmi. generalize Hmi. pattern mi.
  apply (Z_range_cases _ 59); [|lia].
  intros k Hk Hmi'. destruct padded; each_case k 60.
Qed.

(** [\s+] takes the whole run of whitespace first. *)
Lemma space_runs_blank (ws rest : string) :
  blank ws = true -> space_runs rest = [] ->
  exists others, space_runs (ws ++ rest) = (ws, [], rest) :: others.
Proof.
  intros Hws Hrest. destruct ws as [|c ws]; [discriminate|].
  revert c Hws. induction ws as [|c' ws IH]; intros c Hws.
  - cbn [blank list_ascii_of_string forallb] in Hws.
    rewrite andb_true_r in Hws.
    cbn [append space_runs]. rewrite Hws, Hrest. exists []. reflexivity.
  - cbn [blank list_ascii_of_string forallb] in Hws.
    apply andb_true_iff in Hws as [Hc Hws].
    destruct (IH c') as [others Ho].
    { cbn [blank list_ascii_of_string forallb]. exact Hws. }
    change ((String c (String c' ws)) ++ rest)
      with (String c ((String c' ws) ++ rest)).
    cbn [space_runs]. rewrite Hc, Ho. cbn [map app].
    eexists. reflexivity.
Qed.

Lemma re_match_blank (ws rest : string) :
  blank ws = true -> space_runs rest = [] ->
  re_match SpacePlus (ws ++ rest) = Some (ws, [], rest).
Proof.
  intros Hws Hrest. unfold re_match. cbn [rmatch].
  destruct (space_runs_blank ws rest Hws Hrest) as [others ->]. reflexivity.
Qed.

Lemma blank_head (ws : string) :
  blank ws = true ->
  exists c ws', ws = String c ws' /\ is_space c = true.
Proof.
  destruct ws as [|c ws']; [discriminate|].
  cbn [blank list_ascii_of_string forallb]. intros H.
  apply andb_true_iff in H as [Hc _]. exists c, ws'. split; [reflexivity|exact Hc].
Qed.

(** The format's expression on a timestamp written leniently: one way
    first, the one that reads each field in full. *)
Lemma re_match_lenient_text (pm : bool) (sd : day_style) (ph pn : bool)
      (ws : string) (y mo d h mi : Z) :
  blank ws = true -> day_style_ok sd d = true ->
  (1 <= y <= 9999)%Z -> (1 <= mo <= 12)%Z -> (1 <= d <= 31)%Z ->
  (0 <= h <= 23)%Z -> (0 <= mi <= 59)%Z ->
  exists m,
    re_match timestamp_regex (lenient_text pm sd ph pn ws y mo d h mi)
    = Some (m, [("Y", zfill 4 y); ("m", field_text pm mo);
                ("d", day_text sd d); ("H", field_text ph h);
                ("M", field_text pn mi)], "").
Proof.
  intros Hws Hsd Hy Hmo Hd Hh Hmi.
  unfold timestamp_regex, lenient_text.
  pose proof (re_match_minute_loose pn mi Hmi) as H1.
  pose proof (re_match_Cat _ _ _ _ _ _ _ _ _
                (re_match_Chr ":" (field_text pn mi)) H1) as H2.
  destruct (re_match_hour_loose ph h (field_text pn mi) Hh) as [Hsp H3].
  pose proof (re_match_Cat _ _ _ _ _ _ _ _ _ H3 H2) as H4.
  pose proof (re_match_Cat _ _ _ _ _ _ _ _ _
                (re_match_blank ws _ Hws Hsp) H4) as H5.
  destruct (blank_head ws Hws) as (c & ws' & Ews & Hc).
  assert (H6 : re_match
                 (Grp "d" (Alt (Cat (Chr "3") (Rng "0" "1"))
                          (Alt (Cat (Rng "1" "2") Dgt)
                          (Alt (Cat (Chr "0") (Rng "1" "9"))
                          (Alt (Rng "1" "9") (Cat (Chr " ") (Rng "1" "9")))))))
                 (day_text sd d
                  ++ ws ++ field_text ph h ++ String ":" (field_text pn mi))
               = Some (day_text sd d, [("d", day_text sd d)],
                       ws ++ field_text ph h ++ String ":" (field_text pn mi))).
  { rewrite Ews. apply re_match_day_loose; assumption. }
  pose proof (re_match_Cat _ _ _ _ _ _ _ _ _ H6 H5) as H7.
  pose proof (re_match_Cat _ _ _ _ _ _ _ _ _
                (re_match_Chr "-" _) H7) as H8.
  pose proof (re_match_Cat _ _ _ _ _ _ _ _ _
                (re_match_month_loose pm mo _ Hmo) H8) as H9.
  pose proof (re_match_Cat _ _ _ _ _ _ _ _ _
                (re_match_Chr "-" _) H9) as H10.
  pose proof (re_match_Cat _ _ _ _ _ _ _ _ _
                (re_match_year y _
                   (conj (Z.le_trans 0 1 y (Z.le_0_1) (proj1 Hy)) (proj2 Hy)))
                H10) as H11.
  eexists. exact H11.
Qed.

Opaque py_int zfill dec field_text day_text.

(** Parsing a timestamp written leniently gives its fields back. *)
Lemma strptime_lenient_text (pm : bool) (sd : day_style) (ph pn : bool)
      (ws : string) (y mo d h mi : Z) :
  blank ws = true -> day_style_ok sd d = true ->
  calendar_date y mo d = true -> time_of_day h mi = true ->
  strptime (VStr (lenient_text pm sd ph pn ws y mo d h mi)) "%Y-%m-%d %H:%M"
  = Ok (mk_datetime y mo d h mi).
Proof.
  intros Hws Hsd Hdate Htime.
  destruct (calendar_date_bounds _ _ _ Hdate) as (Hy & Hmo & Hd).
  destruct (time_of_day_bounds _ _ Htime) as (Hh & Hmi).
  destruct (re_match_lenient_text pm sd ph pn ws y mo d h mi
              Hws Hsd Hy Hmo Hd Hh Hmi) as [m Hm].
  rewrite calendar_date_valid in Hdate. rewrite time_of_day_valid in Htime.
  unfold strptime. rewrite pattern_timestamp, Hm.
  cbn [String.eqb negb field group Ascii.eqb Bool.eqb].
  simpl.
  rewrite (py_int_zfill4 y) by lia. cbn [rbind].
  rewrite (py_int_field pm mo) by lia. cbn [rbind].
  rewrite (py_int_day sd d) by lia. cbn [rbind].
  rewrite (py_int_field ph h) by lia. cbn [rbind].
  rewrite (py_int_field pn mi) by lia. cbn [rbind].
  rewrite Hdate, Htime. reflexivity.
Qed.

Transparent py_int zfill dec field_text day_text.

(** The strict layout is one of the lenient spellings. *)
Lemma timestamp_text_lenient (y mo d h mi : Z) :
  timestamp_text y mo d h mi
  = lenient_text true TwoDigits true true " " y mo d h mi.
Proof. reflexivity. Qed.

Lemma format_datetime_lenient_text (pm : bool) (sd : day_style) (ph pn : bool)
      (ws : string) (y mo d h mi : Z) :
  blank ws = true -> day_style_ok sd d = true ->
  calendar_date y mo d = true -> time_of_day h mi = true ->
  format_datetime (VStr (lenient_text pm sd ph pn ws y mo d h mi))
  = rendering y mo d h mi.
Proof.
  intros Hws Hsd Hdate Htime. apply format_datetime_parsed.
  apply strptime_lenient_text; assumption.
Qed.

(** ** Layouts *)

Lemma month_name_letters (mo : Z) :
  (1 <= mo <= 12)%Z ->
  exists a b c,
    month_name mo = String a (String b (String c ""))
    /\ is_upper a = true /\ is_lower b = true /\ is_lower c = true.
Proof.
  intros Hmo. generalize Hmo. pattern mo.
  apply (Z_range_cases _ 12); [|lia].
  intros k Hk Hmo'.
  do 13 (destruct k as [|k];
         [try lia; do 3 eexists; repeat split; reflexivity|]).
  lia.
Qed.

Lemma clock_hour_bounds (h : Z) : (0 <= h <= 23)%Z -> (1 <= clock_hour h <= 12)%Z.
Proof.
  intros Hh. unfold clock_hour.
  destruct (Z.eqb_spec h 0); [lia|].
  destruct (Z.leb_spec h 12); lia.
Qed.

Lemma meridiem_letters (h : Z) :
  exists a, meridiem h = String a "M"
            /\ (Ascii.eqb a "A" || Ascii.eqb a "P") = true.
Proof.
  unfold meridiem. destruct (h <? 12)%Z; eexists; split; reflexivity.
Qed.

(** The rendering has the layout ["DD Mon YYYY | HH:MM AM/PM"] exactly
    from the year 1000 on. *)
Lemma rendering_has_layout (y mo d h mi : Z) :
  calendar_date y mo d = true -> time_of_day h mi = true ->
  rendering_layout (rendering y mo d h mi) = (1000 <=? y)%Z.
Proof.
  intros Hdate Htime.
  destruct (calendar_date_bounds _ _ _ Hdate) as (Hy & Hmo & Hd).
  destruct (time_of_day_bounds _ _ Htime) as (Hh & Hmi).
  pose proof (clock_hour_bounds h Hh) as Hh12.
  destruct (zfill2_digits d ltac:(lia)) as (d1 & d2 & Ed & Hd1 & Hd2).
  destruct (zfill2_digits (clock_hour h) ltac:(lia))
    as (h1 & h2 & Eh & Hh1 & Hh2).
  destruct (zfill2_digits mi ltac:(lia)) as (n1 & n2 & En & Hn1 & Hn2).
  destruct (month_name_letters mo Hmo) as (b1 & b2 & b3 & Eb & Hb1 & Hb2 & Hb3).
  destruct (meridiem_letters h) as (ap & Eap & Hap).
  unfold rendering. rewrite Ed, Eh, En, Eb, Eap.
  destruct (Z.leb_spec 1000 y) as [H4|H4].
  - rewrite dec_four_digits by lia.
    destruct (zfill4_digits y ltac:(lia))
      as (y1 & y2 & y3 & y4 & Ey & Hy1 & Hy2 & Hy3 & Hy4).
    rewrite Ey. unfold rendering_layout. cbn.
    rewrite Hd1, Hd2, Hy1, Hy2, Hy3, Hy4, Hh1, Hh2, Hn1, Hn2, Hb1, Hb2, Hb3, Hap.
    reflexivity.
  - rewrite (dec_shape y) by lia. unfold rendering_layout.
    destruct (y <? 10)%Z; [reflexivity|].
    destruct (y <? 100)%Z; [reflexivity|].
    replace (y <? 1000)%Z with true by (symmetry; apply Z.ltb_lt; lia).
    reflexivity.
Qed.

Lemma timestamp_text_has_layout (y mo d h mi : Z) :
  calendar_date y mo d = true -> time_of_day h mi = true ->
  strict_layout (timestamp_text y mo d h mi) = true.
Proof.
  intros Hdate Htime.
  destruct (calendar_date_bounds _ _ _ Hdate) as (Hy & Hmo & Hd).
  destruct (time_of_day_bounds _ _ Htime) as (Hh & Hmi).
  destruct (zfill4_digits y ltac:(lia))
    as (y1 & y2 & y3 & y4 & Ey & Hy1 & Hy2 & Hy3 & Hy4).
  destruct (zfill2_digits mo ltac:(lia)) as (m1 & m2 & Em & Hm1 & Hm2).
  destruct (zfill2_digits d ltac:(lia)) as (d1 & d2 & Ed & Hd1 & Hd2).
  destruct (zfill2_digits h ltac:(lia)) as (h1 & h2 & Eh & Hh1 & Hh2).
  destruct (zfill2_digits mi ltac:(lia)) as (n1 & n2 & En & Hn1 & Hn2).
  unfold timestamp_text. rewrite Ey, Em, Ed, Eh, En.
  unfold strict_layout. cbn.
  rewrite Hy1, Hy2, Hy3, Hy4, Hm1, Hm2, Hd1, Hd2, Hh1, Hh2, Hn1, Hn2.
  reflexivity.
Qed.

(** C5, as amended.  For every timestamp of a date of the calendar (years
    1 to 9999) and a time of the day, written in the layout
    ["YYYY-MM-DD HH:MM"], the formatter returns the rendering of its
    fields: the day on two digits, the English short name of the month,
    the year, a bar, the time on the twelve-hour clock and [AM] or [PM].
    From the year 1000 on this rendering has the layout
    ["DD Mon YYYY | HH:MM AM/PM"]; below, the year is written without its
    leading zeros and the layout is not met, see
    [format_datetime_short_year].  The names of the twelve months, the
    hours around noon and midnight and the 29th of February are spelled
    out. *)
Theorem format_datetime_valid_timestamp :
  (forall y mo d h mi : Z,
     calendar_date y mo d = true ->
     time_of_day h mi = true ->
     strict_layout (timestamp_text y mo d h mi) = true
     /\ format_datetime (VStr (timestamp_text y mo d h mi))
        = rendering y mo d h mi
     /\ ((1000 <= y)%Z ->
         rendering_layout (format_datetime (VStr (timestamp_text y mo d h mi)))
         = true))
  /\ format_datetime (VStr "2025-03-10 14:30") = "10 Mar 2025 | 02:30 PM"
  /\ map (fun mo => format_datetime (VStr (timestamp_text 2025 mo 9 8 7)))
         [1; 2; 3; 4; 5; 6; 7; 8; 9; 10; 11; 12]%Z
     = ["09 Jan 2025 | 08:07 AM"; "09 Feb 2025 | 08:07 AM";
        "09 Mar 2025 | 08:07 AM"; "09 Apr 2025 | 08:07 AM";
        "09 May 2025 | 08:07 AM"; "09 Jun 2025 | 08:07 AM";
        "09 Jul 2025 | 08:07 AM"; "09 Aug 2025 | 08:07 AM";
        "09 Sep 2025 | 08:07 AM"; "09 Oct 2025 | 08:07 AM";
        "09 Nov 2025 | 08:07 AM"; "09 Dec 2025 | 08:07 AM"]
  /\ map (fun h => format_datetime (VStr (timestamp_text 2025 12 31 h 59)))
         [0; 1; 11; 12; 13; 23]%Z
     = ["31 Dec 2025 | 12:59 AM"; "31 Dec 2025 | 01:59 AM";
        "31 Dec 2025 | 11:59 AM"; "31 Dec 2025 | 12:59 PM";
        "31 Dec 2025 | 01:59 PM"; "31 Dec 2025 | 11:59 PM"]
  /\ format_datetime (VStr "2024-02-29 00:00") = "29 Feb 2024 | 12:00 AM"
  /\ format_datetime (VStr "2000-02-29 12:00") = "29 Feb 2000 | 12:00 PM".
Proof.
  split; [|repeat split; reflexivity].
  intros y mo d h mi Hdate Htime.
  split; [apply timestamp_text_has_layout; assumption|].
  assert (E : format_datetime (VStr (timestamp_text y mo d h mi))
              = rendering y mo d h mi).
  { rewrite timestamp_text_lenient.
    apply format_datetime_lenient_text; try assumption; reflexivity. }
  split; [exact E|].
  intros Hy. rewrite E, rendering_has_layout by assumption.
  apply Z.leb_le. exact Hy.
Qed.

Lemma format_datetime_valid_timestamp_witness :
  strict_layout (timestamp_text 2025 3 10 14 30) = true
  /\ format_datetime (VStr (timestamp_text 2025 3 10 14 30))
     = rendering 2025 3 10 14 30
  /\ ((1000 <= 2025)%Z ->
      rendering_layout (format_datetime (VStr (timestamp_text 2025 3 10 14 30)))
      = true).
Proof.
  exact (proj1 format_datetime_valid_timestamp 2025%Z 3%Z 10%Z 14%Z 30%Z
           eq_refl eq_refl).
Defined.

(** C5 as the specification words it does not hold below the year 1000:
    ["0999-03-10 14:30"] is a valid timestamp in the layout
    ["YYYY-MM-DD HH:MM"], and the formatter renders its year on three
    digits, which is not the layout ["DD Mon YYYY | HH:MM AM/PM"]; the
    year 1 comes out on one digit. *)
Lemma format_datetime_short_year :
  calendar_date 999 3 10 = true
  /\ time_of_day 14 30 = true
  /\ timestamp_text 999 3 10 14 30 = "0999-03-10 14:30"
  /\ strict_layout "0999-03-10 14:30" = true
  /\ format_datetime (VStr "0999-03-10 14:30") = "10 Mar 999 | 02:30 PM"
  /\ rendering_layout "10 Mar 999 | 02:30 PM" = false
  /\ format_datetime (VStr "0001-01-01 00:00") = "01 Jan 1 | 12:00 AM"
  /\ ~ (forall y mo d h mi : Z,
          calendar_date y mo d = true -> time_of_day h mi = true ->
          rendering_layout (format_datetime (VStr (timestamp_text y mo d h mi)))
          = true).
Proof.
  repeat (split; [reflexivity|]).
  intros H. specialize (H 999 3 10 14 30 eq_refl eq_refl)%Z. discriminate H.
Qed.

(** Every output is the placeholder or the rendering of a date and a
    time. *)
Lemma format_datetime_na_or_rendering (t : value) :
  format_datetime t = "N/A"
  \/ exists y mo d h mi : Z,
       strptime t "%Y-%m-%d %H:%M" = Ok (mk_datetime y mo d h mi)
       /\ calendar_date y mo d = true
       /\ time_of_day h mi = true
       /\ format_datetime t = rendering y mo d h mi.
Proof.
  destruct (strptime t "%Y-%m-%d %H:%M") as [[y mo d h mi]|e] eqn:E.
  - right. exists y, mo, d, h, mi.
    destruct (strptime_valid _ _ _ E) as [Hdate Htime].
    split; [reflexivity|]. split; [exact Hdate|]. split; [exact Htime|].
    apply format_datetime_parsed. exact E.
  - left. unfold format_datetime. rewrite E. reflexivity.
Qed.

Lemma format_datetime_formatted_time (t : value) :
  formatted_time (format_datetime t).
Proof.
  destruct (format_datetime_na_or_rendering t)
    as [H|(y & mo & d & h & mi & _ & Hdate & Htime & E)];
    [left; exact H|right].
  exists y, mo, d, h, mi. repeat split; assumption.
Qed.


(** ** What the format's expression accepts

    A way of matching is read backwards: from a hit of an expression to
    the text it consumed. *)























Opaque py_int zfill dec field_text day_text.


Transparent py_int zfill dec field_text day_text.



(* ================================================================== *)
(** * The flight offer selector: errors, order, repetition *)
(* ================================================================== *)

(** [<] raises when either side is [None]. *)
Lemma py_lt_None (a b : value) :
  a = VNone \/ b = VNone -> py_lt a b = Raise TypeError.
Proof.
  intros [->| ->]; [reflexivity|].
  destruct a; try reflexivity.
Qed.

Lemma insert_keyed_no_None {A} (x y : value * A) (l r : list (value * A)) :
  insert_keyed x (y :: l) = Ok r -> fst x <> VNone /\ fst y <> VNone.
Proof.
  simpl. intros H. split; intros E;
    rewrite py_lt_None in H by (rewrite E; auto); discriminate H.
Qed.

(** A sort of two or more items that returns has met no [None] key. *)
Lemma sort_keyed_no_None {A} (todo placed r : list (value * A)) :
  ((List.length placed <= 1)%nat \/ Forall (fun kx => fst kx <> VNone) placed) ->
  sort_keyed placed todo = Ok r ->
  (2 <= List.length (placed ++ todo))%nat ->
  Forall (fun kx => fst kx <> VNone) (placed ++ todo)%list.
Proof.
  revert placed r. induction todo as [|x todo IH]; intros placed r Hinv; simpl.
  - intros _ Hlen. rewrite app_nil_r in *.
    destruct Hinv as [Hshort|Hall]; [lia|exact Hall].
  - destruct (insert_keyed x placed) as [p1|e] eqn:E; simpl; [|discriminate].
    intros Hsort Hlen.
    pose proof (insert_keyed_perm _ _ _ E) as Hperm.
    destruct placed as [|y placed].
    + simpl in E. injection E as <-.
      apply (IH [x] r); [left; simpl; lia|exact Hsort|exact Hlen].
    + destruct (insert_keyed_no_None _ _ _ _ E) as [Hx Hy].
      assert (Hplaced : Forall (fun kx => fst kx <> VNone) (y :: placed)).
      { destruct Hinv as [Hshort|Hall]; [|exact Hall].
        destruct placed; [|simpl in Hshort; lia].
        constructor; [exact Hy|constructor]. }
      assert (Hp1 : Forall (fun kx => fst kx <> VNone) p1).
      { eapply Permutation_Forall; [apply Permutation_sym; exact Hperm|].
        constructor; assumption. }
      assert (Hrec : Forall (fun kx => fst kx <> VNone) (p1 ++ todo)%list).
      { apply (IH p1 r); [right; exact Hp1|exact Hsort|].
        rewrite length_app, (Permutation_length Hperm).
        rewrite length_app in Hlen. simpl in *. lia. }
      apply Forall_app in Hrec as [_ Htodo].
      apply Forall_app. split; [exact Hplaced|].
      constructor; assumption.
Qed.

Lemma rmap_price_key_dicts (offers : list value) :
  forallb is_dict offers = true ->
  exists keyed,
    rmap (fun v => (k <- price_key v ;; Ok (k, v))%result) offers = Ok keyed
    /\ Forall2 (fun o kx => snd kx = o /\ price_key o = Ok (fst kx)) offers keyed.
Proof.
  induction offers as [|o offers IH]; simpl.
  - intros _. exists []. split; [reflexivity|constructor].
  - intros H. apply andb_true_iff in H as [Ho Hos].
    destruct (IH Hos) as (keyed & Hk & Hall).
    destruct o as [| | | | | |d]; try discriminate.
    unfold price_key at 1, py_get.
    destruct (dict_lookup "price" d) as [p|] eqn:Ep; simpl; rewrite Hk; simpl.
    + eexists. split; [reflexivity|]. constructor; [|exact Hall].
      split; [reflexivity|]. unfold price_key, py_get. rewrite Ep. reflexivity.
    + eexists. split; [reflexivity|]. constructor; [|exact Hall].
      split; [reflexivity|]. unfold price_key, py_get. rewrite Ep. reflexivity.
Qed.

Lemma rmap_price_key_not_dict (offers : list value) :
  forallb is_dict offers = false ->
  rmap (fun v => (k <- price_key v ;; Ok (k, v))%result) offers
  = Raise AttributeError.
Proof.
  induction offers as [|o offers IH]; [discriminate|].
  destruct o as [| | | | | |d]; try reflexivity.
  intros H. change (forallb is_dict offers = false) in H.
  cbn [rmap]. rewrite (IH H).
  unfold price_key, py_get. destruct (dict_lookup "price" d); reflexivity.
Qed.

(** The only exception a comparison raises is [TypeError]. *)
Lemma py_lt_raises : forall (a b : value) (e : exn),
  py_lt a b = Raise e -> e = TypeError.
Proof.
  fix IH 1. intros a b e.
  destruct a as [| | | | |l|]; destruct b as [| | | | |m|]; simpl;
    try (intros H; try discriminate H; injection H as <-; reflexivity).
  revert m. induction l as [|x l IHl]; intros [|y m]; try discriminate.
  destruct (py_eq x y); [apply IHl|apply IH].
Qed.

Lemma insert_keyed_raises {A} (x : value * A) (l : list (value * A)) (e : exn) :
  insert_keyed x l = Raise e -> e = TypeError.
Proof.
  induction l as [|y l IHl]; simpl; [discriminate|].
  destruct (py_lt (fst x) (fst y)) as [[|]|e0] eqn:El; simpl.
  - discriminate.
  - destruct (insert_keyed x l) as [r0|e1]; simpl; [discriminate|].
    intros H. injection H as <-. apply IHl. reflexivity.
  - intros H. injection H as <-. exact (py_lt_raises _ _ _ El).
Qed.

Lemma sort_keyed_raises {A} (todo placed : list (value * A)) (e : exn) :
  sort_keyed placed todo = Raise e -> e = TypeError.
Proof.
  revert placed. induction todo as [|x todo IH]; intros placed; simpl;
    [discriminate|].
  destruct (insert_keyed x placed) as [p1|e1] eqn:E1; simpl.
  - apply IH.
  - intros H. injection H as <-. exact (insert_keyed_raises _ _ _ E1).
Qed.

(** X1.  What makes the selector raise.  A response that is no object, or
    an offer in the list that is no object, has no [get]: the call raises
    [AttributeError].  A ["best_flights"] that cannot be iterated ([null],
    a number, a boolean) makes [sorted] raise [TypeError]. *)
Theorem extract_cheapest_flights_raises :
  (forall data : value,
     is_dict data = false ->
     extract_cheapest_flights data = Raise AttributeError)
  /\ (forall (d : list (string * value)) (v : value),
        dict_lookup "best_flights" d = Some v ->
        is_iterable v = false ->
        extract_cheapest_flights (VDict d) = Raise TypeError)
  /\ (forall (d : list (string * value)) (offers : list value),
        dict_lookup "best_flights" d = Some (VList offers) ->
        forallb is_dict offers = false ->
        extract_cheapest_flights (VDict d) = Raise AttributeError).
Proof.
  split; [|split].
  - intros data H. destruct data; try reflexivity. discriminate H.
  - intros d v Hd Hv. unfold extract_cheapest_flights, py_get. rewrite Hd.
    destruct v; try discriminate Hv; reflexivity.
  - intros d offers Hd Hoffers.
    unfold extract_cheapest_flights, py_get. rewrite Hd.
    cbn [rbind]. unfold py_sorted, py_iter. cbn [rbind]. unfold sorted_by.
    rewrite (rmap_price_key_not_dict offers Hoffers). reflexivity.
Qed.

(** X2.  A [null] price is not a missing price: when the list holds two
    or more offers, all of them objects, and one of them has
    ["price": null], the comparison of [None] with another key raises and
    the selector raises [TypeError]. *)
Theorem extract_cheapest_flights_null_price :
  forall (d : list (string * value)) (offers : list value),
    dict_lookup "best_flights" d = Some (VList offers) ->
    forallb is_dict offers = true ->
    (2 <= List.length offers)%nat ->
    existsb null_price offers = true ->
    extract_cheapest_flights (VDict d) = Raise TypeError.
Proof.
  intros d offers Hd Hdicts Hlen Hnull.
  unfold extract_cheapest_flights, py_get. rewrite Hd.
  cbn [rbind]. unfold py_sorted, py_iter. cbn [rbind]. unfold sorted_by.
  destruct (rmap_price_key_dicts offers Hdicts) as (keyed & -> & Hall).
  cbn [rbind].
  destruct (sort_keyed [] keyed) as [r|e] eqn:Es.
  - exfalso.
    assert (Hk : Forall (fun kx : value * value => fst kx <> VNone) keyed).
    { apply (sort_keyed_no_None keyed [] r); [left; simpl; lia|exact Es|].
      simpl. rewrite <- (Forall2_length Hall). exact Hlen. }
    apply existsb_exists in Hnull as (o & Hin & Ho).
    clear -Hall Hk Hin Ho.
    induction Hall as [|o' kx offers keyed [Hsnd Hkey] Hall IH].
    + destruct Hin.
    + apply Forall_cons_iff in Hk as [Hkx Hk].
      destruct Hin as [->|Hin]; [|exact (IH Hin Hk)].
      destruct o as [| | | | | |d]; try discriminate.
      unfold null_price in Ho. unfold price_key, py_get in Hkey.
      destruct (dict_lookup "price" d) as [[| | | | | |]|]; try discriminate.
      injection Hkey as Hkey. apply Hkx. symmetry. exact Hkey.
  - rewrite (sort_keyed_raises _ _ _ Es). reflexivity.
Qed.

Lemma extract_cheapest_flights_null_price_witness :
  extract_cheapest_flights
    (response_with [priced_offer "a" 9000;
                    VDict [("booking_token", VStr "b"); ("price", VNone)]])
  = Raise TypeError.
Proof.
  exact (extract_cheapest_flights_null_price
           [("search_metadata", VDict [("status", VStr "Success")]);
            ("best_flights",
             VList [priced_offer "a" 9000;
                    VDict [("booking_token", VStr "b"); ("price", VNone)]])]
           [priced_offer "a" 9000;
            VDict [("booking_token", VStr "b"); ("price", VNone)]]
           eq_refl eq_refl (le_n 2) eq_refl).
Defined.

(** Inserting an item that nothing placed is greater than puts it last. *)
Lemma insert_keyed_last {A} (rk : value * A -> number) (x : value * A)
      (l : list (value * A)) :
  keyed_ok rk (x :: l) -> Forall (fun y => rank_le rk y x) l ->
  insert_keyed x l = Ok (l ++ [x])%list.
Proof.
  induction l as [|y l IH]; intros Hk Hle; [reflexivity|].
  apply Forall_cons_iff in Hk as [Hx Hyl].
  pose proof Hyl as Hyl'. apply Forall_cons_iff in Hyl' as [Hy Hl].
  apply Forall_cons_iff in Hle as [Hyx Hle].
  cbn [insert_keyed]. rewrite (py_lt_numbers _ _ _ _ Hx Hy). cbn [rbind].
  unfold rank_le, number_leb in Hyx. apply negb_true_iff in Hyx.
  rewrite Hyx. rewrite IH; [reflexivity| |exact Hle].
  constructor; assumption.
Qed.

Lemma StronglySorted_app_inv {A} (R : A -> A -> Prop) (l1 l2 : list A) :
  StronglySorted R (l1 ++ l2)%list ->
  StronglySorted R l1 /\ StronglySorted R l2
  /\ Forall (fun a => Forall (R a) l2) l1.
Proof.
  induction l1 as [|a l1 IH]; simpl; intros H.
  - split; [constructor|]. split; [exact H|constructor].
  - apply StronglySorted_inv in H as [Hs Hall].
    destruct (IH Hs) as (H1 & H2 & H12).
    apply Forall_app in Hall as [Ha1 Ha2].
    split; [constructor; assumption|]. split; [exact H2|].
    constructor; assumption.
Qed.

(** Sorting what is in order already changes nothing. *)
Lemma sort_keyed_sorted {A} (rk : value * A -> number)
      (todo placed : list (value * A)) :
  keyed_ok rk (placed ++ todo)%list ->
  StronglySorted (rank_le rk) (placed ++ todo)%list ->
  sort_keyed placed todo = Ok (placed ++ todo)%list.
Proof.
  revert placed. induction todo as [|x todo IH]; intros placed Hk Hs.
  - rewrite app_nil_r. reflexivity.
  - cbn [sort_keyed].
    destruct (StronglySorted_app_inv _ _ _ Hs) as (_ & _ & H12).
    pose proof Hk as Hk'. apply Forall_app in Hk' as [Hp Ht].
    apply Forall_cons_iff in Ht as [Hx _].
    rewrite (insert_keyed_last rk x placed).
    + cbn [rbind]. rewrite IH; rewrite <- app_assoc; [reflexivity| |]; assumption.
    + constructor; assumption.
    + eapply Forall_impl; [|exact H12]. intros a Ha.
      apply Forall_cons_iff in Ha as [Ha _]. exact Ha.
Qed.

Lemma keyed_offers_sorted (offers : list value) :
  StronglySorted cheaper_or_equal offers ->
  StronglySorted (rank_le (fun kx : value * value => offer_price (snd kx)))
                 (keyed_offers offers).
Proof.
  induction 1 as [|o offers Hs IH Hall]; simpl; constructor; [exact IH|].
  unfold keyed_offers. apply Forall_map.
  eapply Forall_impl; [|exact Hall]. intros a Ha. exact Ha.
Qed.

Lemma sorted_by_price_sorted (offers : list value) :
  forallb is_offer offers = true ->
  StronglySorted cheaper_or_equal offers ->
  sorted_by price_key offers = Ok offers.
Proof.
  intros Hoffers Hs. unfold sorted_by.
  rewrite (rmap_price_key offers Hoffers). cbn [rbind].
  rewrite (sort_keyed_sorted (fun kx => offer_price (snd kx))
             (keyed_offers offers) []).
  - cbn [rbind app]. rewrite map_snd_keyed_offers. reflexivity.
  - apply keyed_offers_ok.
  - apply keyed_offers_sorted. exact Hs.
Qed.

Lemma forallb_perm {A} (f : A -> bool) (l l' : list A) :
  Permutation l l' -> forallb f l' = true -> forallb f l = true.
Proof.
  intros Hp H. apply forallb_forall. intros x Hx.
  rewrite forallb_forall in H. apply H.
  eapply Permutation_in; [exact Hp|exact Hx].
Qed.

Lemma forallb_firstn {A} (f : A -> bool) (n : nat) (l : list A) :
  forallb f l = true -> forallb f (firstn n l) = true.
Proof.
  rewrite !forallb_forall. intros H x Hx. apply H.
  rewrite <- (firstn_skipn n l). apply in_or_app. left. exact Hx.
Qed.

Lemma StronglySorted_firstn {A} (R : A -> A -> Prop) (n : nat) (l : list A) :
  StronglySorted R l -> StronglySorted R (firstn n l).
Proof.
  intros H. rewrite <- (firstn_skipn n l) in H.
  apply StronglySorted_app_inv in H as [H _]. exact H.
Qed.

Lemma extract_cheapest_flights_sorted_by (d : list (string * value))
      (offers : list value) :
  dict_lookup "best_flights" d = Some (VList offers) ->
  extract_cheapest_flights (VDict d)
  = (ranked <- sorted_by price_key offers ;; Ok (firstn 3 ranked))%result.
Proof.
  intros Hd. unfold extract_cheapest_flights, py_get. rewrite Hd. reflexivity.
Qed.

(** X3.  Offers that come in ascending price order are not rearranged: the
    selector returns the first three of the list exactly as given, equal
    prices and offers without a price included. *)
Theorem extract_cheapest_flights_keeps_sorted :
  forall (d : list (string * value)) (offers : list value),
    dict_lookup "best_flights" d = Some (VList offers) ->
    forallb is_offer offers = true ->
    StronglySorted cheaper_or_equal offers ->
    extract_cheapest_flights (VDict d) = Ok (firstn 3 offers).
Proof.
  intros d offers Hd Hoffers Hs.
  rewrite (extract_cheapest_flights_sorted_by d offers Hd).
  rewrite (sorted_by_price_sorted offers Hoffers Hs). reflexivity.
Qed.

Lemma extract_cheapest_flights_keeps_sorted_witness :
  extract_cheapest_flights
    (response_with [priced_offer "a" 500; priced_offer "b" 500;
                    priced_offer "c" 900; unpriced_offer "d"])
  = Ok [priced_offer "a" 500; priced_offer "b" 500; priced_offer "c" 900].
Proof.
  refine (extract_cheapest_flights_keeps_sorted
            [("search_metadata", VDict [("status", VStr "Success")]);
             ("best_flights",
              VList [priced_offer "a" 500; priced_offer "b" 500;
                     priced_offer "c" 900; unpriced_offer "d"])]
            [priced_offer "a" 500; priced_offer "b" 500;
             priced_offer "c" 900; unpriced_offer "d"] eq_refl eq_refl _).
  repeat constructor.
Defined.

(** X4.  What the selector returns for a provider response holds the
    cheapest offers and is a fixed point of the selector: the candidates
    left out cost at least as much as every offer returned, and selecting
    again from the returned offers returns them unchanged. *)
Theorem extract_cheapest_flights_cheapest :
  forall (data : value) (picked : list value),
    is_provider_response data = true ->
    extract_cheapest_flights data = Ok picked ->
    (exists rest,
        Permutation (picked ++ rest)%list (candidate_offers data)
        /\ Forall (fun o => Forall (cheaper_or_equal o) rest) picked)
    /\ forall d : list (string * value),
         dict_lookup "best_flights" d = Some (VList picked) ->
         extract_cheapest_flights (VDict d) = Ok picked.
Proof.
  intros data picked Hdata Hpicked.
  destruct data as [| | | | |l|d]; simpl in Hdata; try discriminate.
  unfold candidate_offers.
  destruct (dict_lookup "best_flights" d) as [[| | | | |offers|]|] eqn:Hd;
    try discriminate.
  - rewrite (extract_cheapest_flights_sorted_by d offers Hd) in Hpicked.
    destruct (sorted_by_price offers Hdata) as (ranked & Hr & Hp & Hs & _).
    rewrite Hr in Hpicked. cbn [rbind] in Hpicked.
    assert (Hpk : picked = firstn 3 ranked) by congruence.
    subst picked. clear Hpicked. split.
    + exists (skipn 3 ranked). rewrite firstn_skipn. split; [exact Hp|].
      rewrite <- (firstn_skipn 3 ranked) in Hs.
      apply StronglySorted_app_inv in Hs as (_ & _ & H). exact H.
    + intros d' Hd'.
      rewrite (extract_cheapest_flights_sorted_by d' _ Hd').
      rewrite sorted_by_price_sorted.
      * cbn [rbind]. rewrite firstn_firstn. reflexivity.
      * apply forallb_firstn. exact (forallb_perm _ _ _ Hp Hdata).
      * apply StronglySorted_firstn. exact Hs.
  - unfold extract_cheapest_flights, py_get in Hpicked. rewrite Hd in Hpicked.
    injection Hpicked as <-. split.
    + exists []. split; constructor.
    + intros d' Hd'.
      rewrite (extract_cheapest_flights_sorted_by d' _ Hd'). reflexivity.
Qed.

Lemma extract_cheapest_flights_cheapest_witness :
  exists rest,
    Permutation ([priced_offer "b" 9000; priced_offer "d" 10000;
                  priced_offer "a" 12000] ++ rest)%list
                [priced_offer "a" 12000; priced_offer "b" 9000;
                 priced_offer "c" 15000; priced_offer "d" 10000]
    /\ Forall (fun o => Forall (cheaper_or_equal o) rest)
              [priced_offer "b" 9000; priced_offer "d" 10000;
               priced_offer "a" 12000].
Proof.
  exact (proj1 (extract_cheapest_flights_cheapest
                  (response_with [priced_offer "a" 12000; priced_offer "b" 9000;
                                  priced_offer "c" 15000; priced_offer "d" 10000])
                  _ eq_refl eq_refl)).
Defined.

(** X5.  The list the selector returns is a new object: on a store of
    objects, the location returned lies beyond every location of the store
    before the call, so it is not the provider's list and nothing the
    caller held refers to it, also when the response has three offers or
    fewer; it holds at most three locations. *)
Theorem extract_cheapest_flights_returns_new_list :
  forall (s : store) (data out : loc),
    snd (ref_extract_cheapest_flights data s) = Ok out ->
    (List.length s < out)%nat
    /\ nth_error s out = None
    /\ exists picked,
         nth_error (fst (ref_extract_cheapest_flights data s)) out
         = Some (ListObj picked)
         /\ (List.length picked <= 3)%nat.
Proof.
  intros s data out Hout.
  destruct (ref_extract_cheapest_flights data s) as [s' r] eqn:E.
  simpl in Hout. subst r. cbn [fst].
  destruct (ref_extract_result data s s' out E)
    as (flights & items & ranked & s1 & _ & Hiter & _ & -> & ->).
  destruct (growing_ref_iter flights (s ++ [ListObj []])%list) as [fresh Hf].
  rewrite Hiter in Hf. cbn [fst] in Hf. subst s1.
  assert (Hlen : (List.length s
                  < S (List.length ((s ++ [ListObj []]) ++ fresh)))%nat).
  { rewrite !length_app. simpl. lia. }
  split; [exact Hlen|]. split.
  - apply nth_error_None. lia.
  - exists (firstn 3 ranked). split.
    + rewrite nth_error_app2 by lia.
      replace (S _ - _)%nat with 1%nat by lia. reflexivity.
    + rewrite length_firstn. lia.
Qed.

Lemma extract_cheapest_flights_returns_new_list_witness :
  (List.length sample_store < 11)%nat
  /\ nth_error sample_store 11 = None
  /\ exists picked,
       nth_error (fst (ref_extract_cheapest_flights 8 sample_store)) 11
       = Some (ListObj picked)
       /\ (List.length picked <= 3)%nat.
Proof.
  exact (extract_cheapest_flights_returns_new_list sample_store 8 11 eq_refl).
Defined.

(* ================================================================== *)
(** * The timestamp formatter: every output, and the lenient inputs *)
(* ================================================================== *)

(** X6.  Every output of the formatter is the placeholder or the
    rendering of a date and a time: whatever the input, the result is
    ["N/A"], or it is the rendering ["DD Mon Y | HH:MM AM/PM"] of the
    fields of a date of the calendar and a time of the day that
    [strptime] read from the input.  The year is rendered as the number
    is written, so the rendering has the layout
    ["DD Mon YYYY | HH:MM AM/PM"] exactly when the year is 1000 or
    later. *)
Theorem format_datetime_output_shape :
  forall t : value,
    format_datetime t = "N/A"
    \/ exists y mo d h mi : Z,
         strptime t "%Y-%m-%d %H:%M" = Ok (mk_datetime y mo d h mi)
         /\ calendar_date y mo d = true
         /\ time_of_day h mi = true
         /\ format_datetime t = rendering y mo d h mi
         /\ (rendering_layout (format_datetime t) = true <-> (1000 <= y)%Z).
Proof.
  intros t.
  destruct (format_datetime_na_or_rendering t)
    as [H|(y & mo & d & h & mi & Ht & Hdate & Htime & E)];
    [left; exact H|right].
  exists y, mo, d, h, mi.
  split; [exact Ht|]. split; [exact Hdate|]. split; [exact Htime|].
  split; [exact E|].
  rewrite E, (rendering_has_layout y mo d h mi Hdate Htime).
  apply Z.leb_le.
Qed.

(** X7.  How lenient the formatter is: for every date of the calendar and
    time of the day, the month, the day, the hour and the minute may each
    be written with or without their leading zero, a one-digit day may be
    written after a space, and any non-empty run of whitespace (spaces,
    tabs, line ends, the separators 28 to 31, the next-line character 133
    and the no-break space 160) may stand between date and time; all
    these spellings are rendered, as the zero-padded spelling with one
    space is.  Of the 256 characters these twelve are the whitespace. *)
Theorem format_datetime_loose_timestamp :
  (forall (pm : bool) (sd : day_style) (ph pn : bool) (ws : string)
          (y mo d h mi : Z),
     blank ws = true ->
     day_style_ok sd d = true ->
     calendar_date y mo d = true ->
     time_of_day h mi = true ->
     format_datetime (VStr (lenient_text pm sd ph pn ws y mo d h mi))
     = rendering y mo d h mi
     /\ format_datetime (VStr (lenient_text pm sd ph pn ws y mo d h mi))
        = format_datetime (VStr (timestamp_text y mo d h mi)))
  /\ filter is_space (map ascii_of_nat (seq 0 256))
     = map ascii_of_nat [9; 10; 11; 12; 13; 28; 29; 30; 31; 32; 133; 160]%nat.
Proof.
  split; [|reflexivity].
  intros pm sd ph pn ws y mo d h mi Hws Hsd Hdate Htime.
  rewrite (format_datetime_lenient_text pm sd ph pn ws y mo d h mi
             Hws Hsd Hdate Htime).
  split; [reflexivity|].
  rewrite timestamp_text_lenient. symmetry.
  apply format_datetime_lenient_text; [reflexivity|reflexivity|assumption..].
Qed.

Lemma format_datetime_loose_timestamp_witness :
  format_datetime (VStr ("2025-3-5" ++ String (ascii_of_nat 9) " 4:07"))
  = "05 Mar 2025 | 04:07 AM"
  /\ format_datetime (VStr ("0999-3- 5" ++ String (ascii_of_nat 160) "4:7"))
     = "05 Mar 999 | 04:07 AM".
Proof.
  split.
  - exact (proj1 (proj1 format_datetime_loose_timestamp
                    false Plain false true
                    (String (ascii_of_nat 9) " ") 2025%Z 3%Z 5%Z 4%Z 7%Z
                    eq_refl eq_refl eq_refl eq_refl)).
  - exact (proj1 (proj1 format_datetime_loose_timestamp
                    false AfterSpace false false
                    (String (ascii_of_nat 160) "") 999%Z 3%Z 5%Z 4%Z 7%Z
                    eq_refl eq_refl eq_refl eq_refl)).
Defined.

(* ================================================================== *)
(** * The display: cards, warnings, layout *)
(* ================================================================== *)

Lemma py_get_dict (d : list (string * value)) (k : string) (default : value) :
  py_get (VDict d) k default = Ok (get_or d k default).
Proof. unfold py_get, get_or. destruct (dict_lookup k d); reflexivity. Qed.

Lemma bind_lift_Ok {A B} (a : A) (k : A -> run B) (h : list event) :
  bind (lift (Ok a)) k h = k a h.
Proof. reflexivity. Qed.

Lemma bind_lift_Raise {A B} (e : exn) (k : A -> run B) (h : list event) :
  bind (lift (Raise e)) k h = (h, Raise e).
Proof. reflexivity. Qed.

(** X8.  What the loop does with the ["flights"] entry of an offer,
    whatever it holds.  A value that counts as false ([null], [false], 0,
    the empty string, the empty list, the empty object) gives the warning
    "Flight details unavailable" like a missing entry.  Any other value
    that is not a list of segments makes the turn raise before anything is
    shown: a non-empty string and a list whose first segment is no object
    have no [get] ([AttributeError]), an object has no entry 0
    ([KeyError]), a number cannot be subscripted ([TypeError]); so does an
    offer that is no object. *)
Theorem render_offer_flights_entry :
  forall (ui : inputs) (idx : nat) (h : list event),
    (forall (d : list (string * value)) (v : value),
       dict_lookup "flights" d = Some v -> truthy v = false ->
       render_offer ui idx (VDict d) h
       = ((h ++ [Show (Column idx) (Warning "Flight details unavailable")])%list,
          Ok tt))
    /\ (forall (d : list (string * value)) (c : ascii) (s : string),
          dict_lookup "flights" d = Some (VStr (String c s)) ->
          render_offer ui idx (VDict d) h = (h, Raise AttributeError))
    /\ (forall (d : list (string * value)) (seg : value) (segs : list value),
          dict_lookup "flights" d = Some (VList (seg :: segs)) ->
          is_dict seg = false ->
          render_offer ui idx (VDict d) h = (h, Raise AttributeError))
    /\ (forall (d : list (string * value)) (kv : string * value)
               (entries : list (string * value)),
          dict_lookup "flights" d = Some (VDict (kv :: entries)) ->
          render_offer ui idx (VDict d) h = (h, Raise KeyError))
    /\ (forall (d : list (string * value)) (v : value),
          dict_lookup "flights" d = Some v -> truthy v = true ->
          is_iterable v = false ->
          render_offer ui idx (VDict d) h = (h, Raise TypeError))
    /\ (forall flight : value,
          is_dict flight = false ->
          render_offer ui idx flight h = (h, Raise AttributeError)).
Proof.
  intros ui idx h.
  split; [|split; [|split; [|split; [|split]]]].
  - intros d v Hd Hv. unfold render_offer, py_get. rewrite Hd.
    rewrite bind_lift_Ok, Hv. reflexivity.
  - intros d c s Hd. unfold render_offer, py_get. rewrite Hd. reflexivity.
  - intros d seg segs Hd Hseg. unfold render_offer, py_get. rewrite Hd.
    rewrite bind_lift_Ok. cbn [truthy negb py_subscript].
    rewrite bind_lift_Ok.
    destruct seg; try discriminate Hseg; reflexivity.
  - intros d kv entries Hd. unfold render_offer, py_get. rewrite Hd.
    reflexivity.
  - intros d v Hd Hv Hit. unfold render_offer, py_get. rewrite Hd.
    rewrite bind_lift_Ok, Hv.
    destruct v; try discriminate Hit; reflexivity.
  - intros flight Hf. destruct flight; try discriminate Hf; reflexivity.
Qed.

(** X9.  What a card shows.  For an offer with at least one segment, the
    segments being objects whose airports, when present, are objects: the
    airline is the first segment's, or "Unknown Airline"; the departure is
    the formatted time of the first segment's departure airport and the
    arrival the formatted time of the last segment's arrival airport, so a
    journey with stops shows its two ends; duration and price are the
    offer's, or "N/A"; the link is the booking link of the inputs.  The
    turn shows this one card in the offer's column and raises nothing. *)
Theorem render_offer_card :
  forall (ui : inputs) (idx : nat) (h : list event)
         (d first final departure arrival : list (string * value))
         (seg : value) (segs : list value),
    dict_lookup "flights" d = Some (VList (seg :: segs)) ->
    seg = VDict first ->
    last segs seg = VDict final ->
    get_or first "departure_airport" (VDict []) = VDict departure ->
    get_or final "arrival_airport" (VDict []) = VDict arrival ->
    render_offer ui idx (VDict d) h
    = ((h ++ [Show (Column idx)
                (Card (mk_card
                         (get_or first "airline" (VStr "Unknown Airline"))
                         (format_datetime (get_or departure "time" (VStr "")))
                         (format_datetime (get_or arrival "time" (VStr "")))
                         (get_or d "total_duration" (VStr "N/A"))
                         (get_or d "price" (VStr "N/A"))
                         (build_google_flights_link
                            (source ui) (destination ui)
                            (departure_date ui) (return_date ui))))])%list,
       Ok tt).
Proof.
  intros ui idx h d first final departure arrival seg segs
         Hd Hseg Hlast Hdep Harr.
  assert (Hfl : get_or d "flights" (VList []) = VList (VDict first :: segs)).
  { unfold get_or. rewrite Hd, Hseg. reflexivity. }
  subst seg. unfold render_offer.
  rewrite !py_get_dict, bind_lift_Ok, Hfl.
  cbn [truthy negb py_subscript]. rewrite Hlast.
  repeat first [ rewrite bind_lift_Ok | rewrite py_get_dict
               | rewrite Hdep | rewrite Harr ].
  reflexivity.
Qed.

Lemma render_offer_card_witness :
  render_offer sample_inputs 2 (VDict connecting_offer) []
  = ([Show (Column 2)
        (Card (mk_card (VStr "IndiGo")
                       "10 Mar 2025 | 06:15 AM" "10 Mar 2025 | 11:20 AM"
                       (VStr "N/A") (VInt 9000)
                       "https://www.google.com/travel/flights?q=Flights%20from%20BOM%20to%20DEL%20on%202025-03-10%20returning%202025-03-15"))],
     Ok tt).
Proof.
  exact (render_offer_card sample_inputs 2 []
           connecting_offer first_leg second_leg
           (airport "BOM" "2025-03-10 06:15") (airport "DEL" "2025-03-10 11:20")
           (VDict first_leg) [VDict second_leg]
           eq_refl eq_refl eq_refl eq_refl eq_refl).
Defined.



(** The display, step by step. *)
Lemma display_run (ui : inputs) (cheapest_flights : list value)
      (research hotels itinerary : string) (h : list event) :
  display ui cheapest_flights research hotels itinerary h
  = match cheapest_flights with
    | [] =>
        ((h ++ Show Main (Subheader "✈️ Cheapest Flights")
            :: Show Main (Warning "⚠️ No flights found")
            :: plan_texts hotels itinerary)%list, Ok tt)
    | _ :: _ =>
        match render_offers ui 0 cheapest_flights
                (h ++ [Show Main (Subheader "✈️ Cheapest Flights");
                       Show Main (Columns (List.length cheapest_flights))])%list
        with
        | (h', Ok _) => ((h' ++ plan_texts hotels itinerary)%list, Ok tt)
        | (h', Raise e) => (h', Raise e)
        end
    end.
Proof.
  unfold display. rewrite bind_show.
  destruct cheapest_flights as [|o offers].
  - rewrite !bind_show. unfold show, emit, plan_texts.
    rewrite <- !app_assoc. reflexivity.
  - unfold bind at 1. rewrite bind_show. rewrite <- app_assoc.
    cbn [app].
    destruct (render_offers ui 0 (o :: offers) _) as [h' [[]|e]];
      [|reflexivity].
    rewrite !bind_show. unfold show, emit, plan_texts.
    rewrite <- !app_assoc. reflexivity.
Qed.


(* ================================================================== *)
(** * Runs of the script: what is sent, in which order, and when the plan
      is shown *)
(* ================================================================== *)

Lemma emits_ret {A} (P : event -> Prop) (a : A) : emits P (ret a).
Proof. intros h. exists []. rewrite app_nil_r. split; [reflexivity|constructor]. Qed.

Lemma emits_lift {A} (P : event -> Prop) (r : result A) : emits P (lift r).
Proof. intros h. exists []. rewrite app_nil_r. split; [reflexivity|constructor]. Qed.

Lemma emits_emit (P : event -> Prop) (e : event) : P e -> emits P (emit e).
Proof.
  intros He h. exists [e]. split; [reflexivity|]. constructor; [exact He|constructor].
Qed.

Lemma emits_bind {A B} (P : event -> Prop) (c : run A) (k : A -> run B) :
  emits P c -> (forall a, emits P (k a)) -> emits P (bind c k).
Proof.
  intros Hc Hk h. unfold bind.
  destruct (Hc h) as (new1 & E1 & F1).
  destruct (c h) as [h' [a|e]]; cbn [fst] in E1; subst h'.
  - destruct (Hk a (h ++ new1)%list) as (new2 & E2 & F2).
    exists (new1 ++ new2)%list. rewrite E2, app_assoc.
    split; [reflexivity|]. apply Forall_app. split; assumption.
  - exists new1. split; [reflexivity|exact F1].
Qed.

Section EmitsDisplay.

Variable ui : inputs.
Variable P : event -> Prop.

Hypothesis P_show :
  forall (p : place) (el : element),
    (forall c, el = Card c -> card_of_inputs ui c) -> P (Show p el).

Lemma emits_show_plain (p : place) (el : element) :
  (forall c, el <> Card c) -> emits P (show p el).
Proof.
  intros Hel. apply emits_emit. apply P_show.
  intros c Hc. exfalso. exact (Hel c Hc).
Qed.

Lemma emits_render_offer (idx : nat) (flight : value) :
  emits P (render_offer ui idx flight).
Proof.
  unfold render_offer.
  apply emits_bind; [apply emits_lift|]. intros flights_info.
  destruct (negb (truthy flights_info)).
  { apply emits_show_plain. discriminate. }
  repeat (apply emits_bind; [apply emits_lift|intros ?]).
  apply emits_emit. apply P_show. intros c Hc. injection Hc as <-.
  split; [reflexivity|]. split; eexists; reflexivity.
Qed.

Lemma emits_render_offers (offers : list value) (idx : nat) :
  emits P (render_offers ui idx offers).
Proof.
  revert idx. induction offers as [|o offers IH]; intros idx; cbn [render_offers].
  - apply emits_ret.
  - apply emits_bind; [apply emits_render_offer|]. intros _. apply IH.
Qed.

Lemma emits_display (cheapest_flights : list value)
      (research hotels itinerary : string) :
  emits P (display ui cheapest_flights research hotels itinerary).
Proof.
  unfold display.
  apply emits_bind; [apply emits_show_plain; discriminate|]. intros _.
  apply emits_bind.
  - destruct cheapest_flights as [|o offers];
      [apply emits_show_plain; discriminate|].
    apply emits_bind; [apply emits_show_plain; discriminate|]. intros _.
    apply emits_render_offers.
  - intros _.
    repeat first [ apply emits_bind;
                   [apply emits_show_plain; discriminate|intros ?]
                 | apply emits_show_plain; discriminate ].
Qed.

End EmitsDisplay.

Lemma run_event_show (env : environment) (ui : inputs)
      (p : place) (el : element) :
  (forall c, el = Card c -> card_of_inputs ui c) ->
  run_event env ui (Show p el).
Proof.
  intros H. destruct el; cbn; try exact I. apply H. reflexivity.
Qed.

Lemma emits_run_ai (env : environment) (ui : inputs) (w : world)
      (prompt : string) :
  emits (run_event env ui) (run_ai w prompt).
Proof.
  intros h. exists [ChatCompletion (chat_request_for prompt)].
  split; [reflexivity|]. constructor; [|constructor].
  exists prompt. reflexivity.
Qed.

(** X11.  Whatever the keys, the inputs, the services' answers and the
    history the run starts from, every request a run sends and every card
    it shows is built from the inputs of that run.  A flight search
    carries the payload of the inputs.  A request to the model is always
    for the model ["meta-llama/llama-3.1-8b-instruct"], with the fixed
    system message, one user message and the temperature 0.7.  A card's
    booking link is the link for the origin, destination and dates of the
    inputs, the ones the flight search was made with, and its departure
    and arrival are each the placeholder ["N/A"] or the rendering
    ["DD Mon Y | HH:MM AM/PM"] of a date of the calendar and a time of the
    day, the year as the number is written. *)
Theorem script_events :
  forall (env : environment) (ui : inputs) (w : world) (h : list event),
  exists new : list event,
    fst (script env ui w h) = (h ++ new)%list
    /\ (forall params, In (FlightSearch params) new ->
                       params = flight_params env ui)
    /\ (forall req, In (ChatCompletion req) new ->
                    model req = "meta-llama/llama-3.1-8b-instruct"
                    /\ temperature req = "0.7"
                    /\ exists prompt,
                         messages req
                         = [("system",
                             "You are a professional AI travel planner.");
                            ("user", prompt)])
    /\ (forall p c, In (Show p (Card c)) new ->
                    card_link c
                    = build_google_flights_link
                        (source ui) (destination ui)
                        (departure_date ui) (return_date ui)
                    /\ formatted_time (card_departure c)
                    /\ formatted_time (card_arrival c)).
Proof.
  intros env ui w h.
  assert (Hshow : forall p el, (forall c, el <> Card c) ->
                               emits (run_event env ui) (show p el)).
  { intros p el.
    exact (emits_show_plain ui (run_event env ui) (run_event_show env ui) p el). }
  assert (H : emits (run_event env ui) (script env ui w)).
  { unfold script.
    destruct (absent (SERPAPI_KEY env) || absent (OPENROUTER_API_KEY env)).
    - apply emits_bind; [apply Hshow; discriminate|]. intros _. apply emits_lift.
    - apply emits_bind.
      { unfold page_header.
        repeat first [ apply emits_bind; [apply Hshow; discriminate|intros ?]
                     | apply Hshow; discriminate ]. }
      intros _. apply emits_bind; [apply Hshow; discriminate|]. intros _.
      destruct (generate_clicked ui); [|apply emits_ret].
      unfold generate_plan.
      apply emits_bind; [apply Hshow; discriminate|]. intros _.
      apply emits_bind.
      { intros h0. exists [FlightSearch (flight_params env ui)].
        split; [reflexivity|]. constructor; [reflexivity|constructor]. }
      intros flight_data.
      apply emits_bind; [apply emits_lift|]. intros cheapest.
      apply emits_bind; [apply Hshow; discriminate|]. intros _.
      apply emits_bind; [apply emits_run_ai|]. intros research.
      apply emits_bind; [apply Hshow; discriminate|]. intros _.
      apply emits_bind; [apply emits_run_ai|]. intros hotels.
      apply emits_bind; [apply Hshow; discriminate|]. intros _.
      apply emits_bind; [apply emits_run_ai|]. intros itinerary.
      exact (emits_display ui (run_event env ui) (run_event_show env ui)
               cheapest research hotels itinerary). }
  destruct (H h) as (new & Hnew & Hall).
  exists new. split; [exact Hnew|].
  rewrite Forall_forall in Hall.
  split; [|split].
  - intros params Hin. exact (Hall _ Hin).
  - intros req Hin. destruct (Hall _ Hin) as [prompt ->].
    split; [reflexivity|]. split; [reflexivity|]. exists prompt. reflexivity.
  - intros p c Hin.
    destruct (Hall _ Hin) as (Hlink & [dep Hdep] & [arr Harr]).
    split; [exact Hlink|]. rewrite Hdep, Harr.
    split; apply format_datetime_formatted_time.
Qed.

(** ** The run, request by request *)

Lemma bind_run_ai {B} (w : world) (prompt : string) (k : string -> run B)
      (h : list event) :
  bind (run_ai w prompt) k h
  = match chat_api w h (chat_request_for prompt) with
    | Ok text =>
        k text (h ++ [ChatCompletion (chat_request_for prompt)])%list
    | Raise e =>
        ((h ++ [ChatCompletion (chat_request_for prompt)])%list, Raise e)
    end.
Proof. unfold bind, run_ai. destruct (chat_api w h _); reflexivity. Qed.

Lemma generate_plan_run (env : environment) (ui : inputs) (w : world)
      (h : list event) :
  generate_plan env ui w h
  = match serp_api w (h ++ [Show Main (Spinner "✈️ Fetching flights...")])%list
                   (flight_params env ui) with
    | Raise e =>
        ((h ++ [Show Main (Spinner "✈️ Fetching flights...");
                FlightSearch (flight_params env ui)])%list, Raise e)
    | Ok flight_data =>
    match extract_cheapest_flights flight_data with
    | Raise e =>
        ((h ++ [Show Main (Spinner "✈️ Fetching flights...");
                FlightSearch (flight_params env ui)])%list, Raise e)
    | Ok cheapest_flights =>
    match chat_api w
            (h ++ [Show Main (Spinner "✈️ Fetching flights...");
                   FlightSearch (flight_params env ui);
                   Show Main (Spinner "🔍 Researching destination...")])%list
            (chat_request_for (research_prompt ui)) with
    | Raise e =>
        ((h ++ [Show Main (Spinner "✈️ Fetching flights...");
                FlightSearch (flight_params env ui);
                Show Main (Spinner "🔍 Researching destination...");
                ChatCompletion (chat_request_for (research_prompt ui))])%list,
         Raise e)
    | Ok research =>
    match chat_api w
            (h ++ [Show Main (Spinner "✈️ Fetching flights...");
                   FlightSearch (flight_params env ui);
                   Show Main (Spinner "🔍 Researching destination...");
                   ChatCompletion (chat_request_for (research_prompt ui));
                   Show Main (Spinner "🏨 Finding hotels & food...")])%list
            (chat_request_for (hotels_prompt ui)) with
    | Raise e =>
        ((h ++ [Show Main (Spinner "✈️ Fetching flights...");
                FlightSearch (flight_params env ui);
                Show Main (Spinner "🔍 Researching destination...");
                ChatCompletion (chat_request_for (research_prompt ui));
                Show Main (Spinner "🏨 Finding hotels & food...");
                ChatCompletion (chat_request_for (hotels_prompt ui))])%list,
         Raise e)
    | Ok hotels =>
    match chat_api w
            (h ++ [Show Main (Spinner "✈️ Fetching flights...");
                   FlightSearch (flight_params env ui);
                   Show Main (Spinner "🔍 Researching destination...");
                   ChatCompletion (chat_request_for (research_prompt ui));
                   Show Main (Spinner "🏨 Finding hotels & food...");
                   ChatCompletion (chat_request_for (hotels_prompt ui));
                   Show Main (Spinner "🗺️ Creating itinerary...")])%list
            (chat_request_for (itinerary_prompt ui w cheapest_flights)) with
    | Raise e =>
        ((h ++ [Show Main (Spinner "✈️ Fetching flights...");
                FlightSearch (flight_params env ui);
                Show Main (Spinner "🔍 Researching destination...");
                ChatCompletion (chat_request_for (research_prompt ui));
                Show Main (Spinner "🏨 Finding hotels & food...");
                ChatCompletion (chat_request_for (hotels_prompt ui));
                Show Main (Spinner "🗺️ Creating itinerary...");
                ChatCompletion
                  (chat_request_for (itinerary_prompt ui w cheapest_flights))])%list,
         Raise e)
    | Ok itinerary =>
        display ui cheapest_flights research hotels itinerary
          (h ++ [Show Main (Spinner "✈️ Fetching flights...");
                 FlightSearch (flight_params env ui);
                 Show Main (Spinner "🔍 Researching destination...");
                 ChatCompletion (chat_request_for (research_prompt ui));
                 Show Main (Spinner "🏨 Finding hotels & food...");
                 ChatCompletion (chat_request_for (hotels_prompt ui));
                 Show Main (Spinner "🗺️ Creating itinerary...");
                 ChatCompletion
                   (chat_request_for (itinerary_prompt ui w cheapest_flights))])%list
    end end end end end.
Proof.
  unfold generate_plan. rewrite bind_show.
  unfold bind at 1. unfold fetch_flights at 1.
  destruct (serp_api w _ (flight_params env ui)) as [flight_data|e];
    [|rewrite <- app_assoc; reflexivity].
  destruct (extract_cheapest_flights flight_data) as [cheapest|e];
    [|rewrite <- app_assoc; reflexivity].
  rewrite bind_lift_Ok, bind_show, bind_run_ai.
  rewrite <- !app_assoc. cbn [app].
  destruct (chat_api w _ (chat_request_for (research_prompt ui)))
    as [research|e]; [|reflexivity].
  rewrite bind_show, bind_run_ai.
  rewrite <- !app_assoc. cbn [app].
  destruct (chat_api w _ (chat_request_for (hotels_prompt ui)))
    as [hotels|e]; [|reflexivity].
  rewrite bind_show, bind_run_ai.
  rewrite <- !app_assoc. cbn [app].
  destruct (chat_api w _ (chat_request_for (itinerary_prompt ui w cheapest)))
    as [itinerary|e]; reflexivity.
Qed.

Lemma script_not_clicked (env : environment) (ui : inputs) (w : world) :
  absent (SERPAPI_KEY env) = false ->
  absent (OPENROUTER_API_KEY env) = false ->
  generate_clicked ui = false ->
  script env ui w []
  = ((fst (page_header []) ++ [Show Main (Input "🚀 Generate Travel Plan")])%list,
     Ok tt).
Proof.
  intros Hserp Hrouter Hclick.
  unfold script. rewrite Hserp, Hrouter, Hclick. reflexivity.
Qed.

(** A run with both keys and the button clicked, from the empty history:
    each request is sent at its moment, and the first failure ends the
    run. *)
Lemma script_clicked (env : environment) (ui : inputs) (w : world) :
  absent (SERPAPI_KEY env) = false ->
  absent (OPENROUTER_API_KEY env) = false ->
  generate_clicked ui = true ->
  script env ui w []
  = match serp_api w history_at_search (flight_params env ui) with
    | Raise e =>
        ((history_at_search ++ [FlightSearch (flight_params env ui)])%list,
         Raise e)
    | Ok flight_data =>
    match extract_cheapest_flights flight_data with
    | Raise e =>
        ((history_at_search ++ [FlightSearch (flight_params env ui)])%list,
         Raise e)
    | Ok cheapest_flights =>
    match chat_api w (history_at_research env ui)
                   (chat_request_for (research_prompt ui)) with
    | Raise e =>
        ((history_at_research env ui
          ++ [ChatCompletion (chat_request_for (research_prompt ui))])%list,
         Raise e)
    | Ok research =>
    match chat_api w (history_at_hotels env ui)
                   (chat_request_for (hotels_prompt ui)) with
    | Raise e =>
        ((history_at_hotels env ui
          ++ [ChatCompletion (chat_request_for (hotels_prompt ui))])%list,
         Raise e)
    | Ok hotels =>
    match chat_api w (history_at_itinerary env ui)
                   (chat_request_for (itinerary_prompt ui w cheapest_flights))
    with
    | Raise e => (history_before_display env ui w cheapest_flights, Raise e)
    | Ok itinerary =>
        display ui cheapest_flights research hotels itinerary
                (history_before_display env ui w cheapest_flights)
    end end end end end.
Proof.
  intros Hserp Hrouter Hclick.
  assert (E : script env ui w []
              = generate_plan env ui w
                  (fst (page_header [])
                   ++ [Show Main (Input "🚀 Generate Travel Plan")])%list).
  { unfold script. rewrite Hserp, Hrouter, Hclick. reflexivity. }
  rewrite E, generate_plan_run. reflexivity.
Qed.

Lemma requests_app (h new : list event) :
  requests (h ++ new)%list = (requests h ++ requests new)%list.
Proof. apply filter_app. Qed.

Lemma requests_none (new : list event) :
  Forall (fun e => is_request e = false) new -> requests new = [].
Proof.
  induction 1 as [|e new He _ IH]; [reflexivity|].
  unfold requests in *. cbn [filter]. rewrite He. exact IH.
Qed.

(** The display sends nothing. *)
Lemma requests_display (ui : inputs) (cheapest_flights : list value)
      (research hotels itinerary : string) (h : list event) :
  requests (fst (display ui cheapest_flights research hotels itinerary h))
  = requests h.
Proof.
  destruct (emits_display ui (fun e => is_request e = false)
              (fun p el _ => eq_refl)
              cheapest_flights research hotels itinerary h)
    as (new & -> & Hnew).
  rewrite requests_app, (requests_none new Hnew). apply app_nil_r.
Qed.

(** X12.  The requests of a run, in order.  A run without one of the two
    keys, or in which the button was not clicked, sends nothing.
    Otherwise the run sends the flight search; if the provider answers
    and the selector returns, the research request; if the model answers
    it, the hotels request; if the model answers that, the itinerary
    request; and nothing else.  So a run sends at most four requests,
    each at most once and in this order, and after a failed request, or a
    failure of the selector, it sends none. *)
Theorem requests_in_order :
  forall (env : environment) (ui : inputs) (w : world),
    requests (fst (script env ui w []))
    = (if absent (SERPAPI_KEY env) || absent (OPENROUTER_API_KEY env)
          || negb (generate_clicked ui)
       then []
       else
         match serp_api w history_at_search (flight_params env ui) with
         | Raise _ => [FlightSearch (flight_params env ui)]
         | Ok flight_data =>
         match extract_cheapest_flights flight_data with
         | Raise _ => [FlightSearch (flight_params env ui)]
         | Ok cheapest_flights =>
         match chat_api w (history_at_research env ui)
                        (chat_request_for (research_prompt ui)) with
         | Raise _ =>
             [FlightSearch (flight_params env ui);
              ChatCompletion (chat_request_for (research_prompt ui))]
         | Ok _ =>
         match chat_api w (history_at_hotels env ui)
                        (chat_request_for (hotels_prompt ui)) with
         | Raise _ =>
             [FlightSearch (flight_params env ui);
              ChatCompletion (chat_request_for (research_prompt ui));
              ChatCompletion (chat_request_for (hotels_prompt ui))]
         | Ok _ =>
             [FlightSearch (flight_params env ui);
              ChatCompletion (chat_request_for (research_prompt ui));
              ChatCompletion (chat_request_for (hotels_prompt ui));
              ChatCompletion
                (chat_request_for (itinerary_prompt ui w cheapest_flights))]
         end end end end)
    /\ (exists (n : nat) (cheapest_flights : list value),
          requests (fst (script env ui w []))
          = firstn n (plan_requests env ui w cheapest_flights))
    /\ (generate_clicked ui = false ->
        requests (fst (script env ui w [])) = []).
Proof.
  intros env ui w.
  destruct (absent (SERPAPI_KEY env)) eqn:Hserp.
  { assert (E : requests (fst (script env ui w [])) = []).
    { unfold script. rewrite Hserp. reflexivity. }
    rewrite E.
    split; [reflexivity|split; [exists 0%nat, []; reflexivity|reflexivity]]. }
  destruct (absent (OPENROUTER_API_KEY env)) eqn:Hrouter.
  { assert (E : requests (fst (script env ui w [])) = []).
    { unfold script. rewrite Hserp, Hrouter. reflexivity. }
    rewrite E.
    split; [reflexivity|split; [exists 0%nat, []; reflexivity|reflexivity]]. }
  destruct (generate_clicked ui) eqn:Hclick.
  2:{ rewrite (script_not_clicked env ui w Hserp Hrouter Hclick).
      split; [reflexivity|split; [exists 0%nat, []; reflexivity|reflexivity]]. }
  cbn [orb negb].
  rewrite (script_clicked env ui w Hserp Hrouter Hclick).
  destruct (serp_api w history_at_search (flight_params env ui))
    as [flight_data|e];
    [|split; [reflexivity|split; [exists 1%nat, []; reflexivity|discriminate]]].
  destruct (extract_cheapest_flights flight_data) as [cheapest|e];
    [|split; [reflexivity|split; [exists 1%nat, []; reflexivity|discriminate]]].
  destruct (chat_api w (history_at_research env ui) _) as [research|e];
    [|split; [reflexivity
             |split; [exists 2%nat, cheapest; reflexivity|discriminate]]].
  destruct (chat_api w (history_at_hotels env ui) _) as [hotels|e];
    [|split; [reflexivity
             |split; [exists 3%nat, cheapest; reflexivity|discriminate]]].
  destruct (chat_api w (history_at_itinerary env ui) _) as [itinerary|e];
    [|split; [reflexivity
             |split; [exists 4%nat, cheapest; reflexivity|discriminate]]].
  rewrite requests_display.
  split; [reflexivity|split; [exists 4%nat, cheapest; reflexivity|discriminate]].
Qed.




(** X14.  A run that ends normally after a click has shown the whole
    plan but the research: the four requests were sent, in order, and
    answered; the offers on the page are the ones the selector took from
    the provider's answer, the hotels text and the itinerary text are the
    model's answers to the hotels and to the itinerary request, and the
    itinerary request carried the selected offers as JSON text. *)
Theorem successful_run :
  forall (env : environment) (ui : inputs) (w : world),
    generate_clicked ui = true ->
    snd (script env ui w []) = Ok tt ->
    exists (cheapest_flights : list value) (research hotels itinerary : string)
           (flights_block : list event),
      plan_of_run env ui w cheapest_flights research hotels itinerary
      /\ fst (script env ui w [])
         = (history_before_display env ui w cheapest_flights
            ++ Show Main (Subheader "✈️ Cheapest Flights")
            :: flights_block ++ plan_texts hotels itinerary)%list
      /\ requests (fst (script env ui w []))
         = plan_requests env ui w cheapest_flights
      /\ In (ChatCompletion
               (chat_request_for
                  ("Create a detailed " ++ dec (num_days ui)
                   ++ "-day itinerary for " ++ destination ui ++ ". "
                   ++ "Theme: " ++ travel_theme ui
                   ++ ". Budget: " ++ budget ui ++ ". "
                   ++ "Activities: " ++ activity_preferences ui ++ ". "
                   ++ "Flights: " ++ json_dumps w cheapest_flights ++ ".")))
            (fst (script env ui w [])).
Proof.
  intros env ui w Hclick Hok.
  destruct (absent (SERPAPI_KEY env)) eqn:Hserp.
  { exfalso. unfold script in Hok. rewrite Hserp in Hok. discriminate Hok. }
  destruct (absent (OPENROUTER_API_KEY env)) eqn:Hrouter.
  { exfalso. unfold script in Hok. rewrite Hserp, Hrouter in Hok.
    discriminate Hok. }
  pose proof (script_clicked env ui w Hserp Hrouter Hclick) as E.
  destruct (serp_api w history_at_search (flight_params env ui))
    as [flight_data|e] eqn:E1; [|exfalso; rewrite E in Hok; discriminate Hok].
  destruct (extract_cheapest_flights flight_data) as [cheapest|e] eqn:E2;
    [|exfalso; rewrite E in Hok; discriminate Hok].
  destruct (chat_api w (history_at_research env ui) _) as [research|e] eqn:E3;
    [|exfalso; rewrite E in Hok; discriminate Hok].
  destruct (chat_api w (history_at_hotels env ui) _) as [hotels|e] eqn:E4;
    [|exfalso; rewrite E in Hok; discriminate Hok].
  destruct (chat_api w (history_at_itinerary env ui) _) as [itinerary|e] eqn:E5;
    [|exfalso; rewrite E in Hok; discriminate Hok].
  assert (Hplan : plan_of_run env ui w cheapest research hotels itinerary).
  { exists flight_data. repeat split; assumption. }
  clear E1 E2 E3 E4 E5.
  rewrite E in Hok. rewrite E.
  set (h := history_before_display env ui w cheapest) in *.
  rewrite display_run in Hok. rewrite requests_display. rewrite display_run.
  assert (Hreq : In (ChatCompletion
                       (chat_request_for (itinerary_prompt ui w cheapest))) h).
  { subst h. unfold history_before_display. apply in_or_app. right.
    left. reflexivity. }
  destruct cheapest as [|o offers].
  - exists [], research, hotels, itinerary,
           [Show Main (Warning "⚠️ No flights found")].
    split; [exact Hplan|]. split; [reflexivity|]. split; [reflexivity|].
    cbn [fst]. apply in_or_app. left. exact Hreq.
  - destruct (growing_render_offers ui (o :: offers) 0
                (h ++ [Show Main (Subheader "✈️ Cheapest Flights");
                       Show Main (Columns (List.length (o :: offers)))])%list)
      as [cols Hcols].
    destruct (render_offers ui 0 (o :: offers) _) as [h' [[]|e]];
      [|discriminate Hok].
    cbn [fst] in *. subst h'.
    exists (o :: offers), research, hotels, itinerary,
           (Show Main (Columns (List.length (o :: offers))) :: cols).
    split; [exact Hplan|]. split; [|split; [reflexivity|]].
    + rewrite <- !app_assoc. reflexivity.
    + apply in_or_app. left. apply in_or_app. left. apply in_or_app. left.
      exact Hreq.
Qed.

Lemma successful_run_witness :
  exists (cheapest_flights : list value) (research hotels itinerary : string)
         (flights_block : list event),
    plan_of_run sample_environment sample_inputs
      (sample_world (response_with [])) cheapest_flights research hotels itinerary
    /\ fst (script sample_environment sample_inputs
              (sample_world (response_with [])) [])
       = (history_before_display sample_environment sample_inputs
            (sample_world (response_with [])) cheapest_flights
          ++ Show Main (Subheader "✈️ Cheapest Flights")
          :: flights_block ++ plan_texts hotels itinerary)%list
    /\ requests (fst (script sample_environment sample_inputs
                        (sample_world (response_with [])) []))
       = plan_requests sample_environment sample_inputs
           (sample_world (response_with [])) cheapest_flights
    /\ In (ChatCompletion
             (chat_request_for
                ("Create a detailed " ++ dec (num_days sample_inputs)
                 ++ "-day itinerary for " ++ destination sample_inputs ++ ". "
                 ++ "Theme: " ++ travel_theme sample_inputs
                 ++ ". Budget: " ++ budget sample_inputs ++ ". "
                 ++ "Activities: " ++ activity_preferences sample_inputs ++ ". "
                 ++ "Flights: "
                 ++ json_dumps (sample_world (response_with [])) cheapest_flights
                 ++ ".")))
          (fst (script sample_environment sample_inputs
                  (sample_world (response_with [])) [])).
Proof.
  exact (successful_run sample_environment sample_inputs
           (sample_world (response_with [])) eq_refl eq_refl).
Defined.

(** X15.  The script catches nothing in the plan generation: with both
    keys and the button clicked, when the flight search fails, or the
    selector raises on the provider's answer, the run ends with that very
    exception right after the flight request, and no request is sent to
    the model. *)
Theorem failed_search_ends_run :
  forall (env : environment) (ui : inputs) (w : world) (e : exn),
    absent (SERPAPI_KEY env) = false ->
    absent (OPENROUTER_API_KEY env) = false ->
    generate_clicked ui = true ->
    serp_api w history_at_search (flight_params env ui) = Raise e
    \/ (exists flight_data,
           serp_api w history_at_search (flight_params env ui) = Ok flight_data
           /\ extract_cheapest_flights flight_data = Raise e) ->
    script env ui w []
    = ((history_at_search ++ [FlightSearch (flight_params env ui)])%list,
       Raise e)
    /\ requests (fst (script env ui w []))
       = [FlightSearch (flight_params env ui)].
Proof.
  intros env ui w e Hserp Hrouter Hclick Hfail.
  assert (E : script env ui w []
              = ((history_at_search
                  ++ [FlightSearch (flight_params env ui)])%list, Raise e)).
  { rewrite (script_clicked env ui w Hserp Hrouter Hclick).
    destruct Hfail as [->|(flight_data & -> & ->)]; reflexivity. }
  rewrite E. split; reflexivity.
Qed.

Lemma failed_search_ends_run_witness :
  script sample_environment sample_inputs
         (sample_world (VDict [("best_flights", VStr "quota exceeded")])) []
  = ((history_at_search
      ++ [FlightSearch (flight_params sample_environment sample_inputs)])%list,
     Raise AttributeError)
  /\ requests
       (fst (script sample_environment sample_inputs
               (sample_world (VDict [("best_flights", VStr "quota exceeded")]))
               []))
     = [FlightSearch (flight_params sample_environment sample_inputs)].
Proof.
  apply (failed_search_ends_run sample_environment sample_inputs
           (sample_world (VDict [("best_flights", VStr "quota exceeded")]))
           AttributeError eq_refl eq_refl eq_refl).
  right. eexists. split; reflexivity.
Defined.

